(** * Financial portfolio tracker: the persistence layer of Backend.py

    A shallow embedding of Backend.py (and of the guarded percentage of
    Frontend.py) with the properties of its specification.

    - Part I   : Python numbers: binary64 floats and decimal.Decimal
    - Part II  : the relational store behind psycopg2
    - Part III : the functions of Backend.py and Frontend.py, sample data
    - Part IV  : lemmas and the properties of the specification
    - Part V   : further properties of the two files *)

From Stdlib Require Import ZArith QArith Qabs Qpower List String Ascii Bool Lia Lqa.
From Stdlib Require Import DecimalString SpecFloat Permutation.
Import ListNotations.

Open Scope Z_scope.

(* ===================================================================== *)
(** * Part I.a  Python floats (IEEE 754 binary64)                          *)
(* ===================================================================== *)

(** Rounding a quotient by D to the nearest integer, ties to the even one,
    from the floor q and the remainder r. *)
Definition half_even (D q r : Z) : Z :=
  if 2 * r <? D then q
  else if D <? 2 * r then q + 1
  else if Z.even q then q else q + 1.

(** Every finite binary64 number is an integer multiple of 2^-1074, the
    least subnormal.  A float is modelled by that integer: [x : float]
    stands for the real number x * 2^-1074.  Order and equality of floats are
    those of Z.  Infinities and NaN are not represented; the float
    expressions of Backend.py stay between -1 and 2. *)
Module Float.

Definition float := Z.

Definition emin : Z := 1074.

(** The float m * 2^e, for -1074 <= e. *)
Definition b64 (m e : Z) : float := m * 2 ^ (e + emin).

Definition of_int (n : Z) : float := b64 n 0.

(** Significands have 53 bits. *)
Definition mant_bits : Z := 53.

Definition is_binary64 (x : float) : bool :=
  let a := Z.abs x in
  let s := Z.max 0 (Z.log2 a + 1 - mant_bits) in
  (a mod 2 ^ s =? 0) && (a <? 2 ^ (1024 + emin)).

(** [n / 2^s] rounded to the nearest integer, ties to the even one
    (0 <= n, 0 <= s). *)
Definition rne_shift (n s : Z) : Z :=
  half_even (2 ^ s) (n / 2 ^ s) (n mod 2 ^ s).

(** Rounding to nearest, ties to even, of the non-negative real
    n * 2^-(1074+u) to a binary64 number: the result keeps 53 significant
    bits, or fewer in the subnormal range. *)
Definition round_pos (u n : Z) : float :=
  let s := Z.max u (Z.log2 n + 1 - mant_bits) in
  rne_shift n s * 2 ^ (s - u).

Definition round_b64 (u n : Z) : float :=
  if n <? 0 then - round_pos u (- n) else round_pos u n.

(** Python's [x + y], [x - y] and [x * y] on floats: the exact result,
    rounded.  The exact product of two floats is a multiple of 2^-2148. *)
Definition add (x y : float) : float := round_b64 0 (x + y).
Definition sub (x y : float) : float := round_b64 0 (x - y).
Definition mul (x y : float) : float := round_b64 emin (x * y).

(** The literals of Backend.py: [0.5] is 2^-1, and [0.2] is read as the
    binary64 number nearest to 2/10, 0x1.999999999999ap-3. *)
Definition lit_0_5 : float := b64 1 (-1).
Definition lit_0_2 : float := b64 7205759403792794 (-55).

(** The rational number a float stands for. *)
Definition value (x : float) : Q := (inject_Z x * 2 ^ (- emin))%Q.

(** To and from the Standard Library's specification of IEEE 754 floats,
    where a finite number is a sign, a significand and an exponent. *)
Definition to_spec (x : float) : spec_float :=
  match Z.abs x with
  | Zpos p =>
      let s := Z.max 0 (Z.log2 (Zpos p) + 1 - mant_bits) in
      match Zpos p / 2 ^ s with
      | Zpos m => S754_finite (x <? 0) m (s - emin)
      | _ => S754_zero (x <? 0)
      end
  | _ => S754_zero false
  end.

Definition of_spec (x : spec_float) : option float :=
  match x with
  | S754_zero _ => Some 0
  | S754_finite s m e => Some ((if s then Zneg m else Zpos m) * 2 ^ (e + emin))
  | _ => None
  end.

(** Number of trailing zero bits of a positive number, and the odd part. *)
Fixpoint ctz (p : positive) : Z * positive :=
  match p with
  | xO q => let (t, m) := ctz q in (t + 1, m)
  | _ => (0, p)
  end.

(** [abs(f).as_integer_ratio()]: numerator, and k with denominator 2^k. *)
Definition as_integer_ratio (x : float) : Z * Z :=
  match Z.abs x with
  | Zpos p =>
      let (t, m) := ctz p in
      if emin <=? t then (Zpos m * 2 ^ (t - emin), 0) else (Zpos m, emin - t)
  | _ => (0, 0)
  end.

End Float.

(* ===================================================================== *)
(** * Part I.b  decimal.Decimal in the default context                     *)
(* ===================================================================== *)

(** A finite Decimal is a sign, a non-negative coefficient and an exponent:
    (-1)^sign * int * 10^exp.  The default context has 28 digits of
    precision and rounds half to even.  Its exponent limits (+-999999) are
    out of reach of the values of this program and are not modelled; NaN
    and infinities are not represented. *)
Module Dec.

Record decimal := mkDecimal { _sign : bool; _int : Z; _exp : Z }.

Definition prec : Z := 28.

(** [len(str(n))] for 0 <= n. *)
Fixpoint ndigits_aux (fuel : nat) (n : Z) : Z :=
  match fuel with
  | O => 1
  | S f => if n <? 10 then 1 else 1 + ndigits_aux f (n / 10)
  end.

Definition ndigits (n : Z) : Z := ndigits_aux (Z.to_nat (Z.log2 n)) n.

(** [n / d] rounded to the nearest integer, ties to even (0 <= n, 0 < d). *)
Definition div_half_even (n d : Z) : Z := half_even d (n / d) (n mod d).

(** [Decimal._fix]: round to the precision of the context. *)
Definition _fix (x : decimal) : decimal :=
  if _int x =? 0 then x
  else
    let exp_min := ndigits (_int x) + _exp x - prec in
    if _exp x <? exp_min then
      let coeff := div_half_even (_int x) (10 ^ (exp_min - _exp x)) in
      if prec <? ndigits coeff
      then mkDecimal (_sign x) (coeff / 10) (exp_min + 1)
      else mkDecimal (_sign x) coeff exp_min
    else x.

(** [Decimal._rescale(exp, ROUND_HALF_EVEN)]. *)
Definition _rescale (x : decimal) (exp : Z) : decimal :=
  if _int x =? 0 then mkDecimal (_sign x) 0 exp
  else if exp <=? _exp x then mkDecimal (_sign x) (_int x * 10 ^ (_exp x - exp)) exp
  else mkDecimal (_sign x) (div_half_even (_int x) (10 ^ (exp - _exp x))) exp.

(** [Decimal(n)] for an int and [Decimal(f)] for a float: both exact. *)
Definition of_int (n : Z) : decimal := mkDecimal (n <? 0) (Z.abs n) 0.

Definition from_float (f : Float.float) : decimal :=
  let (n, k) := Float.as_integer_ratio f in
  mkDecimal (f <? 0) (n * 5 ^ k) (- k).

Definition signed (x : decimal) : Z := if _sign x then - _int x else _int x.

Definition copy_negate (x : decimal) : decimal :=
  mkDecimal (negb (_sign x)) (_int x) (_exp x).

(** [x * y]. *)
Definition mul (x y : decimal) : decimal :=
  _fix (mkDecimal (xorb (_sign x) (_sign y)) (_int x * _int y) (_exp x + _exp y)).

(** [x + y].  Where Decimal.__add__ shortens a far smaller operand before
    adding (_normalize), the sum is taken exactly here; after rounding the
    results agree. *)
Definition add (x y : decimal) : decimal :=
  let exp := Z.min (_exp x) (_exp y) in
  if (_int x =? 0) && (_int y =? 0) then
    _fix (mkDecimal (_sign x && _sign y) 0 exp)
  else if _int x =? 0 then
    _fix (_rescale y (Z.max exp (_exp y - prec - 1)))
  else if _int y =? 0 then
    _fix (_rescale x (Z.max exp (_exp x - prec - 1)))
  else
    let s := signed x * 10 ^ (_exp x - exp) + signed y * 10 ^ (_exp y - exp) in
    _fix (mkDecimal (s <? 0) (Z.abs s) exp).

(** [x - y] is [x + y.copy_negate()]. *)
Definition sub (x y : decimal) : decimal := add x (copy_negate y).

(** [Decimal._cmp]: numeric comparison. *)
Definition _cmp (x y : decimal) : comparison :=
  let exp := Z.min (_exp x) (_exp y) in
  (signed x * 10 ^ (_exp x - exp) ?= signed y * 10 ^ (_exp y - exp)).

Definition gt (x y : decimal) : bool :=
  match _cmp x y with Gt => true | _ => false end.

(** The loop of Decimal.__truediv__ that strips trailing zeros of an exact
    quotient up to the ideal exponent. *)
Fixpoint strip_zeros (fuel : nat) (coeff exp ideal_exp : Z) : Z * Z :=
  match fuel with
  | O => (coeff, exp)
  | S f =>
      if (exp <? ideal_exp) && (coeff mod 10 =? 0)
      then strip_zeros f (coeff / 10) (exp + 1) ideal_exp
      else (coeff, exp)
  end.

(** [x / y]; None is the DivisionByZero (or DivisionUndefined) exception. *)
Definition truediv (x y : decimal) : option decimal :=
  let sign := xorb (_sign x) (_sign y) in
  if _int y =? 0 then None
  else if _int x =? 0 then Some (_fix (mkDecimal sign 0 (_exp x - _exp y)))
  else
    let shift := ndigits (_int y) - ndigits (_int x) + prec + 1 in
    let exp := _exp x - _exp y - shift in
    let num := if 0 <=? shift then _int x * 10 ^ shift else _int x in
    let den := if 0 <=? shift then _int y else _int y * 10 ^ (- shift) in
    let coeff := num / den in
    let remainder := num mod den in
    if remainder =? 0 then
      let (c, e) := strip_zeros (Z.to_nat (_exp x - _exp y - exp)) coeff exp
                                (_exp x - _exp y) in
      Some (_fix (mkDecimal sign c e))
    else
      Some (_fix (mkDecimal sign (if coeff mod 5 =? 0 then coeff + 1 else coeff) exp)).

(** The rational number a Decimal stands for. *)
Definition value (x : decimal) : Q := (inject_Z (signed x) * 10 ^ (_exp x))%Q.

(** Coefficients are not negative. *)
Definition wf (x : decimal) : Prop := 0 <= _int x.

(** [str(n)] for an int. *)
Definition string_of_Z (n : Z) : string := NilZero.string_of_int (Z.to_int n).

(** [f"{x:.2f}"]: rescale to two places, then sign, integer part, point and
    two digits. *)
Definition format_2f (x : decimal) : string :=
  let r := _rescale x (-2) in
  let intpart := string_of_Z (_int r / 100) in
  let frac := _int r mod 100 in
  let pad := if frac <? 10 then "0"%string else ""%string in
  let minus := if _sign r then "-"%string else ""%string in
  (minus ++ intpart ++ "." ++ pad ++ string_of_Z frac)%string.

End Dec.

(* ===================================================================== *)
(** * Part II  The relational store behind psycopg2                        *)
(* ===================================================================== *)

Import Dec(decimal).

Open Scope string_scope.
Open Scope list_scope.
Open Scope Z_scope.

(** [datetime.date]. *)
Record date := mkDate { year : Z; month : Z; day : Z }.

(** The Python values that carry identifiers between the functions: an
    int, None, or a tuple such as the row [(1,)] that [cur.fetchone()]
    returns. *)
#[warnings="-register-all"]
Inductive pyval :=
| PNone
| PInt (n : Z)
| PTuple (items : list pyval).

(** Arguments given to [Decimal(...)]: an int or a float. *)
Inductive number :=
| Int (n : Z)
| Flt (f : Float.float).

Definition Decimal (v : number) : decimal :=
  match v with
  | Int n => Dec.of_int n
  | Flt f => Dec.from_float f
  end.

(** The rational number an int or a float argument stands for. *)
Definition number_value (v : number) : Q :=
  match v with
  | Int n => inject_Z n
  | Flt f => Float.value f
  end.

Module Store.

(** ** Tables *)

Record user_row := mkUser {
  u_user_id : Z; u_name : string; u_email : string }.

Record account_row := mkAccount {
  c_account_id : Z; c_user_id : Z; c_account_type : string;
  c_provider_name : string }.

Record asset_row := mkAsset {
  a_asset_id : Z; a_account_id : Z; a_ticker_symbol : string;
  a_asset_class : string; a_purchase_date : date;
  a_shares : decimal; a_cost_basis : decimal }.

Record transaction_row := mkTransaction {
  t_asset_id : Z; t_transaction_type : string; t_transaction_date : date;
  t_shares : decimal; t_amount : decimal }.

Record tables := mkTables {
  Users : list user_row;
  Accounts : list account_row;
  Assets : list asset_row;
  Transactions : list transaction_row }.

(** Last identifier issued for each table that returns one. *)
Record sequences := mkSeq { users_seq : Z; accounts_seq : Z; assets_seq : Z }.

(** What the server holds between connections. *)
Record database := mkDb { db_tables : tables; db_seq : sequences }.

(** ** Statements *)

(** A query parameter. *)
Inductive param :=
| ParDecimal (d : decimal)
| ParInt (n : Z).

(** The statements Backend.py sends.  Those with a fixed text are named;
    [Sql] carries a text assembled at run time. *)
Inductive statement :=
| SelectUserId (email : string)
| InsertUser (name email : string)
| SelectAccountId (user_id : pyval) (provider_name : string)
| InsertAccount (user_id : pyval) (account_type provider_name : string)
| InsertAsset (account_id : pyval) (ticker_symbol asset_class : string)
              (purchase_date : date) (shares cost_basis : decimal)
| InsertTransaction (asset_id : pyval) (transaction_date : date)
                    (shares amount : decimal)
| SelectPortfolio (account_id : pyval)
| SelectInsights (account_id : pyval)
| Sql (query : string) (params : list param)
| DeleteAsset (asset_id : Z).

(** Rows handed back to the cursor. *)
Inductive resultset :=
| NoRows
| IdRows (rows : list Z)
| PortfolioRows (rows : list (Z * string * string * decimal * decimal * date))
| InsightsRows (rows : list (Z * string * decimal * decimal)).

(** ** Parameters of integer columns *)

(** psycopg2 writes None as NULL, an int as its digits and a tuple as a
    parenthesised list, so the one-element tuple [(n,)] reaches the server
    as the expression [(n)]. *)
Inductive sqlint :=
| SqlNull
| SqlInt (n : Z)
| SqlBad.

Fixpoint adapt (v : pyval) : sqlint :=
  match v with
  | PNone => SqlNull
  | PInt n => SqlInt n
  | PTuple [x] => adapt x
  | PTuple _ => SqlBad
  end.

(** [column = parameter] in a WHERE clause; NULL equals nothing. *)
Definition sql_eq (column : Z) (p : sqlint) : bool :=
  match p with
  | SqlInt n => column =? n
  | _ => false
  end.

(** ** The text of an UPDATE *)

(** [strip p s] is the rest of s after the prefix p. *)
Fixpoint strip (p s : string) : option string :=
  match p, s with
  | EmptyString, _ => Some s
  | String a p', String b s' => if Ascii.eqb a b then strip p' s' else None
  | String _ _, EmptyString => None
  end.

Inductive column := ColShares | ColCostBasis.

Definition assignment (s : string) : option (column * string) :=
  match strip "shares = %s" s with
  | Some rest => Some (ColShares, rest)
  | None =>
      match strip "cost_basis = %s" s with
      | Some rest => Some (ColCostBasis, rest)
      | None => None
      end
  end.

(** One or more assignments separated by commas, then the WHERE clause. *)
Fixpoint set_clause (fuel : nat) (s : string) : option (list column) :=
  match fuel with
  | O => None
  | S f =>
      match assignment s with
      | None => None
      | Some (c, rest) =>
          match strip ", " rest with
          | Some more =>
              match set_clause f more with
              | Some cs => Some (c :: cs)
              | None => None
              end
          | None =>
              if String.eqb rest " WHERE asset_id = %s" then Some [c] else None
          end
      end
  end.

(** The server's reading of an UPDATE of Assets by asset_id: the columns
    assigned, or None for a text it rejects.  SET needs at least one
    assignment. *)
Definition parse_update (query : string) : option (list column) :=
  match strip "UPDATE Assets SET " query with
  | Some rest => set_clause (String.length rest) rest
  | None => None
  end.

Definition set_column (c : column) (v : decimal) (a : asset_row) : asset_row :=
  match c with
  | ColShares =>
      mkAsset (a_asset_id a) (a_account_id a) (a_ticker_symbol a)
              (a_asset_class a) (a_purchase_date a) v (a_cost_basis a)
  | ColCostBasis =>
      mkAsset (a_asset_id a) (a_account_id a) (a_ticker_symbol a)
              (a_asset_class a) (a_purchase_date a) (a_shares a) v
  end.

(** Binds the parameters to the assigned columns; the last one is the
    asset_id of the WHERE clause. *)
Fixpoint bind_update (cs : list column) (ps : list param)
  : option (list (column * decimal) * Z) :=
  match cs, ps with
  | [], [ParInt id] => Some ([], id)
  | c :: cs', ParDecimal v :: ps' =>
      match bind_update cs' ps' with
      | Some (sets, id) => Some ((c, v) :: sets, id)
      | None => None
      end
  | _, _ => None
  end.

Definition apply_sets (sets : list (column * decimal)) (a : asset_row) : asset_row :=
  fold_left (fun row cv => set_column (fst cv) (snd cv) row) sets a.

(** ** Constraints *)

Definition user_exists (t : tables) (id : Z) : bool :=
  existsb (fun u => u_user_id u =? id) (Users t).

Definition email_taken (t : tables) (email : string) : bool :=
  existsb (fun u => String.eqb (u_email u) email) (Users t).

Definition account_exists (t : tables) (id : Z) : bool :=
  existsb (fun c => c_account_id c =? id) (Accounts t).

Definition asset_exists (t : tables) (id : Z) : bool :=
  existsb (fun a => a_asset_id a =? id) (Assets t).

(** ** Running one statement *)

(** Modelled from the spec: the schema and the storage engine, which are
    not part of the repository.  Users.email is unique; an Account refers
    to an existing User, an Asset to an existing Account and a Transaction
    to an existing Asset; deleting an Asset deletes its Transactions.
    Identifiers come from a sequence per table, which a failed or rolled
    back insert still advances.  The result is the rows or the error
    message, the tables and the sequences.

    A table is a list, and a SELECT returns its rows in the order of the
    list.  No SELECT of Backend.py has an ORDER BY, so this order is one
    the server may choose, not one the source fixes: an INSERT is kept
    last and an UPDATE in place here, which a server need not do.  What
    Part V says of the rows read after a write is said up to their
    order. *)
Definition run_statement (st : statement) (t : tables) (q : sequences)
  : (resultset + string) * tables * sequences :=
  match st with
  | SelectUserId email =>
      (inl (IdRows (map u_user_id
                      (filter (fun u => String.eqb (u_email u) email) (Users t)))),
       t, q)
  | InsertUser name email =>
      let id := users_seq q + 1 in
      let q' := mkSeq id (accounts_seq q) (assets_seq q) in
      if email_taken t email
      then (inr "duplicate key value violates unique constraint on Users.email", t, q')
      else (inl (IdRows [id]),
            mkTables (Users t ++ [mkUser id name email]) (Accounts t) (Assets t)
                     (Transactions t),
            q')
  | SelectAccountId user_id provider =>
      match adapt user_id with
      | SqlBad => (inr "operator does not exist: integer = record", t, q)
      | p =>
          (inl (IdRows (map c_account_id
                          (filter (fun c => sql_eq (c_user_id c) p
                                            && String.eqb (c_provider_name c) provider)
                                  (Accounts t)))),
           t, q)
      end
  | InsertAccount user_id account_type provider =>
      let id := accounts_seq q + 1 in
      let q' := mkSeq (users_seq q) id (assets_seq q) in
      match adapt user_id with
      | SqlInt uid =>
          if user_exists t uid
          then (inl (IdRows [id]),
                mkTables (Users t) (Accounts t ++ [mkAccount id uid account_type provider])
                         (Assets t) (Transactions t),
                q')
          else (inr "insert on Accounts violates foreign key constraint", t, q')
      | SqlNull => (inr "null value in column user_id of Accounts", t, q')
      | SqlBad => (inr "column user_id is of type integer but expression is of type record", t, q)
      end
  | InsertAsset account_id ticker asset_class purchase_date shares cost_basis =>
      let id := assets_seq q + 1 in
      let q' := mkSeq (users_seq q) (accounts_seq q) id in
      match adapt account_id with
      | SqlInt aid =>
          if account_exists t aid
          then (inl (IdRows [id]),
                mkTables (Users t) (Accounts t)
                         (Assets t ++ [mkAsset id aid ticker asset_class purchase_date
                                               shares cost_basis])
                         (Transactions t),
                q')
          else (inr "insert on Assets violates foreign key constraint", t, q')
      | SqlNull => (inr "null value in column account_id of Assets", t, q')
      | SqlBad => (inr "column account_id is of type integer but expression is of type record", t, q)
      end
  | InsertTransaction asset_id transaction_date shares amount =>
      match adapt asset_id with
      | SqlInt id =>
          if asset_exists t id
          then (inl NoRows,
                mkTables (Users t) (Accounts t) (Assets t)
                         (Transactions t ++ [mkTransaction id "BUY" transaction_date
                                                           shares amount]),
                q)
          else (inr "insert on Transactions violates foreign key constraint", t, q)
      | SqlNull => (inr "null value in column asset_id of Transactions", t, q)
      | SqlBad => (inr "column asset_id is of type integer but expression is of type record", t, q)
      end
  | SelectPortfolio account_id =>
      match adapt account_id with
      | SqlBad => (inr "operator does not exist: integer = record", t, q)
      | p =>
          (inl (PortfolioRows
                  (map (fun a => (a_asset_id a, a_ticker_symbol a, a_asset_class a,
                                  a_shares a, a_cost_basis a, a_purchase_date a))
                       (filter (fun a => sql_eq (a_account_id a) p) (Assets t)))),
           t, q)
      end
  | SelectInsights account_id =>
      match adapt account_id with
      | SqlBad => (inr "operator does not exist: integer = record", t, q)
      | p =>
          (inl (InsightsRows
                  (map (fun a => (a_asset_id a, a_asset_class a, a_shares a,
                                  a_cost_basis a))
                       (filter (fun a => sql_eq (a_account_id a) p) (Assets t)))),
           t, q)
      end
  | Sql query params =>
      match parse_update query with
      | None => (inr "syntax error", t, q)
      | Some cs =>
          match bind_update cs params with
          | None => (inr "parameters do not fit the statement", t, q)
          | Some (sets, id) =>
              (inl NoRows,
               mkTables (Users t) (Accounts t)
                        (map (fun a => if a_asset_id a =? id then apply_sets sets a else a)
                             (Assets t))
                        (Transactions t),
               q)
          end
      end
  | DeleteAsset asset_id =>
      let deleted := filter (fun a => a_asset_id a =? asset_id) (Assets t) in
      (inl NoRows,
       mkTables (Users t) (Accounts t)
                (filter (fun a => negb (a_asset_id a =? asset_id)) (Assets t))
                (filter (fun x => negb (existsb (fun a => a_asset_id a =? t_asset_id x)
                                                deleted))
                        (Transactions t)),
       q)
  end.

End Store.

(* ===================================================================== *)
(** * Part III  Backend.py and the guarded percentage of Frontend.py       *)
(* ===================================================================== *)

Module Backend.

Import Store.

(** ** Exceptions and the connection *)

(** [except psycopg2.Error] catches what the driver raises and lets every
    other exception through. *)
Inductive exn :=
| PgError (e : string)
| PyError (e : string).

Inductive result (A : Type) :=
| Return (a : A)
| Raise (e : exn).

Arguments Return {A} a.
Arguments Raise {A} e.

(** An open connection: the tables as last committed, the tables as the
    open transaction sees them, the sequences, and the statements passed
    to [cur.execute] so far. *)
Record connection := mkConn {
  committed : tables;
  pending : tables;
  seq : sequences;
  sent : list statement }.

Definition M (A : Type) : Type := connection -> result A * connection.

Definition ret {A} (a : A) : M A := fun c => (Return a, c).

Definition bind {A B} (m : M A) (k : A -> M B) : M B :=
  fun c =>
    match m c with
    | (Return a, c') => k a c'
    | (Raise e, c') => (Raise e, c')
    end.

Definition lift {A} (r : result A) : M A := fun c => (r, c).

Declare Scope py_scope.
Delimit Scope py_scope with py.
Notation "x <- m ;; k" := (bind m (fun x => k))
  (at level 61, m at next level, right associativity) : py_scope.
Notation "m ;; k" := (bind m (fun _ => k))
  (at level 61, right associativity) : py_scope.
Open Scope py_scope.

(** [try: body except psycopg2.Error as e: handler]. *)
Definition try_except {A} (body : M A) (handler : string -> M A) : M A :=
  fun c =>
    match body c with
    | (Raise (PgError e), c') => handler e c'
    | r => r
    end.

Definition commit : M unit :=
  fun c => (Return tt, mkConn (pending c) (pending c) (seq c) (sent c)).

Definition rollback : M unit :=
  fun c => (Return tt, mkConn (committed c) (committed c) (seq c) (sent c)).

(** ** Python helpers *)

(** Truth value of an identifier: None, 0 and the empty tuple are false. *)
Definition truthy (v : pyval) : bool :=
  match v with
  | PNone => false
  | PInt n => negb (n =? 0)
  | PTuple items => negb (Nat.eqb (List.length items) 0)
  end.

(** [cur.fetchone()] after a statement that returns identifiers: the next
    row as a tuple, or None. *)
Definition fetchone (rows : resultset) : pyval :=
  match rows with
  | IdRows (id :: _) => PTuple [PInt id]
  | _ => PNone
  end.

(** [v[0]]. *)
Definition item0 (v : pyval) : result pyval :=
  match v with
  | PTuple (x :: _) => Return x
  | PTuple [] => Raise (PyError "IndexError: tuple index out of range")
  | _ => Raise (PyError "TypeError: object is not subscriptable")
  end.

(** An insertion-ordered dict from asset class to Decimal. *)
Definition dict := list (string * decimal).

Fixpoint contains (d : dict) (k : string) : bool :=
  match d with
  | [] => false
  | (k', _) :: rest => if String.eqb k' k then true else contains rest k
  end.

Fixpoint getitem (d : dict) (k : string) : option decimal :=
  match d with
  | [] => None
  | (k', v) :: rest => if String.eqb k' k then Some v else getitem rest k
  end.

(** [d[k] = v]: replaces the value in place, or appends a new key. *)
Fixpoint setitem (d : dict) (k : string) (v : decimal) : dict :=
  match d with
  | [] => [(k, v)]
  | (k', v') :: rest =>
      if String.eqb k' k then (k', v) :: rest else (k', v') :: setitem rest k v
  end.

Section Environment.

(** What the program does not decide: [faults n] is the error, if any,
    with which the server answers the n-th statement of a connection for a
    reason of its own (a lost connection, a constraint the schema adds),
    and [rng i] is the i-th value [random.random()] returns during a call,
    a float in [0.0, 1.0). *)
Variable faults : nat -> option string.
Variable rng : nat -> Float.float.

(** [cur.execute(...)]. *)
Definition execute (st : statement) : M resultset :=
  fun c =>
    let log := sent c ++ [st] in
    match faults (List.length (sent c)) with
    | Some e => (Raise (PgError e), mkConn (committed c) (pending c) (seq c) log)
    | None =>
        match run_statement st (pending c) (seq c) with
        | (inl rows, t, q) => (Return rows, mkConn (committed c) t q log)
        | (inr e, _, q) => (Raise (PgError e), mkConn (committed c) (pending c) q log)
        end
    end.

(** A call of a function of Backend.py: [get_db_connection()], the body,
    and the [finally] that closes the cursor and the connection, which
    drops whatever was not committed.  The connection is taken to open;
    [connecting], below, adds the connection that is refused. *)
Definition call {A} (body : M A) (db : database)
  : result A * database * list statement :=
  let t := db_tables db in
  match body (mkConn t t (db_seq db) []) with
  | (r, c) => (r, mkDb (committed c) (seq c), sent c)
  end.

(** ** create_user_and_account *)

Definition create_user_and_account_body
    (user_name user_email account_type provider : string) : M pyval :=
  try_except
    (rows <- execute (SelectUserId user_email) ;;
     let user_id := fetchone rows in
     user_id <- (if negb (truthy user_id) then
                   rows <- execute (InsertUser user_name user_email) ;;
                   user_id <- lift (item0 (fetchone rows)) ;;
                   commit ;;
                   ret user_id
                 else ret user_id) ;;
     rows <- execute (SelectAccountId user_id provider) ;;
     let account_id := fetchone rows in
     account_id <- (if negb (truthy account_id) then
                      rows <- execute (InsertAccount user_id account_type provider) ;;
                      account_id <- lift (item0 (fetchone rows)) ;;
                      commit ;;
                      ret account_id
                    else ret account_id) ;;
     ret (PTuple [user_id; account_id]))
    (fun e => rollback ;; ret (PTuple [PNone; PNone])).

Definition create_user_and_account
    (user_name user_email account_type provider : string) (db : database) :=
  call (create_user_and_account_body user_name user_email account_type provider) db.

(** ** create_asset_and_transaction *)

Definition create_asset_and_transaction_body
    (user_id account_id : pyval) (ticker asset_class : string)
    (purchase_date : date) (shares cost_basis : number) : M string :=
  try_except
    (rows <- execute (InsertAsset account_id ticker asset_class purchase_date
                                  (Decimal shares) (Decimal cost_basis)) ;;
     asset_id <- lift (item0 (fetchone rows)) ;;
     let total_amount := Dec.mul (Decimal shares) (Decimal cost_basis) in
     execute (InsertTransaction asset_id purchase_date (Decimal shares) total_amount) ;;
     commit ;;
     ret "Asset and transaction created successfully.")
    (fun e => rollback ;; ret ("Error creating asset: " ++ e)%string).

Definition create_asset_and_transaction
    (user_id account_id : pyval) (ticker asset_class : string)
    (purchase_date : date) (shares cost_basis : number) (db : database) :=
  call (create_asset_and_transaction_body user_id account_id ticker asset_class
                                          purchase_date shares cost_basis) db.

(** ** read_portfolio *)

(** One entry of the list read_portfolio returns. *)
Record holding := mkHolding {
  h_asset_id : Z;
  h_Ticker : string;
  h_Asset_Class : string;
  h_Shares : decimal;
  h_Cost_Basis : string;
  h_Purchase_Date : date;
  h_Current_Price : string;
  h_Current_Value : string;
  h_Gain_Loss : string }.

(** The [for asset in assets] loop; i counts the calls of random.random(). *)
Fixpoint portfolio_loop (i : nat)
    (assets : list (Z * string * string * decimal * decimal * date))
    (portfolio : list holding) : list holding :=
  match assets with
  | [] => portfolio
  | asset :: rest =>
      let '(asset_id, ticker, asset_class, shares, cost_basis, purchase_date) := asset in
      let current_price :=
        Dec.mul cost_basis
          (Dec.from_float
             (Float.add (Float.of_int 1)
                (Float.mul (Float.sub (rng i) Float.lit_0_5) Float.lit_0_2))) in
      let current_value := Dec.mul shares current_price in
      let gain_loss := Dec.sub current_value (Dec.mul shares cost_basis) in
      portfolio_loop (S i) rest
        (portfolio ++
         [mkHolding asset_id ticker asset_class shares (Dec.format_2f cost_basis)
                    purchase_date (Dec.format_2f current_price)
                    (Dec.format_2f current_value) (Dec.format_2f gain_loss)])
  end.

Definition fetchall_portfolio (rows : resultset) :=
  match rows with
  | PortfolioRows l => l
  | _ => []
  end.

Definition read_portfolio_body (account_id : pyval) : M (list holding + string) :=
  try_except
    (rows <- execute (SelectPortfolio account_id) ;;
     let assets := fetchall_portfolio rows in
     ret (inl (portfolio_loop 0 assets [])))
    (fun e => ret (inr ("Error reading portfolio: " ++ e)%string)).

Definition read_portfolio (account_id : pyval) (db : database) :=
  call (read_portfolio_body account_id) db.

(** ** update_asset *)

Definition update_asset_body (asset_id : Z) (new_shares new_cost_basis : option number)
  : M string :=
  try_except
    (let query := "UPDATE Assets SET " in
     let params := [] in
     let updates := [] in
     let '(updates, params) :=
       match new_shares with
       | Some v => (updates ++ ["shares = %s"], params ++ [ParDecimal (Decimal v)])
       | None => (updates, params)
       end in
     let '(updates, params) :=
       match new_cost_basis with
       | Some v => (updates ++ ["cost_basis = %s"], params ++ [ParDecimal (Decimal v)])
       | None => (updates, params)
       end in
     let query := (query ++ String.concat ", " updates)%string in
     let query := (query ++ " WHERE asset_id = %s")%string in
     let params := params ++ [ParInt asset_id] in
     execute (Sql query params) ;;
     commit ;;
     ret ("Asset " ++ Dec.string_of_Z asset_id ++ " updated successfully.")%string)
    (fun e => rollback ;; ret ("Error updating asset: " ++ e)%string).

Definition update_asset (asset_id : Z) (new_shares new_cost_basis : option number)
    (db : database) :=
  call (update_asset_body asset_id new_shares new_cost_basis) db.

(** ** delete_asset *)

Definition delete_asset_body (asset_id : Z) : M string :=
  try_except
    (execute (DeleteAsset asset_id) ;;
     commit ;;
     ret ("Asset " ++ Dec.string_of_Z asset_id ++ " deleted successfully.")%string)
    (fun e => rollback ;; ret ("Error deleting asset: " ++ e)%string).

Definition delete_asset (asset_id : Z) (db : database) :=
  call (delete_asset_body asset_id) db.

(** ** get_insights *)

(** The dict get_insights returns. *)
Record insights := mkInsights {
  total_value : decimal;
  total_gain_loss : decimal;
  asset_allocation : dict }.

(** The [for asset in assets] loop over the three accumulators. *)
Fixpoint insights_loop (i : nat) (assets : list (Z * string * decimal * decimal))
    (total_value total_cost_basis : decimal) (asset_allocation : dict)
  : result (decimal * decimal * dict) :=
  match assets with
  | [] => Return (total_value, total_cost_basis, asset_allocation)
  | asset :: rest =>
      let '(asset_id, asset_class, shares, cost_basis) := asset in
      let current_price :=
        Dec.mul cost_basis
          (Dec.from_float
             (Float.add (Float.of_int 1)
                (Float.mul (Float.sub (rng i) Float.lit_0_5) Float.lit_0_2))) in
      let current_value := Dec.mul shares current_price in
      let total_value := Dec.add total_value current_value in
      let total_cost_basis := Dec.add total_cost_basis (Dec.mul shares cost_basis) in
      let asset_allocation :=
        if negb (contains asset_allocation asset_class)
        then setitem asset_allocation asset_class (Decimal (Int 0))
        else asset_allocation in
      match getitem asset_allocation asset_class with
      | None => Raise (PyError "KeyError")
      | Some v =>
          insights_loop (S i) rest total_value total_cost_basis
            (setitem asset_allocation asset_class (Dec.add v current_value))
      end
  end.

Definition fetchall_insights (rows : resultset) :=
  match rows with
  | InsightsRows l => l
  | _ => []
  end.

Definition get_insights_body (account_id : pyval) : M (insights + string) :=
  try_except
    (rows <- execute (SelectInsights account_id) ;;
     let assets := fetchall_insights rows in
     acc <- lift (insights_loop 0 assets (Decimal (Int 0)) (Decimal (Int 0)) []) ;;
     let '(total_value, total_cost_basis, asset_allocation) := acc in
     let total_gain_loss := Dec.sub total_value total_cost_basis in
     ret (inl (mkInsights total_value total_gain_loss asset_allocation)))
    (fun e => ret (inr ("Error getting insights: " ++ e)%string)).

Definition get_insights (account_id : pyval) (db : database) :=
  call (get_insights_body account_id) db.

End Environment.

(** ** get_db_connection *)

(** [get_db_connection()]: [psycopg2.connect] returns a connection or
    raises OperationalError, which is a psycopg2.Error. *)
Definition get_db_connection (refused : option string) : result unit :=
  match refused with
  | Some e => Raise (PgError e)
  | None => Return tt
  end.

(** Every function of Backend.py has [conn = get_db_connection()] as its
    first statement, before its [try]: a refused connection raises out of
    the function, and nothing is sent or written.  [opened] is the function
    from the open connection on, as defined above. *)
Definition connecting {A} (refused : option string)
    (opened : database -> result A * database * list statement) (db : database)
  : result A * database * list statement :=
  match get_db_connection refused with
  | Raise e => (Raise e, db, [])
  | Return _ => opened db
  end.

End Backend.

Module Frontend.

Import Backend.

(** The value formatted into the delta of the Total Gain/Loss metric:
    [total_gain_loss/total_value * 100 if total_value > 0 else 0]. *)
Inductive percentage :=
| PctDecimal (d : decimal)
| PctInt (n : Z).

Definition delta (total_gain_loss total_value : decimal) : result percentage :=
  if Dec.gt total_value (Dec.of_int 0) then
    match Dec.truediv total_gain_loss total_value with
    | Some q => Return (PctDecimal (Dec.mul q (Dec.of_int 100)))
    | None => Raise (PyError "decimal.DivisionByZero")
    end
  else Return (PctInt 0).

End Frontend.

(* ===================================================================== *)
(** * Part III.b  Sample data and the databases the statements lead to     *)
(* ===================================================================== *)

Import Store Backend.

(** A server that raises no error of its own. *)
Definition no_faults : nat -> option string := fun _ => None.

(** A server that answers the n-th statement with the error e. *)
Definition fault_at (n : nat) (e : string) : nat -> option string :=
  fun i => if Nat.eqb i n then Some e else None.

Definition db_empty : database := mkDb (mkTables [] [] [] []) (mkSeq 0 0 0).

Definition jan_1_2024 : date := mkDate 2024 1 1.

(** One user with one account, holding ten AAPL bought at 150.00. *)
Definition db_sample : database :=
  mkDb (mkTables
          [mkUser 1 "John Doe" "john.doe@example.com"]
          [mkAccount 1 1 "Brokerage" "Fictional Broker"]
          [mkAsset 1 1 "AAPL" "Equity" jan_1_2024 (Dec.of_int 10) (Dec.of_int 150)]
          [mkTransaction 1 "BUY" jan_1_2024 (Dec.of_int 10) (Dec.of_int 1500)])
       (mkSeq 1 1 1).

(** The database after a delete_asset that the server accepts. *)
Definition after_delete (asset_id : Z) (db : database) : database :=
  let t := db_tables db in
  mkDb (mkTables (Users t) (Accounts t)
          (filter (fun a => negb (a_asset_id a =? asset_id)) (Assets t))
          (filter (fun x => negb (existsb (fun a => a_asset_id a =? t_asset_id x)
                                    (filter (fun a => a_asset_id a =? asset_id) (Assets t))))
                  (Transactions t)))
       (db_seq db).

(** The Assets table after an UPDATE that sets one column of the rows with
    the given asset_id. *)
Definition with_shares (v : decimal) (a : asset_row) : asset_row :=
  mkAsset (a_asset_id a) (a_account_id a) (a_ticker_symbol a) (a_asset_class a)
          (a_purchase_date a) v (a_cost_basis a).

Definition with_cost_basis (v : decimal) (a : asset_row) : asset_row :=
  mkAsset (a_asset_id a) (a_account_id a) (a_ticker_symbol a) (a_asset_class a)
          (a_purchase_date a) (a_shares a) v.

Definition after_update (asset_id : Z) (f : asset_row -> asset_row) (db : database)
  : database :=
  let t := db_tables db in
  mkDb (mkTables (Users t) (Accounts t)
          (map (fun a => if a_asset_id a =? asset_id then f a else a) (Assets t))
          (Transactions t))
       (db_seq db).

(** ** The simulated price *)

(** The price formula of the specification, cost_basis * (1 + U * 0.2)
    with U = random.random() - 0.5, in the arithmetic of the code: the
    factor in binary64, the product in Decimal. *)
Definition price_factor (r : Float.float) : Float.float :=
  Float.add (Float.of_int 1) (Float.mul (Float.sub r Float.lit_0_5) Float.lit_0_2).

Definition simulated_price (cost_basis : decimal) (r : Float.float) : decimal :=
  Dec.mul cost_basis (Dec.from_float (price_factor r)).

Definition simulated_value (shares cost_basis : decimal) (r : Float.float) : decimal :=
  Dec.mul shares (simulated_price cost_basis r).

Definition simulated_gain_loss (shares cost_basis : decimal) (r : Float.float)
  : decimal :=
  Dec.sub (simulated_value shares cost_basis r) (Dec.mul shares cost_basis).

(** The factor in the Standard Library's binary64 arithmetic. *)
Definition spec_price_factor (r : spec_float) : spec_float :=
  SFadd 53 1024 (Float.to_spec (Float.of_int 1))
    (SFmul 53 1024 (SFsub 53 1024 r (Float.to_spec Float.lit_0_5))
       (Float.to_spec Float.lit_0_2)).

(** Draws on which the two arithmetics are compared. *)
Definition sample_draws : list Float.float :=
  [0; Float.lit_0_5; Float.b64 (2 ^ 53 - 1) (-53); Float.b64 1 (-53);
   Float.b64 (2 ^ 52 - 1) (-53); Float.b64 (2 ^ 52 + 1) (-53);
   Float.b64 3089783747446132 (-53); Float.b64 8751091462849315 (-53);
   Float.b64 340670666708091 (-53); Float.b64 1 (-1074); Float.b64 1 (-60)].

(** The float 0.1, 0x1.999999999999ap-4, as a number input of the page
    returns it. *)
Definition float_0_1 : Float.float := Float.b64 7205759403792794 (-56).

(** The entry of the portfolio for one row and one draw. *)
Definition holding_of (r : Float.float)
    (asset : Z * string * string * decimal * decimal * date) : holding :=
  let '(asset_id, ticker, asset_class, shares, cost_basis, purchase_date) := asset in
  mkHolding asset_id ticker asset_class shares (Dec.format_2f cost_basis)
            purchase_date
            (Dec.format_2f (simulated_price cost_basis r))
            (Dec.format_2f (simulated_value shares cost_basis r))
            (Dec.format_2f (simulated_gain_loss shares cost_basis r)).

Fixpoint holdings (rng : nat -> Float.float) (i : nat)
    (assets : list (Z * string * string * decimal * decimal * date)) : list holding :=
  match assets with
  | [] => []
  | asset :: rest => holding_of (rng i) asset :: holdings rng (S i) rest
  end.

(** What an entry of the portfolio takes from the row itself: all but the
    three simulated figures. *)
Definition stored_fields (h : holding)
  : Z * string * string * decimal * string * date :=
  (h_asset_id h, h_Ticker h, h_Asset_Class h, h_Shares h, h_Cost_Basis h,
   h_Purchase_Date h).

Definition stored_row (row : Z * string * string * decimal * decimal * date)
  : Z * string * string * decimal * string * date :=
  let '(asset_id, ticker, asset_class, shares, cost_basis, purchase_date) := row in
  (asset_id, ticker, asset_class, shares, Dec.format_2f cost_basis, purchase_date).

(** The value an asset class has in the allocation so far, zero if none. *)
Definition class_value (asset_allocation : dict) (asset_class : string) : decimal :=
  match getitem asset_allocation asset_class with
  | Some v => v
  | None => Decimal (Int 0)
  end.

(** The largest float below 1.0, and the floats nearest to 0.9 and 1.1. *)
Definition draw_max : Float.float := Float.b64 (2 ^ 53 - 1) (-53).
Definition float_0_9 : Float.float := Float.b64 8106479329266893 (-53).
Definition float_1_1 : Float.float := Float.b64 4953959590107546 (-52).

(** ** Sums of an allocation *)

(** The exact sum of the values of a dict. *)
Definition allocation_sum (d : dict) : Q :=
  fold_right (fun kv acc => (Dec.value (snd kv) + acc)%Q) 0%Q d.

(** [sum(d.values())], in Decimal arithmetic. *)
Definition allocation_sum_decimal (d : dict) : decimal :=
  fold_left (fun acc kv => Dec.add acc (snd kv)) d (Dec.of_int 0).

(** An addition that does not round. *)
Definition exact_add (x y : decimal) : Prop :=
  (Dec.value (Dec.add x y) == Dec.value x + Dec.value y)%Q.

(** No addition of the loop of get_insights rounds. *)
Fixpoint additions_exact (rng : nat -> Float.float) (i : nat)
    (assets : list (Z * string * decimal * decimal))
    (total_value : decimal) (asset_allocation : dict) : Prop :=
  match assets with
  | [] => True
  | (_, asset_class, shares, cost_basis) :: rest =>
      let v := simulated_value shares cost_basis (rng i) in
      let old := class_value asset_allocation asset_class in
      exact_add total_value v
      /\ exact_add old v
      /\ additions_exact rng (S i) rest (Dec.add total_value v)
           (setitem asset_allocation asset_class (Dec.add old v))
  end.

(** The rows get_insights reads for an account. *)
Definition insights_rows (account_id : pyval) (db : database)
  : list (Z * string * decimal * decimal) :=
  map (fun a => (a_asset_id a, a_asset_class a, a_shares a, a_cost_basis a))
      (filter (fun a => sql_eq (a_account_id a) (adapt account_id))
              (Assets (db_tables db))).

(** The rows read_portfolio reads for an account. *)
Definition portfolio_rows (account_id : pyval) (db : database)
  : list (Z * string * string * decimal * decimal * date) :=
  map (fun a => (a_asset_id a, a_ticker_symbol a, a_asset_class a, a_shares a,
                 a_cost_basis a, a_purchase_date a))
      (filter (fun a => sql_eq (a_account_id a) (adapt account_id))
              (Assets (db_tables db))).

(** Three assets of one share at cost 1, of classes Equity, Crypto and
    Equity, and the draws 0.0, 0.0 and 0.5. *)
Definition db_three : database :=
  mkDb (mkTables
          [mkUser 1 "John Doe" "john.doe@example.com"]
          [mkAccount 1 1 "Brokerage" "Fictional Broker"]
          [mkAsset 1 1 "AAPL" "Equity" jan_1_2024 (Dec.of_int 1) (Dec.of_int 1);
           mkAsset 2 1 "BTC" "Crypto" jan_1_2024 (Dec.of_int 1) (Dec.of_int 1);
           mkAsset 3 1 "MSFT" "Equity" jan_1_2024 (Dec.of_int 1) (Dec.of_int 1)]
          [])
       (mkSeq 1 1 3).

Definition draws_three : nat -> Float.float :=
  fun i => match i with
           | 2%nat => Float.lit_0_5
           | _ => 0
           end.

(** One asset of one share at cost 1. *)
Definition db_unit : database :=
  mkDb (mkTables
          [mkUser 1 "John Doe" "john.doe@example.com"]
          [mkAccount 1 1 "Brokerage" "Fictional Broker"]
          [mkAsset 1 1 "AAPL" "Equity" jan_1_2024 (Dec.of_int 1) (Dec.of_int 1)]
          [])
       (mkSeq 1 1 1).

(** ** Rows and databases the other operations lead to *)

(** The first user with an e-mail address and the first account of a user
    at a provider, as the two SELECTs of create_user_and_account find
    them. *)
Definition find_user (email : string) (t : tables) : option Z :=
  hd_error (map u_user_id (filter (fun u => String.eqb (u_email u) email) (Users t))).

Definition find_account (user_id : Z) (provider : string) (t : tables) : option Z :=
  hd_error (map c_account_id
              (filter (fun c => (c_user_id c =? user_id)
                                && String.eqb (c_provider_name c) provider)
                      (Accounts t))).

(** The database with one more user, and with one more account. *)
Definition with_user (name email : string) (db : database) : database :=
  let t := db_tables db in
  let q := db_seq db in
  mkDb (mkTables (Users t ++ [mkUser (users_seq q + 1) name email]) (Accounts t)
                 (Assets t) (Transactions t))
       (mkSeq (users_seq q + 1) (accounts_seq q) (assets_seq q)).

Definition with_account (user_id : Z) (account_type provider : string) (db : database)
  : database :=
  let t := db_tables db in
  let q := db_seq db in
  mkDb (mkTables (Users t)
                 (Accounts t ++ [mkAccount (accounts_seq q + 1) user_id account_type
                                           provider])
                 (Assets t) (Transactions t))
       (mkSeq (users_seq q) (accounts_seq q + 1) (assets_seq q)).

(** The integer an identifier stands for at the server. *)
Definition ident (v : pyval) : option Z :=
  match adapt v with
  | SqlInt n => Some n
  | _ => None
  end.

(** The keys of a dict, in insertion order. *)
Definition keys (d : dict) : list string := map fst d.

(** The simulated values of the rows of one asset class, or of all rows,
    each with the draw of its row. *)
Fixpoint class_values (rng : nat -> Float.float) (i : nat)
    (assets : list (Z * string * decimal * decimal)) (select : string -> bool)
  : list decimal :=
  match assets with
  | [] => []
  | (_, asset_class, shares, cost_basis) :: rest =>
      if select asset_class
      then simulated_value shares cost_basis (rng i)
           :: class_values rng (S i) rest select
      else class_values rng (S i) rest select
  end.

(** A running Decimal sum from an initial value. *)
Definition decimal_sum (start : decimal) (l : list decimal) : decimal :=
  fold_left Dec.add l start.

(** The asset class of a row of get_insights, and its cost. *)
Definition row_class (row : Z * string * decimal * decimal) : string :=
  let '(_, asset_class, _, _) := row in asset_class.

Definition row_cost (row : Z * string * decimal * decimal) : decimal :=
  let '(_, _, shares, cost_basis) := row in Dec.mul shares cost_basis.

(* ===================================================================== *)
(** * Part III.c  One run of the script of Frontend.py                     *)
(* ===================================================================== *)

Module Page.

Import Frontend.

(** [st.session_state]: the two keys the script uses, absent until set. *)
Record session_state := mkSession {
  ss_user_id : option pyval;
  ss_account_id : option pyval }.

(** What the user has entered when the script runs: the values of the
    input elements and which buttons were pressed.  [ticker] is the text
    after [.upper()]. *)
Record inputs := mkInputs {
  ticker : string;
  asset_class : string;
  shares : Float.float;
  cost_basis : Float.float;
  purchase_date : date;
  submitted : bool;
  update_id : Z;
  new_shares : option Float.float;
  new_cost_basis : option Float.float;
  update_submitted : bool;
  delete_id : Z;
  delete_submitted : bool }.

(** The elements the script shows that depend on the data.  Titles,
    headers, captions, the layout and the input elements are not
    represented. *)
Inductive element :=
| Metric (label value : string) (delta : option string)
| BarChart (rows : list (string * decimal))
| Success (body : string)
| Error (body : string)
| Info (body : string)
| DataFrame (rows : list holding).

(** The places where the script calls Backend.py; each call opens a
    connection of its own. *)
Inductive call_site :=
| AtBootstrap
| AtInsights
| AtCreate
| AtUpdate
| AtDelete
| AtPortfolio.

(** The thousands separators of the format [,.2f]. *)
Fixpoint group_rev (l : list ascii) (n : nat) : list ascii :=
  match l with
  | [] => []
  | c :: rest =>
      match rest with
      | [] => [c]
      | _ => if Nat.eqb n 2 then c :: ","%char :: group_rev rest 0
             else c :: group_rev rest (S n)
      end
  end.

Definition insert_thousands_sep (digits : string) : string :=
  string_of_list_ascii (rev (group_rev (rev (list_ascii_of_string digits)) 0)).

(** [f"{x:,.2f}"] for a Decimal. *)
Definition format_comma_2f (x : decimal) : string :=
  let r := Dec._rescale x (-2) in
  let intpart := insert_thousands_sep (Dec.string_of_Z (Dec._int r / 100)) in
  let frac := Dec._int r mod 100 in
  let pad := if frac <? 10 then "0"%string else ""%string in
  let minus := if Dec._sign r then "-"%string else ""%string in
  (minus ++ intpart ++ "." ++ pad ++ Dec.string_of_Z frac)%string.

(** [f"{p:,.2f}%"] for the percentage; an int is formatted as the float of
    the same value, which for the int 0 of the script gives 0.00. *)
Definition format_percentage (p : percentage) : string :=
  match p with
  | PctDecimal d => (format_comma_2f d ++ "%")%string
  | PctInt n => (format_comma_2f (Dec.of_int n) ++ "%")%string
  end.

(** The draws from the k-th on. *)
Definition later (k : nat) (rng : nat -> Float.float) : nat -> Float.float :=
  fun i => rng (k + i)%nat.

Definition option_number (v : option Float.float) : option number :=
  match v with
  | Some f => Some (Flt f)
  | None => None
  end.

(** [st.session_state[key]] for a key that is set. *)
Definition session_get (v : option pyval) : pyval :=
  match v with
  | Some x => x
  | None => PNone
  end.

Section Run.

Variable faults : call_site -> nat -> option string.
Variable rng : nat -> Float.float.
Variable inp : inputs.

(** Lines 15-18: the user and the account are created once per session;
    the pair returned is unpacked into the two keys. *)
Definition bootstrap (ss : session_state) (db : database)
  : result session_state * database :=
  match ss_user_id ss, ss_account_id ss with
  | Some _, Some _ => (Return ss, db)
  | _, _ =>
      match create_user_and_account (faults AtBootstrap) "John Doe"
                                    "john.doe@example.com" "Brokerage"
                                    "Fictional Broker" db with
      | (Return (PTuple [user_id; account_id]), db', _) =>
          (Return (mkSession (Some user_id) (Some account_id)), db')
      | (Return _, db', _) =>
          (Raise (PyError "ValueError: cannot unpack"), db')
      | (Raise e, db', _) => (Raise e, db')
      end
  end.

(** Lines 25-45: the summary, shown when the account_id is true.  The
    second component is the number of draws taken. *)
Definition dashboard (ss : session_state) (db : database)
  : result (list element) * nat :=
  if truthy (session_get (ss_account_id ss)) then
    match get_insights (faults AtInsights) rng (session_get (ss_account_id ss)) db with
    | (Return (inl insights), _, _) =>
        let total_value := total_value insights in
        let total_gain_loss := total_gain_loss insights in
        let asset_allocation := asset_allocation insights in
        let draws :=
          List.length (insights_rows (session_get (ss_account_id ss)) db) in
        match delta total_gain_loss total_value with
        | Return p =>
            (Return [Metric "Total Portfolio Value"
                            ("$" ++ format_comma_2f total_value)%string None;
                     Metric "Total Gain/Loss"
                            ("$" ++ format_comma_2f total_gain_loss)%string
                            (Some (format_percentage p));
                     BarChart asset_allocation],
             draws)
        | Raise e => (Raise e, draws)
        end
    | (Return (inr message), _, _) => (Return [Error message], 0%nat)
    | (Raise e, _, _) => (Raise e, 0%nat)
    end
  else (Return [], 0%nat).

(** Lines 66-73: the Add Asset form. *)
Definition add_asset (ss : session_state) (db : database)
  : result (list element) * database :=
  if submitted inp then
    if truthy (session_get (ss_user_id ss)) && truthy (session_get (ss_account_id ss))
    then
      match create_asset_and_transaction (faults AtCreate)
              (session_get (ss_user_id ss)) (session_get (ss_account_id ss))
              (ticker inp) (asset_class inp) (purchase_date inp)
              (Flt (shares inp)) (Flt (cost_basis inp)) db with
      | (Return message, db', _) => (Return [Success message], db')
      | (Raise e, db', _) => (Raise e, db')
      end
    else
      (Return [Error "Application setup failed. Please check the backend connection."],
       db)
  else (Return [], db).

(** Lines 83-85: the Update Asset form. *)
Definition update (db : database) : result (list element) * database :=
  if update_submitted inp then
    match update_asset (faults AtUpdate) (update_id inp)
                       (option_number (new_shares inp))
                       (option_number (new_cost_basis inp)) db with
    | (Return message, db', _) => (Return [Success message], db')
    | (Raise e, db', _) => (Raise e, db')
    end
  else (Return [], db).

(** Lines 92-94: the Delete Asset button. *)
Definition delete (db : database) : result (list element) * database :=
  if delete_submitted inp then
    match delete_asset (faults AtDelete) (delete_id inp) db with
    | (Return message, db', _) => (Return [Success message], db')
    | (Raise e, db', _) => (Raise e, db')
    end
  else (Return [], db).

(** Lines 100-110: the holdings, read with the draws that follow those of
    the summary. *)
Definition holdings_view (draws : nat) (ss : session_state) (db : database)
  : result (list element) :=
  match read_portfolio (faults AtPortfolio) (later draws rng)
                       (session_get (ss_account_id ss)) db with
  | (Return (inl portfolio), _, _) =>
      match portfolio with
      | [] => Return [Info "Your portfolio is currently empty. Add a new asset to get started!"]
      | _ => Return [DataFrame portfolio]
      end
  | (Return (inr message), _, _) => Return [Error message]
  | (Raise e, _, _) => Raise e
  end.

(** The script from top to bottom.  An exception ends the run; what the
    calls before it committed stays. *)
Definition run (ss : session_state) (db : database)
  : result (list element) * session_state * database :=
  match bootstrap ss db with
  | (Raise e, db1) => (Raise e, ss, db1)
  | (Return ss1, db1) =>
      match dashboard ss1 db1 with
      | (Raise e, _) => (Raise e, ss1, db1)
      | (Return summary, draws) =>
          match add_asset ss1 db1 with
          | (Raise e, db2) => (Raise e, ss1, db2)
          | (Return added, db2) =>
              match update db2 with
              | (Raise e, db3) => (Raise e, ss1, db3)
              | (Return updated, db3) =>
                  match delete db3 with
                  | (Raise e, db4) => (Raise e, ss1, db4)
                  | (Return deleted, db4) =>
                      match holdings_view draws ss1 db4 with
                      | Raise e => (Raise e, ss1, db4)
                      | Return table =>
                          (Return (summary ++ added ++ updated ++ deleted ++ table),
                           ss1, db4)
                      end
                  end
              end
          end
      end
  end.

End Run.

End Page.

(** Sample runs: a server that is healthy, one that loses the connection
    at the setup, and one that loses it at the delete; a visit that only
    looks, one that submits the three forms with the update fields left
    empty, and one that buys two MSFT at 2.50. *)
Definition healthy : Page.call_site -> nat -> option string := fun _ _ => None.

Definition setup_fails : Page.call_site -> nat -> option string :=
  fun site _ => match site with
                | Page.AtBootstrap => Some "connection lost"
                | _ => None
                end.

Definition delete_fails : Page.call_site -> nat -> option string :=
  fun site _ => match site with
                | Page.AtDelete => Some "connection lost"
                | _ => None
                end.

Definition just_looking : Page.inputs :=
  Page.mkInputs EmptyString "Equity" (Float.b64 1 0) (Float.b64 1 0) jan_1_2024 false
           1 None None false 1 false.

Definition all_submitted : Page.inputs :=
  Page.mkInputs "MSFT" "Equity" (Float.b64 2 0) (Float.b64 5 (-1)) jan_1_2024 true
           1 None None true 1 true.

Definition buying : Page.inputs :=
  Page.mkInputs "MSFT" "Equity" (Float.b64 2 0) (Float.b64 5 (-1)) jan_1_2024 true
           1 None None false 1 false.

Definition session_sample : Page.session_state := Page.mkSession (Some (PInt 1)) (Some (PInt 1)).

(** The session after a setup that failed. *)
Definition session_failed : Page.session_state := Page.mkSession (Some PNone) (Some PNone).

(* ===================================================================== *)
(** * Part IV  Properties                                                  *)
(* ===================================================================== *)

(** ** The store *)

Lemma filter_all {A} (f : A -> bool) (l : list A) :
  (forall x, In x l -> f x = true) -> filter f l = l.
Proof.
  induction l as [|a l IH]; simpl; intros H; [reflexivity|].
  rewrite (H a (or_introl eq_refl)). f_equal. apply IH. auto.
Qed.

Lemma filter_none {A} (f : A -> bool) (l : list A) :
  (forall x, In x l -> f x = false) -> filter f l = [].
Proof.
  induction l as [|a l IH]; simpl; intros H; [reflexivity|].
  rewrite (H a (or_introl eq_refl)). apply IH. auto.
Qed.

Lemma asset_exists_false t id :
  asset_exists t id = false ->
  forall a, In a (Assets t) -> (a_asset_id a =? id) = false.
Proof.
  unfold asset_exists. intros H a Ha.
  destruct (a_asset_id a =? id) eqn:E; [|reflexivity].
  assert (existsb (fun a0 => a_asset_id a0 =? id) (Assets t) = true)
    by (apply existsb_exists; eauto).
  congruence.
Qed.

Lemma tables_eta t : mkTables (Users t) (Accounts t) (Assets t) (Transactions t) = t.
Proof. destruct t; reflexivity. Qed.

Lemma database_eta db : mkDb (db_tables db) (db_seq db) = db.
Proof. destruct db; reflexivity. Qed.

(** ** delete_asset *)

Lemma delete_asset_run faults asset_id db :
  faults 0%nat = None ->
  delete_asset faults asset_id db =
    (Return ("Asset " ++ Dec.string_of_Z asset_id ++ " deleted successfully.")%string,
     after_delete asset_id db, [DeleteAsset asset_id]).
Proof.
  intros H. unfold delete_asset, call, delete_asset_body, try_except, bind, execute.
  simpl. rewrite H. reflexivity.
Qed.

Lemma after_delete_missing asset_id db :
  asset_exists (db_tables db) asset_id = false -> after_delete asset_id db = db.
Proof.
  intros H. unfold after_delete. simpl.
  pose proof (asset_exists_false _ _ H) as Hall.
  rewrite (filter_none (fun a => a_asset_id a =? asset_id)) by exact Hall.
  rewrite !filter_all.
  - rewrite tables_eta. apply database_eta.
  - intros x _. reflexivity.
  - intros a Ha. rewrite (Hall a Ha). reflexivity.
Qed.

(** C9.  delete_asset answers with its success message whether or not the
    asset exists.  For an identifier that is not in Assets no row is
    affected: the database is unchanged.  For one that is, no Asset with
    that identifier and no Transaction of it is left, and the rows of
    other assets stay. *)
Theorem delete_asset_idempotent_and_cascades faults asset_id db :
  faults 0%nat = None ->
  let '(r, db', _) := delete_asset faults asset_id db in
  r = Return ("Asset " ++ Dec.string_of_Z asset_id ++ " deleted successfully.")%string
  /\ (asset_exists (db_tables db) asset_id = false -> db' = db)
  /\ asset_exists (db_tables db') asset_id = false
  /\ (asset_exists (db_tables db) asset_id = true ->
      forall x, In x (Transactions (db_tables db')) -> t_asset_id x <> asset_id)
  /\ (forall a, In a (Assets (db_tables db)) -> a_asset_id a <> asset_id ->
      In a (Assets (db_tables db')))
  /\ (forall x, In x (Transactions (db_tables db)) -> t_asset_id x <> asset_id ->
      In x (Transactions (db_tables db'))).
Proof.
  intros H. rewrite (delete_asset_run _ _ _ H).
  split; [reflexivity|].
  split; [apply after_delete_missing|].
  split.
  { unfold asset_exists, after_delete. simpl.
    destruct (existsb _ _) eqn:E; [|reflexivity].
    apply existsb_exists in E. destruct E as [a [Ha Hid]].
    apply filter_In in Ha. destruct Ha as [_ Ha]. rewrite Hid in Ha. discriminate. }
  split.
  { intros Hex x Hx Hid. unfold after_delete in Hx. simpl in Hx.
    apply filter_In in Hx. destruct Hx as [_ Hx].
    apply negb_true_iff in Hx.
    unfold asset_exists in Hex. apply existsb_exists in Hex.
    destruct Hex as [a [Ha Ha']].
    assert (existsb (fun a0 => a_asset_id a0 =? t_asset_id x)
              (filter (fun a0 => a_asset_id a0 =? asset_id) (Assets (db_tables db))) = true).
    { apply existsb_exists. exists a. split.
      - apply filter_In. auto.
      - rewrite Hid. exact Ha'. }
    congruence. }
  split.
  { intros a Ha Hid. unfold after_delete. simpl. apply filter_In. split; [exact Ha|].
    apply negb_true_iff. apply Z.eqb_neq. exact Hid. }
  { intros x Hx Hid. unfold after_delete. simpl. apply filter_In. split; [exact Hx|].
    apply negb_true_iff.
    destruct (existsb _ _) eqn:E; [|reflexivity].
    apply existsb_exists in E. destruct E as [a [Ha Ha']].
    apply filter_In in Ha. destruct Ha as [_ Ha].
    apply Z.eqb_eq in Ha, Ha'. congruence. }
Qed.

Lemma delete_asset_idempotent_and_cascades_witness :
  no_faults 0%nat = None /\
  let '(r, db', _) := delete_asset no_faults 7 db_sample in
  r = Return ("Asset " ++ Dec.string_of_Z 7 ++ " deleted successfully.")%string
  /\ (asset_exists (db_tables db_sample) 7 = false -> db' = db_sample)
  /\ asset_exists (db_tables db') 7 = false
  /\ (asset_exists (db_tables db_sample) 7 = true ->
      forall x, In x (Transactions (db_tables db')) -> t_asset_id x <> 7)
  /\ (forall a, In a (Assets (db_tables db_sample)) -> a_asset_id a <> 7 ->
      In a (Assets (db_tables db')))
  /\ (forall x, In x (Transactions (db_tables db_sample)) -> t_asset_id x <> 7 ->
      In x (Transactions (db_tables db'))).
Proof.
  split; [reflexivity|].
  apply (delete_asset_idempotent_and_cascades no_faults 7 db_sample). reflexivity.
Defined.

(** ** update_asset *)

Lemma parse_update_shares :
  parse_update "UPDATE Assets SET shares = %s WHERE asset_id = %s" = Some [ColShares].
Proof. reflexivity. Qed.

Lemma parse_update_cost_basis :
  parse_update "UPDATE Assets SET cost_basis = %s WHERE asset_id = %s"
  = Some [ColCostBasis].
Proof. reflexivity. Qed.

Lemma parse_update_both :
  parse_update "UPDATE Assets SET shares = %s, cost_basis = %s WHERE asset_id = %s"
  = Some [ColShares; ColCostBasis].
Proof. reflexivity. Qed.

Lemma parse_update_empty_set :
  parse_update "UPDATE Assets SET  WHERE asset_id = %s" = None.
Proof. reflexivity. Qed.

Lemma update_asset_shares_run faults asset_id v db :
  faults 0%nat = None ->
  update_asset faults asset_id (Some v) None db =
    (Return ("Asset " ++ Dec.string_of_Z asset_id ++ " updated successfully.")%string,
     after_update asset_id (with_shares (Decimal v)) db,
     [Sql "UPDATE Assets SET shares = %s WHERE asset_id = %s"
          [ParDecimal (Decimal v); ParInt asset_id]]).
Proof.
  intros H. unfold update_asset, call, update_asset_body, try_except, bind, execute.
  cbn -[parse_update Decimal Dec.string_of_Z]. rewrite H.
  cbn -[Decimal Dec.string_of_Z]. reflexivity.
Qed.

Lemma update_asset_cost_basis_run faults asset_id v db :
  faults 0%nat = None ->
  update_asset faults asset_id None (Some v) db =
    (Return ("Asset " ++ Dec.string_of_Z asset_id ++ " updated successfully.")%string,
     after_update asset_id (with_cost_basis (Decimal v)) db,
     [Sql "UPDATE Assets SET cost_basis = %s WHERE asset_id = %s"
          [ParDecimal (Decimal v); ParInt asset_id]]).
Proof.
  intros H. unfold update_asset, call, update_asset_body, try_except, bind, execute.
  cbn -[parse_update Decimal Dec.string_of_Z]. rewrite H.
  cbn -[Decimal Dec.string_of_Z]. reflexivity.
Qed.

(** C8.  update_asset with only new_shares sets the shares of the rows
    with that asset_id to Decimal(new_shares) and leaves their cost_basis,
    their other columns, the other rows and the other tables as they were;
    with only new_cost_basis it sets cost_basis and leaves shares. *)
Theorem update_asset_changes_only_given_field faults asset_id v db :
  faults 0%nat = None ->
  (let '(r, db', _) := update_asset faults asset_id (Some v) None db in
   r = Return ("Asset " ++ Dec.string_of_Z asset_id ++ " updated successfully.")%string
   /\ Users (db_tables db') = Users (db_tables db)
   /\ Accounts (db_tables db') = Accounts (db_tables db)
   /\ Transactions (db_tables db') = Transactions (db_tables db)
   /\ Assets (db_tables db') =
        map (fun a =>
               if a_asset_id a =? asset_id
               then mkAsset (a_asset_id a) (a_account_id a) (a_ticker_symbol a)
                            (a_asset_class a) (a_purchase_date a)
                            (Decimal v) (a_cost_basis a)
               else a)
            (Assets (db_tables db)))
  /\
  (let '(r, db', _) := update_asset faults asset_id None (Some v) db in
   r = Return ("Asset " ++ Dec.string_of_Z asset_id ++ " updated successfully.")%string
   /\ Users (db_tables db') = Users (db_tables db)
   /\ Accounts (db_tables db') = Accounts (db_tables db)
   /\ Transactions (db_tables db') = Transactions (db_tables db)
   /\ Assets (db_tables db') =
        map (fun a =>
               if a_asset_id a =? asset_id
               then mkAsset (a_asset_id a) (a_account_id a) (a_ticker_symbol a)
                            (a_asset_class a) (a_purchase_date a)
                            (a_shares a) (Decimal v)
               else a)
            (Assets (db_tables db))).
Proof.
  intros H. split.
  - rewrite (update_asset_shares_run _ _ _ _ H). repeat split.
  - rewrite (update_asset_cost_basis_run _ _ _ _ H). repeat split.
Qed.

Lemma update_asset_changes_only_given_field_witness :
  no_faults 0%nat = None /\
  (let '(r, db', _) := update_asset no_faults 1 (Some (Int 12)) None db_sample in
   r = Return ("Asset " ++ Dec.string_of_Z 1 ++ " updated successfully.")%string
   /\ Users (db_tables db') = Users (db_tables db_sample)
   /\ Accounts (db_tables db') = Accounts (db_tables db_sample)
   /\ Transactions (db_tables db') = Transactions (db_tables db_sample)
   /\ Assets (db_tables db') =
        map (fun a =>
               if a_asset_id a =? 1
               then mkAsset (a_asset_id a) (a_account_id a) (a_ticker_symbol a)
                            (a_asset_class a) (a_purchase_date a)
                            (Decimal (Int 12)) (a_cost_basis a)
               else a)
            (Assets (db_tables db_sample)))
  /\
  (let '(r, db', _) := update_asset no_faults 1 None (Some (Int 12)) db_sample in
   r = Return ("Asset " ++ Dec.string_of_Z 1 ++ " updated successfully.")%string
   /\ Users (db_tables db') = Users (db_tables db_sample)
   /\ Accounts (db_tables db') = Accounts (db_tables db_sample)
   /\ Transactions (db_tables db') = Transactions (db_tables db_sample)
   /\ Assets (db_tables db') =
        map (fun a =>
               if a_asset_id a =? 1
               then mkAsset (a_asset_id a) (a_account_id a) (a_ticker_symbol a)
                            (a_asset_class a) (a_purchase_date a)
                            (a_shares a) (Decimal (Int 12))
               else a)
            (Assets (db_tables db_sample))).
Proof.
  split; [reflexivity|].
  apply (update_asset_changes_only_given_field no_faults 1 (Int 12) db_sample).
  reflexivity.
Defined.

(** C2 (the code differs).  With neither field given, update_asset builds
    an UPDATE whose SET clause is empty and sends it; the server rejects
    the text, the except branch rolls back and the error string is
    returned.  The statement is sent, not held back. *)
Theorem update_asset_without_fields_sends_malformed_statement asset_id db :
  update_asset no_faults asset_id None None db =
    (Return "Error updating asset: syntax error"%string, db,
     [Sql "UPDATE Assets SET  WHERE asset_id = %s" [ParInt asset_id]])
  /\ parse_update "UPDATE Assets SET  WHERE asset_id = %s" = None.
Proof.
  split; [|reflexivity].
  unfold update_asset, call, update_asset_body, try_except, bind, execute.
  cbn. rewrite database_eta. reflexivity.
Qed.

(** ** create_asset_and_transaction *)

Lemma asset_exists_appended t a :
  asset_exists (mkTables (Users t) (Accounts t) (Assets t ++ [a]) (Transactions t))
               (a_asset_id a) = true.
Proof.
  unfold asset_exists. simpl. rewrite existsb_app. simpl.
  rewrite Z.eqb_refl. rewrite orb_true_r. reflexivity.
Qed.

(** The database once both rows are committed. *)
Lemma create_asset_and_transaction_cases
    faults user_id account_id ticker asset_class purchase_date shares cost_basis db :
  let t := db_tables db in
  let q := db_seq db in
  let id := assets_seq q + 1 in
  let q' := mkSeq (users_seq q) (accounts_seq q) id in
  let ins_asset := InsertAsset account_id ticker asset_class purchase_date
                               (Decimal shares) (Decimal cost_basis) in
  let ins_txn := InsertTransaction (PInt id) purchase_date (Decimal shares)
                   (Dec.mul (Decimal shares) (Decimal cost_basis)) in
  create_asset_and_transaction faults user_id account_id ticker asset_class
                               purchase_date shares cost_basis db =
  match faults 0%nat with
  | Some e => (Return ("Error creating asset: " ++ e)%string, db, [ins_asset])
  | None =>
      match adapt account_id with
      | SqlInt aid =>
          if account_exists t aid then
            match faults 1%nat with
            | Some e =>
                (Return ("Error creating asset: " ++ e)%string, mkDb t q',
                 [ins_asset; ins_txn])
            | None =>
                (Return "Asset and transaction created successfully."%string,
                 mkDb (mkTables (Users t) (Accounts t)
                         (Assets t ++ [mkAsset id aid ticker asset_class purchase_date
                                               (Decimal shares) (Decimal cost_basis)])
                         (Transactions t ++
                          [mkTransaction id "BUY" purchase_date (Decimal shares)
                             (Dec.mul (Decimal shares) (Decimal cost_basis))]))
                      q',
                 [ins_asset; ins_txn])
            end
          else
            (Return ("Error creating asset: "
                     ++ "insert on Assets violates foreign key constraint")%string,
             mkDb t q', [ins_asset])
      | SqlNull =>
          (Return ("Error creating asset: "
                   ++ "null value in column account_id of Assets")%string,
           mkDb t q', [ins_asset])
      | SqlBad =>
          (Return ("Error creating asset: "
                   ++ "column account_id is of type integer but expression is of type record")%string,
           db, [ins_asset])
      end
  end.
Proof.
  cbv zeta.
  unfold create_asset_and_transaction, call, create_asset_and_transaction_body,
    try_except, bind, execute, lift, commit, rollback, ret.
  cbn -[Decimal Dec.mul adapt account_exists asset_exists String.append].
  destruct (faults 0%nat) as [e|] eqn:F0.
  { cbn -[Decimal Dec.mul String.append]. rewrite database_eta. reflexivity. }
  cbn -[Decimal Dec.mul adapt account_exists asset_exists String.append].
  destruct (adapt account_id) as [|aid|] eqn:A.
  - cbn -[Decimal Dec.mul String.append]. reflexivity.
  - destruct (account_exists (db_tables db) aid) eqn:E.
    + cbn -[Decimal Dec.mul adapt account_exists asset_exists String.append].
      destruct (faults 1%nat) as [e|] eqn:F1.
      * cbn -[Decimal Dec.mul String.append]. reflexivity.
      * cbn -[Decimal Dec.mul account_exists asset_exists String.append].
        pose proof (asset_exists_appended (db_tables db)
                      (mkAsset (assets_seq (db_seq db) + 1) aid ticker asset_class
                               purchase_date (Decimal shares) (Decimal cost_basis)))
          as X.
        cbn [a_asset_id] in X. rewrite X.
        cbn -[Decimal Dec.mul String.append]. reflexivity.
    + cbn -[Decimal Dec.mul String.append]. reflexivity.
  - cbn -[Decimal Dec.mul String.append]. rewrite database_eta. reflexivity.
Qed.



(** A product that fits the precision of the context is not rounded. *)
Lemma mul_exact x y :
  Dec.ndigits (Dec._int x * Dec._int y) <= Dec.prec ->
  Dec.mul x y =
    Dec.mkDecimal (xorb (Dec._sign x) (Dec._sign y)) (Dec._int x * Dec._int y)
                  (Dec._exp x + Dec._exp y).
Proof.
  intros H. unfold Dec.mul, Dec._fix. cbn [Dec._int Dec._exp Dec._sign].
  destruct (Dec._int x * Dec._int y =? 0); [reflexivity|].
  destruct (Z.ltb_spec (Dec._exp x + Dec._exp y)
              (Dec.ndigits (Dec._int x * Dec._int y) + (Dec._exp x + Dec._exp y)
               - Dec.prec)); [lia|reflexivity].
Qed.

(** C10.  The result, the database and the statements sent by
    create_asset_and_transaction do not depend on user_id. *)
Theorem create_asset_and_transaction_ignores_user_id
    faults user_id user_id' account_id ticker asset_class purchase_date shares
    cost_basis db :
  create_asset_and_transaction faults user_id account_id ticker asset_class
                               purchase_date shares cost_basis db
  = create_asset_and_transaction faults user_id' account_id ticker asset_class
                                 purchase_date shares cost_basis db.
Proof. reflexivity. Qed.

(** ** create_user_and_account *)

(** C1 (the code differs).  On a store without the user, the first call
    inserts both rows and returns the two identifiers as ints, taken from
    the row with [0]; the second call finds both rows and returns the rows
    themselves, two one-element tuples.  No row is added by the second
    call, but the pairs returned are not the same. *)
Theorem create_user_and_account_second_call_differs :
  let '(r1, db1, _) :=
    create_user_and_account no_faults "John Doe" "john.doe@example.com"
                            "Brokerage" "Fictional Broker" db_empty in
  let '(r2, db2, _) :=
    create_user_and_account no_faults "John Doe" "john.doe@example.com"
                            "Brokerage" "Fictional Broker" db1 in
  r1 = Return (PTuple [PInt 1; PInt 1])
  /\ r2 = Return (PTuple [PTuple [PInt 1]; PTuple [PInt 1]])
  /\ r1 <> r2
  /\ db2 = db1.
Proof.
  vm_compute. repeat split. discriminate.
Qed.

(** ** get_insights on an empty portfolio and the guarded percentage *)

Lemma gt_zero_nonzero v : Dec.gt v (Dec.of_int 0) = true -> Dec._int v <> 0.
Proof.
  unfold Dec.gt, Dec._cmp, Dec.signed. intros H E. rewrite E in H.
  simpl in H. destruct (Dec._sign v); simpl in H; discriminate.
Qed.

Lemma truediv_defined x y : Dec._int y <> 0 -> exists q, Dec.truediv x y = Some q.
Proof.
  intros H. unfold Dec.truediv.
  destruct (Z.eqb_spec (Dec._int y) 0) as [E|_]; [contradiction|].
  destruct (Dec._int x =? 0); [eauto|].
  match goal with |- context [if ?b then _ else _] => destruct b end; [|eauto].
  match goal with |- context [Dec.strip_zeros ?a ?b ?c ?d] =>
    destruct (Dec.strip_zeros a b c d) end.
  eauto.
Qed.

Lemma delta_returns g v : exists p, Frontend.delta g v = Return p.
Proof.
  unfold Frontend.delta. destruct (Dec.gt v (Dec.of_int 0)) eqn:G; [|eauto].
  destruct (truediv_defined g v (gt_zero_nonzero v G)) as [q ->]. eauto.
Qed.

(** C7.  For an account without assets get_insights returns total_value 0,
    total_gain_loss 0 and an empty allocation, and the percentage of the
    Total Gain/Loss metric is then the int 0, taken without dividing.  For
    no pair of totals does the percentage raise: it divides only by a
    total_value above zero. *)
Theorem get_insights_empty_portfolio faults rng account_id db :
  faults 0%nat = None ->
  adapt account_id <> SqlBad ->
  (forall a, In a (Assets (db_tables db)) ->
             sql_eq (a_account_id a) (adapt account_id) = false) ->
  get_insights faults rng account_id db
  = (Return (inl (mkInsights (Dec.of_int 0) (Dec.of_int 0) [])), db,
     [SelectInsights account_id])
  /\ Frontend.delta (Dec.of_int 0) (Dec.of_int 0) = Return (Frontend.PctInt 0)
  /\ (forall total_gain_loss total_value,
        exists p, Frontend.delta total_gain_loss total_value = Return p).
Proof.
  intros F A H. split; [|split; [reflexivity|apply delta_returns]].
  unfold get_insights, call, get_insights_body, try_except, bind, execute, lift, ret.
  cbn -[adapt sql_eq]. rewrite F.
  cbn -[adapt sql_eq].
  destruct (adapt account_id); try contradiction;
    rewrite (filter_none _ _ H); cbn; rewrite database_eta; reflexivity.
Qed.

Lemma get_insights_empty_portfolio_witness :
  no_faults 0%nat = None
  /\ adapt (PTuple [PInt 2]) <> SqlBad
  /\ (forall a, In a (Assets (db_tables db_sample)) ->
                sql_eq (a_account_id a) (adapt (PTuple [PInt 2])) = false)
  /\ get_insights no_faults (fun _ => Float.lit_0_5) (PTuple [PInt 2]) db_sample
     = (Return (inl (mkInsights (Dec.of_int 0) (Dec.of_int 0) [])), db_sample,
        [SelectInsights (PTuple [PInt 2])])
  /\ Frontend.delta (Dec.of_int 0) (Dec.of_int 0) = Return (Frontend.PctInt 0)
  /\ (forall total_gain_loss total_value,
        exists p, Frontend.delta total_gain_loss total_value = Return p).
Proof.
  assert (H1 : adapt (PTuple [PInt 2]) <> SqlBad) by discriminate.
  assert (H2 : forall a, In a (Assets (db_tables db_sample)) ->
                         sql_eq (a_account_id a) (adapt (PTuple [PInt 2])) = false).
  { intros a [<-|[]]. reflexivity. }
  split; [reflexivity|]. split; [exact H1|]. split; [exact H2|].
  exact (get_insights_empty_portfolio no_faults (fun _ => Float.lit_0_5)
           (PTuple [PInt 2]) db_sample eq_refl H1 H2).
Defined.

(** ** Rounding to binary64 is monotone *)

Section HalfEven.

Variable D : Z.
Hypothesis D_pos : 0 < D.

Lemma half_even_range q r : q <= half_even D q r <= q + 1.
Proof.
  unfold half_even.
  destruct (2 * r <? D), (D <? 2 * r), (Z.even q); lia.
Qed.

Lemma half_even_mono_rem q r1 r2 :
  r1 <= r2 -> half_even D q r1 <= half_even D q r2.
Proof.
  intros H. unfold half_even.
  destruct (Z.ltb_spec (2 * r1) D), (Z.ltb_spec (2 * r2) D),
    (Z.ltb_spec D (2 * r1)), (Z.ltb_spec D (2 * r2)), (Z.even q); lia.
Qed.

Lemma half_even_mono n1 n2 :
  n1 <= n2 ->
  half_even D (n1 / D) (n1 mod D) <= half_even D (n2 / D) (n2 mod D).
Proof.
  intros H.
  pose proof (Z.div_le_mono n1 n2 D D_pos H) as Hq.
  destruct (Z.eq_dec (n1 / D) (n2 / D)) as [E|NE].
  - rewrite E. apply half_even_mono_rem.
    pose proof (Z.div_mod n1 D). pose proof (Z.div_mod n2 D). nia.
  - pose proof (half_even_range (n1 / D) (n1 mod D)).
    pose proof (half_even_range (n2 / D) (n2 mod D)). lia.
Qed.

Lemma half_even_error n :
  2 * Z.abs (half_even D (n / D) (n mod D) * D - n) <= D.
Proof.
  pose proof (Z.div_mod n D ltac:(lia)).
  pose proof (Z.mod_pos_bound n D D_pos).
  unfold half_even.
  destruct (Z.ltb_spec (2 * (n mod D)) D), (Z.ltb_spec D (2 * (n mod D))),
    (Z.even (n / D)); nia.
Qed.

End HalfEven.

Lemma rne_shift_mono n1 n2 s :
  0 <= s -> n1 <= n2 -> Float.rne_shift n1 s <= Float.rne_shift n2 s.
Proof.
  intros Hs H. unfold Float.rne_shift. apply half_even_mono; [|exact H].
  apply Z.pow_pos_nonneg; lia.
Qed.

Lemma rne_shift_exact m s : 0 <= s -> Float.rne_shift (m * 2 ^ s) s = m.
Proof.
  intros Hs. unfold Float.rne_shift, half_even.
  assert (0 < 2 ^ s) by (apply Z.pow_pos_nonneg; lia).
  rewrite Z.div_mul, Z.mod_mul by lia.
  destruct (Z.ltb_spec (2 * 0) (2 ^ s)); [reflexivity|lia].
Qed.

Lemma rne_shift_nonneg n s : 0 <= s -> 0 <= n -> 0 <= Float.rne_shift n s.
Proof.
  intros Hs Hn. rewrite <- (rne_shift_exact 0 s Hs). apply rne_shift_mono; lia.
Qed.

Lemma round_pos_nonneg u n : 0 <= u -> 0 <= n -> 0 <= Float.round_pos u n.
Proof.
  intros Hu Hn. unfold Float.round_pos.
  apply Z.mul_nonneg_nonneg.
  - apply rne_shift_nonneg; lia.
  - apply Z.pow_nonneg. lia.
Qed.

Lemma round_pos_mono u n1 n2 :
  0 <= u -> 0 <= n1 <= n2 -> Float.round_pos u n1 <= Float.round_pos u n2.
Proof.
  intros Hu [H1 H12]. unfold Float.round_pos, Float.mant_bits.
  pose proof (Z.log2_le_mono n1 n2 H12) as Hlog.
  set (s1 := Z.max u (Z.log2 n1 + 1 - 53)).
  set (s2 := Z.max u (Z.log2 n2 + 1 - 53)).
  assert (Hs : s1 <= s2) by (unfold s1, s2; lia).
  assert (Hs1 : u <= s1) by (unfold s1; lia).
  destruct (Z.eq_dec s1 s2) as [E|NE].
  - rewrite E. apply Z.mul_le_mono_nonneg_r.
    + apply Z.pow_nonneg. lia.
    + apply rne_shift_mono; lia.
  - assert (Hlt : s1 + 1 <= s2) by lia.
    assert (Hs2 : s2 = Z.log2 n2 - 52) by (unfold s2 in *; lia).
    assert (Hn2 : 0 < n2).
    { destruct (Z.eq_dec n2 0) as [Z0|]; [|lia].
      subst n2. unfold s2 in Hs2. simpl in Hs2. lia. }
    (* n2 is at least 2^52 * 2^s2 *)
    assert (L2 : 2 ^ 52 * 2 ^ s2 <= n2).
    { rewrite <- Z.pow_add_r by lia. replace (52 + s2) with (Z.log2 n2) by lia.
      apply Z.log2_spec. lia. }
    (* n1 is at most 2^53 * 2^s1 *)
    assert (U1 : n1 <= 2 ^ 53 * 2 ^ s1).
    { rewrite <- Z.pow_add_r by lia.
      destruct (Z.eq_dec n1 0) as [Z0|].
      - subst n1. apply Z.pow_nonneg. lia.
      - pose proof (Z.log2_spec n1 ltac:(lia)) as [_ Hup].
        assert (2 ^ Z.succ (Z.log2 n1) <= 2 ^ (53 + s1)).
        { apply Z.pow_le_mono_r; [lia|]. unfold s1. lia. }
        lia. }
    pose proof (rne_shift_mono _ _ s2 ltac:(lia) L2) as A2.
    rewrite rne_shift_exact in A2 by lia.
    pose proof (rne_shift_mono _ _ s1 ltac:(lia) U1) as A1.
    rewrite rne_shift_exact in A1 by lia.
    assert (P1 : 0 <= 2 ^ (s1 - u)) by (apply Z.pow_nonneg; lia).
    assert (P2 : 0 <= 2 ^ (s2 - u)) by (apply Z.pow_nonneg; lia).
    assert (P12 : 2 * 2 ^ (s1 - u) <= 2 ^ (s2 - u)).
    { replace (2 * 2 ^ (s1 - u)) with (2 ^ (s1 - u + 1))
        by (rewrite Z.pow_add_r by lia; lia).
      apply Z.pow_le_mono_r; lia. }
    change (2 ^ 53) with (2 * 2 ^ 52) in A1.
    assert (0 < 2 ^ 52) by reflexivity.
    nia.
Qed.

Lemma round_b64_mono u n1 n2 :
  0 <= u -> n1 <= n2 -> Float.round_b64 u n1 <= Float.round_b64 u n2.
Proof.
  intros Hu H. unfold Float.round_b64.
  destruct (Z.ltb_spec n1 0), (Z.ltb_spec n2 0).
  - pose proof (round_pos_mono u (- n2) (- n1) Hu ltac:(lia)). lia.
  - pose proof (round_pos_nonneg u (- n1) Hu ltac:(lia)).
    pose proof (round_pos_nonneg u n2 Hu ltac:(lia)). lia.
  - lia.
  - apply round_pos_mono; lia.
Qed.

Lemma price_factor_mono r1 r2 : r1 <= r2 -> price_factor r1 <= price_factor r2.
Proof.
  intros H. unfold price_factor, Float.add, Float.mul, Float.sub.
  apply round_b64_mono; [lia|].
  apply Z.add_le_mono_l.
  apply round_b64_mono; [unfold Float.emin; lia|].
  apply Z.mul_le_mono_nonneg_r; [vm_compute; discriminate|].
  apply round_b64_mono; lia.
Qed.

Lemma price_factor_bounds r :
  0 <= r < Float.of_int 1 -> float_0_9 <= price_factor r <= float_1_1.
Proof.
  intros [H0 H1].
  assert (r <= Float.of_int 1 - 1) by lia.
  pose proof (price_factor_mono 0 r H0) as L.
  pose proof (price_factor_mono r (Float.of_int 1 - 1) H) as U.
  assert (E0 : price_factor 0 = float_0_9) by (vm_compute; reflexivity).
  assert (E1 : price_factor (Float.of_int 1 - 1) = float_1_1) by (vm_compute; reflexivity).
  rewrite E0 in L. rewrite E1 in U. lia.
Qed.

(** ** Digits and rounding of Decimal *)

Lemma ndigits_aux_spec fuel n :
  0 < n -> n < 2 ^ (Z.of_nat fuel + 3) ->
  1 <= Dec.ndigits_aux fuel n
  /\ 10 ^ (Dec.ndigits_aux fuel n - 1) <= n < 10 ^ Dec.ndigits_aux fuel n.
Proof.
  revert n. induction fuel as [|f IH]; intros n Hn Hb.
  - simpl in *. lia.
  - cbn [Dec.ndigits_aux]. destruct (Z.ltb_spec n 10) as [L|G].
    + simpl. lia.
    + assert (Hq : 0 < n / 10) by (apply Z.div_str_pos; lia).
      assert (Hb' : n / 10 < 2 ^ (Z.of_nat f + 3)).
      { replace (Z.of_nat (S f) + 3) with (Z.of_nat f + 3 + 1) in Hb by lia.
        rewrite Z.pow_add_r in Hb by lia.
        apply Z.div_lt_upper_bound; lia. }
      destruct (IH (n / 10) Hq Hb') as [H1 [H2 H3]].
      set (d := Dec.ndigits_aux f (n / 10)) in *.
      split; [lia|].
      replace (1 + d - 1) with (d - 1 + 1) by lia.
      rewrite (Z.add_comm 1 d).
      rewrite !Z.pow_add_r by lia.
      pose proof (Z.div_mod n 10 ltac:(lia)).
      pose proof (Z.mod_pos_bound n 10 ltac:(lia)).
      change (10 ^ 1) with 10. lia.
Qed.

Lemma ndigits_spec n :
  0 < n -> 1 <= Dec.ndigits n /\ 10 ^ (Dec.ndigits n - 1) <= n < 10 ^ Dec.ndigits n.
Proof.
  intros Hn. unfold Dec.ndigits. apply ndigits_aux_spec; [exact Hn|].
  rewrite Z2Nat.id by apply Z.log2_nonneg.
  pose proof (Z.log2_spec n Hn) as [_ H].
  assert (2 ^ Z.succ (Z.log2 n) <= 2 ^ (Z.log2 n + 3))
    by (apply Z.pow_le_mono_r; lia).
  lia.
Qed.

Lemma ten_neq_0 : ~ (10 == 0)%Q.
Proof. discriminate. Qed.

Lemma ten_pow_pos e : (0 < 10 ^ e)%Q.
Proof. apply Qpower_0_lt. reflexivity. Qed.

Lemma ten_pow_split e k : 0 <= k -> (10 ^ (e + k) == 10 ^ e * inject_Z (10 ^ k))%Q.
Proof.
  intros Hk. rewrite Qpower_plus by exact ten_neq_0.
  rewrite (Zpower_Qpower 10 k Hk). reflexivity.
Qed.

(** The integer a rounding keeps: the coefficient of [_fix x] at exponent
    [_exp x + k]. *)
Lemma fix_cases x :
  Dec.wf x ->
  Dec._fix x = x
  \/ exists k c,
       0 < k
       /\ 0 <= c
       /\ (Dec.value (Dec._fix x)
           == inject_Z (if Dec._sign x then - c else c) * 10 ^ (Dec._exp x + k))%Q
       /\ 2 * Z.abs (c * 10 ^ k - Dec._int x) <= 10 ^ k
       /\ 10 ^ (27 + k) <= Dec._int x.
Proof.
  intros W. unfold Dec.wf in W. unfold Dec._fix.
  destruct (Z.eqb_spec (Dec._int x) 0) as [E|NE]; [left; reflexivity|].
  assert (Hpos : 0 < Dec._int x) by lia.
  destruct (ndigits_spec _ Hpos) as [D1 [D2 D3]].
  set (d := Dec.ndigits (Dec._int x)) in *.
  destruct (Z.ltb_spec (Dec._exp x) (d + Dec._exp x - Dec.prec)) as [L|G];
    [|left; reflexivity].
  right. unfold Dec.prec in *.
  set (k := d - 28) in *.
  assert (Hk : 0 < k) by (unfold k; lia).
  replace (d + Dec._exp x - 28 - Dec._exp x) with k by (unfold k; lia).
  replace (d + Dec._exp x - 28) with (Dec._exp x + k) by (unfold k; lia).
  assert (P : 0 < 10 ^ k) by (apply Z.pow_pos_nonneg; lia).
  unfold Dec.div_half_even.
  set (c := half_even (10 ^ k) (Dec._int x / 10 ^ k) (Dec._int x mod 10 ^ k)).
  pose proof (half_even_error (10 ^ k) P (Dec._int x)) as Herr. fold c in Herr.
  pose proof (half_even_range (10 ^ k) (Dec._int x / 10 ^ k) (Dec._int x mod 10 ^ k))
    as Hr. fold c in Hr.
  assert (Hq0 : 0 <= Dec._int x / 10 ^ k) by (apply Z.div_pos; lia).
  assert (Hlow : 10 ^ (27 + k) <= Dec._int x).
  { replace (27 + k) with (d - 1) by (unfold k; lia). exact D2. }
  assert (Hup : Dec._int x / 10 ^ k < 10 ^ 28).
  { apply Z.div_lt_upper_bound; [lia|].
    rewrite <- Z.pow_add_r by lia. replace (k + 28) with d by (unfold k; lia).
    exact D3. }
  exists k, c. split; [exact Hk|]. split; [lia|].
  split; [|split; [exact Herr|exact Hlow]].
  destruct (Z.ltb_spec 28 (Dec.ndigits c)) as [Carry|NoCarry].
  - (* the coefficient reached 10^28 *)
    assert (Hc : c = 10 ^ 28).
    { assert (0 < c).
      { destruct (Z.eq_dec c 0) as [C0|]; [|lia].
        rewrite C0 in Carry. vm_compute in Carry. discriminate. }
      destruct (ndigits_spec c ltac:(lia)) as [_ [C2 _]].
      assert (10 ^ 28 <= 10 ^ (Dec.ndigits c - 1)) by (apply Z.pow_le_mono_r; lia).
      lia. }
    unfold Dec.value, Dec.signed. cbn [Dec._sign Dec._int Dec._exp].
    rewrite Hc.
    rewrite (ten_pow_split (Dec._exp x + k) 1) by lia.
    change (10 ^ 28 / 10) with (10 ^ 27).
    destruct (Dec._sign x).
    + change (inject_Z (- 10 ^ 27)) with (- inject_Z (10 ^ 27))%Q.
      change (inject_Z (- 10 ^ 28)) with (- inject_Z (10 ^ 28))%Q.
      change (inject_Z (10 ^ 28)) with (inject_Z (10 ^ 27) * inject_Z (10 ^ 1))%Q.
      ring.
    + change (inject_Z (10 ^ 28)) with (inject_Z (10 ^ 27) * inject_Z (10 ^ 1))%Q.
      ring.
  - unfold Dec.value, Dec.signed. cbn [Dec._sign Dec._int Dec._exp]. reflexivity.
Qed.

Lemma value_nonneg_abs x :
  Dec.wf x -> (Qabs (Dec.value x) == inject_Z (Dec._int x) * 10 ^ Dec._exp x)%Q.
Proof.
  intros W. unfold Dec.wf in W. unfold Dec.value, Dec.signed.
  rewrite Qabs_Qmult.
  rewrite (Qabs_pos (10 ^ Dec._exp x)) by (apply Qlt_le_weak, ten_pow_pos).
  assert (A : (Qabs (inject_Z (if Dec._sign x then - Dec._int x else Dec._int x))
               == inject_Z (Dec._int x))%Q).
  { destruct (Dec._sign x).
    - rewrite inject_Z_opp, Qabs_opp. apply Qabs_pos.
      change 0%Q with (inject_Z 0). rewrite <- Zle_Qle. exact W.
    - apply Qabs_pos. change 0%Q with (inject_Z 0). rewrite <- Zle_Qle. exact W. }
  rewrite A. reflexivity.
Qed.

(** Rounding to 28 digits moves a value by at most half a unit of its last
    kept digit, which is at most 1/(2*10^27) of the value. *)
Lemma fix_error x :
  Dec.wf x ->
  (Qabs (Dec.value (Dec._fix x) - Dec.value x)
   <= Qabs (Dec.value x) * (1 # 2000000000000000000000000000))%Q.
Proof.
  intros W. destruct (fix_cases x W) as [E|(k & c & Hk & Hc & Hv & Herr & Hlow)].
  - rewrite E. setoid_replace (Dec.value x - Dec.value x)%Q with 0%Q by ring.
    pose proof (Qabs_nonneg (Dec.value x)) as Hn.
    change (Qabs 0) with 0%Q. lra.
  - rewrite (value_nonneg_abs x W).
    rewrite Hv. unfold Dec.value, Dec.signed.
    rewrite (ten_pow_split (Dec._exp x) k) by lia.
    set (p := (10 ^ Dec._exp x)%Q).
    assert (Hp : (0 < p)%Q) by apply ten_pow_pos.
    set (i := Dec._int x) in *.
    assert (Hd : (inject_Z (if Dec._sign x then - c else c) * (p * inject_Z (10 ^ k))
                  - inject_Z (if Dec._sign x then - i else i) * p
                  == inject_Z (if Dec._sign x then - (c * 10 ^ k - i) else c * 10 ^ k - i)
                     * p)%Q).
    { unfold Z.sub. destruct (Dec._sign x); cbv iota;
        rewrite ?inject_Z_opp, ?inject_Z_plus, ?inject_Z_mult, ?inject_Z_opp; ring. }
    rewrite Hd. rewrite Qabs_Qmult. rewrite (Qabs_pos p) by (apply Qlt_le_weak, Hp).
    assert (Ha : (Qabs (inject_Z (if Dec._sign x then - (c * 10 ^ k - i)
                                  else c * 10 ^ k - i))
                  == inject_Z (Z.abs (c * 10 ^ k - i)))%Q).
    { unfold Qabs, inject_Z. destruct (Dec._sign x); [rewrite Z.abs_opp|]; reflexivity. }
    rewrite Ha.
    assert (Hz : 2000000000000000000000000000 * Z.abs (c * 10 ^ k - i) <= i).
    { rewrite Z.pow_add_r in Hlow by lia.
      change (10 ^ 27) with 1000000000000000000000000000 in Hlow. lia. }
    assert (Hq : (inject_Z 2000000000000000000000000000
                  * inject_Z (Z.abs (c * 10 ^ k - i)) <= inject_Z i)%Q).
    { rewrite <- inject_Z_mult. rewrite <- Zle_Qle. exact Hz. }
    set (a := inject_Z (Z.abs (c * 10 ^ k - i))) in *.
    set (b := inject_Z i) in *.
    assert (H2 : (inject_Z 2000000000000000000000000000 == 2000000000000000000000000000)%Q)
      by reflexivity.
    rewrite H2 in Hq.
    nra.
Qed.

Lemma value_mul_exact x y :
  (Dec.value (Dec.mkDecimal (xorb (Dec._sign x) (Dec._sign y))
                            (Dec._int x * Dec._int y) (Dec._exp x + Dec._exp y))
   == Dec.value x * Dec.value y)%Q.
Proof.
  unfold Dec.value, Dec.signed. cbn [Dec._sign Dec._int Dec._exp].
  rewrite Qpower_plus by exact ten_neq_0.
  destruct (Dec._sign x), (Dec._sign y); cbn [xorb]; cbv iota;
    rewrite ?inject_Z_opp, ?inject_Z_mult, ?inject_Z_opp; ring.
Qed.

(** The product of two Decimals is the exact product, up to the rounding
    of the context. *)
Lemma mul_error x y :
  Dec.wf x -> Dec.wf y ->
  (Qabs (Dec.value (Dec.mul x y) - Dec.value x * Dec.value y)
   <= Qabs (Dec.value x * Dec.value y) * (1 # 2000000000000000000000000000))%Q.
Proof.
  intros Wx Wy. unfold Dec.mul. rewrite <- value_mul_exact.
  apply fix_error. unfold Dec.wf in *. cbn [Dec._int]. nia.
Qed.

(** ** Decimal(float) is exact *)

Lemma ctz_spec p :
  0 <= fst (Float.ctz p) /\ Zpos p = Zpos (snd (Float.ctz p)) * 2 ^ fst (Float.ctz p).
Proof.
  induction p as [q IH|q IH|]; cbn [Float.ctz]; try (simpl; lia).
  destruct (Float.ctz q) as [t m]. cbn [fst snd] in *.
  destruct IH as [Ht Hm]. split; [lia|].
  rewrite Z.pow_add_r by lia. change (2 ^ 1) with 2.
  change (Z.pos q~0) with (2 * Z.pos q). rewrite Hm. ring.
Qed.

Lemma two_neq_0 : ~ (2 == 0)%Q.
Proof. discriminate. Qed.

Lemma five_pow_ten_pow k :
  0 <= k -> (inject_Z (5 ^ k) * 10 ^ (- k) == 2 ^ (- k))%Q.
Proof.
  intros Hk. rewrite (Zpower_Qpower 5 k Hk). rewrite !Qpower_opp.
  setoid_replace 10%Q with (2 * inject_Z 5)%Q by reflexivity.
  rewrite Qmult_power.
  assert (~ (inject_Z 5 ^ k == 0)%Q) by (apply Qpower_not_0; discriminate).
  assert (~ (2 ^ k == 0)%Q) by (apply Qpower_not_0; discriminate).
  field. split; assumption.
Qed.

Lemma from_float_abs p :
  let (n, k) := Float.as_integer_ratio (Zpos p) in
  0 <= n /\ 0 <= k
  /\ (inject_Z (n * 5 ^ k) * 10 ^ (- k) == inject_Z (Zpos p) * 2 ^ (- Float.emin))%Q.
Proof.
  unfold Float.as_integer_ratio. cbn [Z.abs].
  pose proof (ctz_spec p) as [Ht Hm].
  destruct (Float.ctz p) as [t m]. cbn [fst snd] in *.
  unfold Float.emin.
  destruct (Z.leb_spec 1074 t) as [L|G].
  - split; [apply Z.mul_nonneg_nonneg; [lia|apply Z.pow_nonneg; lia]|].
    split; [lia|].
    rewrite Hm. change (5 ^ 0) with 1. rewrite Z.mul_1_r.
    change (10 ^ (- 0))%Q with 1%Q. rewrite Qmult_1_r.
    replace t with (t - 1074 + 1074) at 2 by lia.
    rewrite Z.pow_add_r by lia.
    rewrite !inject_Z_mult.
    rewrite (Zpower_Qpower 2 1074) by lia.
    rewrite Qpower_opp.
    assert (~ (inject_Z 2 ^ 1074 == 0)%Q) by (apply Qpower_not_0; discriminate).
    change 2%Q with (inject_Z 2). field; try assumption.
  - split; [lia|]. split; [lia|].
    rewrite inject_Z_mult. rewrite <- Qmult_assoc.
    rewrite five_pow_ten_pow by lia.
    rewrite Hm. rewrite inject_Z_mult.
    rewrite (Zpower_Qpower 2 t) by lia.
    replace (- (1074 - t)) with (t + - 1074) by lia.
    rewrite (Qpower_plus 2 t (- 1074) two_neq_0).
    change (inject_Z 2) with 2%Q. rewrite Qmult_assoc. reflexivity.
Qed.

Lemma from_float_wf f : Dec.wf (Dec.from_float f).
Proof.
  unfold Dec.wf, Dec.from_float.
  destruct f as [|p|p].
  - simpl. lia.
  - pose proof (from_float_abs p) as H.
    destruct (Float.as_integer_ratio (Z.pos p)) as [n k].
    destruct H as (Hn & Hk & _). cbn [Dec._int].
    apply Z.mul_nonneg_nonneg; [lia|apply Z.pow_nonneg; lia].
  - pose proof (from_float_abs p) as H.
    change (Float.as_integer_ratio (Z.neg p)) with (Float.as_integer_ratio (Z.pos p)).
    destruct (Float.as_integer_ratio (Z.pos p)) as [n k].
    destruct H as (Hn & Hk & _). cbn [Dec._int].
    apply Z.mul_nonneg_nonneg; [lia|apply Z.pow_nonneg; lia].
Qed.

Lemma from_float_value f : (Dec.value (Dec.from_float f) == Float.value f)%Q.
Proof.
  unfold Dec.from_float, Float.value.
  destruct f as [|p|p].
  - reflexivity.
  - pose proof (from_float_abs p) as H.
    destruct (Float.as_integer_ratio (Z.pos p)) as [n k].
    destruct H as (_ & _ & H).
    unfold Dec.value, Dec.signed. cbn [Dec._sign Dec._int Dec._exp].
    change (Z.pos p <? 0) with false. cbv iota. exact H.
  - pose proof (from_float_abs p) as H.
    change (Float.as_integer_ratio (Z.neg p)) with (Float.as_integer_ratio (Z.pos p)).
    destruct (Float.as_integer_ratio (Z.pos p)) as [n k].
    destruct H as (_ & _ & H).
    unfold Dec.value, Dec.signed. cbn [Dec._sign Dec._int Dec._exp].
    change (Z.neg p <? 0) with true. cbv iota.
    change (Z.neg p) with (- Z.pos p). rewrite !inject_Z_opp.
    setoid_replace (- inject_Z (n * 5 ^ k) * 10 ^ (- k))%Q
      with (- (inject_Z (n * 5 ^ k) * 10 ^ (- k)))%Q by ring.
    rewrite H. ring.
Qed.

(** ** The rows of a purchase and the amount of its transaction *)

(** [Decimal(v)] is exact for ints and floats alike. *)
Lemma Decimal_value v : (Dec.value (Decimal v) == number_value v)%Q.
Proof.
  destruct v as [n|f]; cbn [Decimal number_value].
  - unfold Dec.value, Dec.of_int, Dec.signed. cbn [Dec._sign Dec._int Dec._exp].
    assert (H : (if n <? 0 then - Z.abs n else Z.abs n) = n)
      by (destruct (Z.ltb_spec n 0); lia).
    rewrite H. change (10 ^ 0)%Q with 1%Q. ring.
  - apply from_float_value.
Qed.

Lemma Decimal_wf v : Dec.wf (Decimal v).
Proof.
  destruct v as [n|f]; cbn [Decimal].
  - unfold Dec.wf, Dec.of_int. cbn [Dec._int]. lia.
  - apply from_float_wf.
Qed.

(** C4, amended.  A create_asset_and_transaction that returns its success
    message has appended exactly one row to Assets, with the given
    cost_basis converted exactly to a Decimal, and exactly one row to
    Transactions, of type BUY for the new asset; Users and Accounts are as
    before.  The amount of the transaction is Decimal(shares) *
    Decimal(cost_basis), the product shares x cost_basis rounded to the 28
    significant digits of the context: it is within 5 parts in 10^28 of
    the product, and is the product whenever the product of the two
    coefficients has at most 28 digits. *)
Theorem create_asset_and_transaction_rows
    faults user_id account_id ticker asset_class purchase_date shares cost_basis
    db db' log :
  create_asset_and_transaction faults user_id account_id ticker asset_class
                               purchase_date shares cost_basis db
  = (Return "Asset and transaction created successfully."%string, db', log) ->
  exists aid amount,
    adapt account_id = SqlInt aid
    /\ Assets (db_tables db') =
         Assets (db_tables db) ++
         [mkAsset (assets_seq (db_seq db) + 1) aid ticker asset_class purchase_date
                  (Decimal shares) (Decimal cost_basis)]
    /\ Transactions (db_tables db') =
         Transactions (db_tables db) ++
         [mkTransaction (assets_seq (db_seq db) + 1) "BUY" purchase_date
                        (Decimal shares) amount]
    /\ Users (db_tables db') = Users (db_tables db)
    /\ Accounts (db_tables db') = Accounts (db_tables db)
    /\ (Dec.value (Decimal shares) == number_value shares)%Q
    /\ (Dec.value (Decimal cost_basis) == number_value cost_basis)%Q
    /\ amount = Dec.mul (Decimal shares) (Decimal cost_basis)
    /\ (Qabs (Dec.value amount - number_value shares * number_value cost_basis)
        <= Qabs (number_value shares * number_value cost_basis)
           * (1 # 2000000000000000000000000000))%Q
    /\ (Dec.ndigits (Dec._int (Decimal shares) * Dec._int (Decimal cost_basis))
        <= Dec.prec ->
        amount =
          Dec.mkDecimal
            (xorb (Dec._sign (Decimal shares)) (Dec._sign (Decimal cost_basis)))
            (Dec._int (Decimal shares) * Dec._int (Decimal cost_basis))
            (Dec._exp (Decimal shares) + Dec._exp (Decimal cost_basis))
        /\ (Dec.value amount == number_value shares * number_value cost_basis)%Q).
Proof.
  pose proof (create_asset_and_transaction_cases faults user_id account_id ticker
                asset_class purchase_date shares cost_basis db) as H.
  cbv zeta in H. rewrite H. clear H.
  destruct (faults 0%nat) as [e0|]; [intros E; inversion E|].
  destruct (adapt account_id) as [|aid|]; try (intros E; inversion E; fail).
  destruct (account_exists (db_tables db) aid); [|intros E; inversion E].
  destruct (faults 1%nat) as [e1|]; [intros E; inversion E|].
  intros E. inversion E. subst.
  exists aid, (Dec.mul (Decimal shares) (Decimal cost_basis)).
  cbn [db_tables Users Accounts Assets Transactions].
  do 5 (split; [reflexivity|]).
  split; [apply Decimal_value|]. split; [apply Decimal_value|].
  split; [reflexivity|]. split.
  - rewrite <- !Decimal_value. apply mul_error; apply Decimal_wf.
  - intros D. rewrite (mul_exact _ _ D). split; [reflexivity|].
    rewrite value_mul_exact, !Decimal_value. reflexivity.
Qed.

(** The example of the specification: ten shares at 150.00. *)
Lemma create_asset_and_transaction_rows_witness :
  exists db' log,
    create_asset_and_transaction no_faults (PInt 1) (PInt 1) "AAPL" "Equity"
      jan_1_2024 (Int 10) (Flt (Float.b64 150 0)) db_sample
    = (Return "Asset and transaction created successfully."%string, db', log)
    /\ Assets (db_tables db') =
         Assets (db_tables db_sample) ++
         [mkAsset 2 1 "AAPL" "Equity" jan_1_2024 (Dec.of_int 10) (Dec.of_int 150)]
    /\ Transactions (db_tables db') =
         Transactions (db_tables db_sample) ++
         [mkTransaction 2 "BUY" jan_1_2024 (Dec.of_int 10) (Dec.of_int 1500)].
Proof.
  eexists. eexists. split; [vm_compute; reflexivity|].
  destruct (create_asset_and_transaction_rows no_faults (PInt 1) (PInt 1) "AAPL"
              "Equity" jan_1_2024 (Int 10) (Flt (Float.b64 150 0)) db_sample _ _
              eq_refl) as (aid & amount & Ha & HA & HT & _ & _ & _ & _ & Hm & _).
  inversion Ha; subst aid. subst amount. split; [exact HA | exact HT].
Defined.

(** C4 as stated fails for the floats the page passes: for 0.1 share at
    0.1 the exact product has 109 digits, and the amount stored is
    0.01000000000000000111022302463, not the product. *)
Theorem amount_differs_from_product :
  exists db' log amount,
    create_asset_and_transaction no_faults (PInt 1) (PInt 1) "AAPL" "Equity"
      jan_1_2024 (Flt float_0_1) (Flt float_0_1) db_sample
    = (Return "Asset and transaction created successfully."%string, db', log)
    /\ Transactions (db_tables db') =
         Transactions (db_tables db_sample) ++
         [mkTransaction 2 "BUY" jan_1_2024 (Decimal (Flt float_0_1)) amount]
    /\ amount = Dec.mkDecimal false 1000000000000000111022302463 (-29)
    /\ ~ (Dec.value amount
          == number_value (Flt float_0_1) * number_value (Flt float_0_1))%Q.
Proof.
  do 3 eexists. split; [vm_compute; reflexivity|].
  split; [vm_compute; reflexivity|]. split; [reflexivity|].
  apply Qeq_bool_neq. vm_compute. reflexivity.
Qed.

(** ** The simulated price stays within ten per cent, up to rounding *)

Lemma float_value_mono x y : x <= y -> (Float.value x <= Float.value y)%Q.
Proof.
  intros H. unfold Float.value.
  apply Qmult_le_compat_r.
  - rewrite <- Zle_Qle. exact H.
  - apply Qlt_le_weak, Qpower_0_lt. reflexivity.
Qed.

Lemma float_0_9_value : (9 # 10 <= Float.value float_0_9)%Q.
Proof. apply Qle_bool_iff. vm_compute. reflexivity. Qed.

Lemma float_1_1_value :
  (Float.value float_1_1 <= (11 # 10) + (89 # 1000000000000000000))%Q.
Proof. apply Qle_bool_iff. vm_compute. reflexivity. Qed.

Lemma price_factor_value r :
  0 <= r < Float.of_int 1 ->
  (9 # 10 <= Float.value (price_factor r)
   <= (11 # 10) + (89 # 1000000000000000000))%Q.
Proof.
  intros H. destruct (price_factor_bounds r H) as [L U].
  split.
  - eapply Qle_trans; [apply float_0_9_value|apply float_value_mono, L].
  - eapply Qle_trans; [apply float_value_mono, U|apply float_1_1_value].
Qed.

Lemma simulated_price_within cost_basis r :
  Dec.wf cost_basis ->
  0 <= r < Float.of_int 1 ->
  (Qabs (Dec.value (simulated_price cost_basis r) - Dec.value cost_basis)
   <= Qabs (Dec.value cost_basis) * ((1 # 10) + (1 # 10000000000000000)))%Q.
Proof.
  intros W Hr. unfold simulated_price.
  pose proof (mul_error cost_basis (Dec.from_float (price_factor r)) W
                (from_float_wf _)) as E.
  rewrite (from_float_value (price_factor r)) in E.
  destruct (price_factor_value r Hr) as [L U].
  set (phi := Float.value (price_factor r)) in *.
  set (C := Dec.value cost_basis) in *.
  set (P := Dec.value (Dec.mul cost_basis (Dec.from_float (price_factor r)))) in *.
  rewrite Qabs_Qmult in E. rewrite (Qabs_pos phi) in E by lra.
  apply Qabs_Qle_condition in E. destruct E as [E1 E2].
  apply Qabs_Qle_condition.
  pose proof (Qabs_nonneg C) as Ha.
  assert (Hc : (Qabs C == C \/ Qabs C == - C)%Q).
  { apply (Qabs_case C (fun a => (a == C \/ a == - C)%Q)); intros; [left|right]; reflexivity. }
  set (a := Qabs C) in *.
  assert (T1 : ((9 # 10) * a <= a * phi)%Q) by nra.
  assert (T2 : (a * phi <= ((11 # 10) + (89 # 1000000000000000000)) * a)%Q) by nra.
  set (t := (a * phi)%Q) in *.
  destruct Hc as [Hc|Hc].
  - assert (Cphi : (C * phi == t)%Q) by (unfold t; rewrite Hc; reflexivity).
    rewrite Cphi in E1, E2. split; lra.
  - assert (Cphi : (C * phi == - t)%Q).
    { unfold t. setoid_replace C with (- a)%Q by lra. ring. }
    rewrite Cphi in E1, E2. split; lra.
Qed.

(** ** The loops of read_portfolio and get_insights *)

Lemma portfolio_loop_holdings rng i assets portfolio :
  portfolio_loop rng i assets portfolio = portfolio ++ holdings rng i assets.
Proof.
  revert i portfolio. induction assets as [|asset rest IH]; intros i portfolio.
  - simpl. rewrite app_nil_r. reflexivity.
  - destruct asset as [[[[[asset_id ticker] asset_class] shares] cost_basis] d].
    cbn [portfolio_loop holdings]. rewrite IH. rewrite <- app_assoc.
    unfold holding_of, simulated_gain_loss, simulated_value, simulated_price,
      price_factor.
    cbn [app]. reflexivity.
Qed.

Lemma getitem_contains d k : contains d k = true <-> getitem d k <> None.
Proof.
  induction d as [|[k' v] rest IH]; simpl.
  - split; [discriminate|congruence].
  - destruct (String.eqb k' k); [split; [discriminate|reflexivity]|exact IH].
Qed.

Lemma getitem_setitem d k v : getitem (setitem d k v) k = Some v.
Proof.
  induction d as [|[k' v'] rest IH]; simpl.
  - rewrite String.eqb_refl. reflexivity.
  - destruct (String.eqb k' k) eqn:E; simpl; rewrite E; [reflexivity|exact IH].
Qed.

Lemma setitem_setitem d k v w : setitem (setitem d k v) k w = setitem d k w.
Proof.
  induction d as [|[k' v'] rest IH]; simpl.
  - rewrite String.eqb_refl. reflexivity.
  - destruct (String.eqb k' k) eqn:E; simpl; rewrite E; [reflexivity|].
    rewrite IH. reflexivity.
Qed.

(** One turn of the loop of get_insights: the KeyError branch is never
    taken, and the three accumulators grow by the simulated value. *)
Lemma insights_loop_step rng i asset_id asset_class shares cost_basis rest
    total_value total_cost_basis asset_allocation :
  insights_loop rng i ((asset_id, asset_class, shares, cost_basis) :: rest)
                total_value total_cost_basis asset_allocation
  = insights_loop rng (S i) rest
      (Dec.add total_value (simulated_value shares cost_basis (rng i)))
      (Dec.add total_cost_basis (Dec.mul shares cost_basis))
      (setitem asset_allocation asset_class
         (Dec.add (class_value asset_allocation asset_class)
                  (simulated_value shares cost_basis (rng i)))).
Proof.
  cbn [insights_loop]. unfold class_value.
  fold (price_factor (rng i)). fold (simulated_price cost_basis (rng i)).
  fold (simulated_value shares cost_basis (rng i)).
  destruct (contains asset_allocation asset_class) eqn:C; cbn [negb].
  - apply getitem_contains in C.
    destruct (getitem asset_allocation asset_class) as [v|]; [reflexivity|congruence].
  - assert (N : getitem asset_allocation asset_class = None).
    { destruct (getitem asset_allocation asset_class) eqn:G; [|reflexivity].
      assert (contains asset_allocation asset_class = true)
        by (apply getitem_contains; congruence).
      congruence. }
    rewrite getitem_setitem, N, setitem_setitem. reflexivity.
Qed.

Lemma insights_loop_returns rng assets :
  forall i total_value total_cost_basis asset_allocation,
  exists acc,
    insights_loop rng i assets total_value total_cost_basis asset_allocation
    = Return acc.
Proof.
  induction assets as [|[[[asset_id asset_class] shares] cost_basis] rest IH]; intros.
  - eexists. reflexivity.
  - rewrite insights_loop_step. apply IH.
Qed.

(** ** get_insights and the sum of the allocation *)

Lemma get_insights_loop faults rng account_id db ins db' log :
  get_insights faults rng account_id db = (Return (inl ins), db', log) ->
  exists total_cost_basis,
    insights_loop rng 0 (insights_rows account_id db)
                  (Decimal (Int 0)) (Decimal (Int 0)) []
    = Return (total_value ins, total_cost_basis, asset_allocation ins).
Proof.
  unfold get_insights, call, get_insights_body, try_except, bind, execute, lift, ret,
    insights_rows.
  cbn -[adapt sql_eq insights_loop Decimal].
  destruct (faults 0%nat); [intros E; inversion E|].
  cbn -[adapt sql_eq insights_loop Decimal].
  destruct (adapt account_id) as [|aid|]; cbn -[sql_eq insights_loop Decimal];
    try (intros E; inversion E; fail).
  - match goal with |- context [insights_loop rng 0 ?l ?a ?b ?c] =>
      destruct (insights_loop_returns rng l 0%nat a b c) as [[[tv tcb] alloc] ->] end.
    cbn. intros E. inversion E. subst. cbn. eauto.
  - match goal with |- context [insights_loop rng 0 ?l ?a ?b ?c] =>
      destruct (insights_loop_returns rng l 0%nat a b c) as [[[tv tcb] alloc] ->] end.
    cbn. intros E. inversion E. subst. cbn. eauto.
Qed.

Lemma value_zero : (Dec.value (Decimal (Int 0)) == 0)%Q.
Proof. reflexivity. Qed.

Lemma allocation_sum_setitem d k v :
  (allocation_sum (setitem d k v)
   == allocation_sum d - Dec.value (class_value d k) + Dec.value v)%Q.
Proof.
  unfold class_value. induction d as [|[k' v'] rest IH]; cbn [setitem getitem].
  - unfold allocation_sum. cbn [fold_right snd]. rewrite value_zero. ring.
  - destruct (String.eqb k' k).
    + unfold allocation_sum. cbn [fold_right snd]. ring.
    + unfold allocation_sum in *. cbn [fold_right snd]. rewrite IH. ring.
Qed.

Lemma insights_loop_sum rng assets :
  forall i total_value total_cost_basis asset_allocation tv tcb alloc,
  insights_loop rng i assets total_value total_cost_basis asset_allocation
  = Return (tv, tcb, alloc) ->
  additions_exact rng i assets total_value asset_allocation ->
  (Dec.value total_value == allocation_sum asset_allocation)%Q ->
  (Dec.value tv == allocation_sum alloc)%Q.
Proof.
  induction assets as [|[[[asset_id asset_class] shares] cost_basis] rest IH];
    intros i total_value total_cost_basis asset_allocation tv tcb alloc.
  - cbn [insights_loop]. intros E _ H. inversion E; subst. exact H.
  - rewrite insights_loop_step. cbn [additions_exact].
    intros E (X1 & X2 & X) H.
    apply (IH _ _ _ _ _ _ _ E X).
    unfold exact_add in X1, X2.
    rewrite X1, allocation_sum_setitem, X2, H. ring.
Qed.

(** C6, amended.  When no addition of the pass rounds, the total_value
    that get_insights returns is the sum of the values of the returned
    asset_allocation. *)
Theorem total_value_is_allocation_sum_when_exact
    faults rng account_id db ins db' log :
  get_insights faults rng account_id db = (Return (inl ins), db', log) ->
  additions_exact rng 0 (insights_rows account_id db) (Decimal (Int 0)) [] ->
  (Dec.value (total_value ins) == allocation_sum (asset_allocation ins))%Q.
Proof.
  intros E X. destruct (get_insights_loop _ _ _ _ _ _ _ E) as [tcb L].
  apply (insights_loop_sum _ _ _ _ _ _ _ _ _ L X). reflexivity.
Qed.

Lemma total_value_is_allocation_sum_when_exact_witness :
  exists ins db' log,
    get_insights no_faults (fun _ => Float.lit_0_5) (PInt 1) db_three
    = (Return (inl ins), db', log)
    /\ additions_exact (fun _ => Float.lit_0_5) 0 (insights_rows (PInt 1) db_three)
                       (Decimal (Int 0)) []
    /\ Dec.value (total_value ins) == 3
    /\ (Dec.value (total_value ins) == allocation_sum (asset_allocation ins))%Q.
Proof.
  do 3 eexists.
  assert (E : get_insights no_faults (fun _ => Float.lit_0_5) (PInt 1) db_three
              = (Return (inl (mkInsights (Dec.of_int 3)
                                (Dec.sub (Dec.of_int 3) (Dec.of_int 3))
                                [("Equity", Dec.of_int 2); ("Crypto", Dec.of_int 1)])),
                 db_three, [SelectInsights (PInt 1)]))
    by (vm_compute; reflexivity).
  assert (X : additions_exact (fun _ => Float.lit_0_5) 0
                (insights_rows (PInt 1) db_three) (Decimal (Int 0)) [])
    by (vm_compute; repeat split).
  split; [exact E|]. split; [exact X|]. split; [reflexivity|].
  exact (total_value_is_allocation_sum_when_exact _ _ _ _ _ _ _ E X).
Defined.

(** C6 as stated fails: with three assets of classes Equity, Crypto and
    Equity and the draws 0.0, 0.0 and 0.5, total_value is
    2.800000000000000044408920985 while the allocation holds
    1.900000000000000022204460492 and 0.9000000000000000222044604925,
    whose sum is 2.8000000000000000444089209845, and
    2.800000000000000044408920984 when added as Decimals. *)
Lemma total_value_differs_from_allocation_sum :
  exists ins db' log,
    get_insights no_faults draws_three (PInt 1) db_three = (Return (inl ins), db', log)
    /\ insights_rows (PInt 1) db_three <> []
    /\ ~ (Dec.value (total_value ins) == allocation_sum (asset_allocation ins))%Q
    /\ Dec._cmp (total_value ins) (allocation_sum_decimal (asset_allocation ins)) = Gt.
Proof.
  do 3 eexists. split; [vm_compute; reflexivity|].
  split; [discriminate|]. split; [|vm_compute; reflexivity].
  vm_compute. discriminate.
Qed.

(** ** The simulated price in read_portfolio and get_insights *)

Lemma read_portfolio_holdings faults rng account_id db hs db' log :
  read_portfolio faults rng account_id db = (Return (inl hs), db', log) ->
  hs = holdings rng 0 (portfolio_rows account_id db).
Proof.
  unfold read_portfolio, call, read_portfolio_body, try_except, bind, execute, ret,
    portfolio_rows.
  cbn -[adapt sql_eq portfolio_loop].
  destruct (faults 0%nat); [intros E; inversion E|].
  cbn -[adapt sql_eq portfolio_loop].
  destruct (adapt account_id) as [|aid|]; cbn -[sql_eq portfolio_loop];
    intros E; inversion E; subst; rewrite portfolio_loop_holdings; reflexivity.
Qed.

(** C5, amended.  Both read_portfolio and get_insights take the current
    price of a row as cost_basis * Decimal(1 + (r - 0.5) * 0.2) for the
    draw r, the current value as shares * price and the gain or loss as
    value - shares * cost_basis, in binary64 and Decimal arithmetic;
    read_portfolio reports them to two places.  For every draw in
    [0.0, 1.0) the factor lies between the floats nearest to 0.9 and to
    1.1, the latter just above 1.1, so the price lies within ten per cent
    of cost_basis up to one part in 10^16. *)
Theorem simulated_price_formula_and_bounds :
  (forall faults rng account_id db hs db' log,
     read_portfolio faults rng account_id db = (Return (inl hs), db', log) ->
     hs = holdings rng 0 (portfolio_rows account_id db))
  /\ (forall faults rng account_id db ins db' log,
        get_insights faults rng account_id db = (Return (inl ins), db', log) ->
        exists total_cost_basis,
          insights_loop rng 0 (insights_rows account_id db)
                        (Decimal (Int 0)) (Decimal (Int 0)) []
          = Return (total_value ins, total_cost_basis, asset_allocation ins))
  /\ (forall rng i asset_id asset_class shares cost_basis rest
             total_value total_cost_basis asset_allocation,
        insights_loop rng i ((asset_id, asset_class, shares, cost_basis) :: rest)
                      total_value total_cost_basis asset_allocation
        = insights_loop rng (S i) rest
            (Dec.add total_value (simulated_value shares cost_basis (rng i)))
            (Dec.add total_cost_basis (Dec.mul shares cost_basis))
            (setitem asset_allocation asset_class
               (Dec.add (class_value asset_allocation asset_class)
                        (simulated_value shares cost_basis (rng i)))))
  /\ (forall r, 0 <= r < Float.of_int 1 ->
        float_0_9 <= price_factor r <= float_1_1
        /\ (9 # 10 <= Float.value (price_factor r)
            <= (11 # 10) + (89 # 1000000000000000000))%Q)
  /\ (forall cost_basis r,
        Dec.wf cost_basis ->
        0 <= r < Float.of_int 1 ->
        (Qabs (Dec.value (simulated_price cost_basis r) - Dec.value cost_basis)
         <= Qabs (Dec.value cost_basis) * ((1 # 10) + (1 # 10000000000000000)))%Q).
Proof.
  split; [exact read_portfolio_holdings|].
  split; [exact get_insights_loop|].
  split; [exact insights_loop_step|].
  split.
  - intros r H. split; [apply price_factor_bounds, H|apply price_factor_value, H].
  - exact simulated_price_within.
Qed.

Lemma simulated_price_formula_and_bounds_witness :
  Dec.wf (Dec.of_int 150)
  /\ 0 <= draw_max < Float.of_int 1
  /\ price_factor draw_max = float_1_1
  /\ simulated_price (Dec.of_int 150) draw_max
     = Dec.mkDecimal false 1650000000000000133226762955 (-25)
  /\ (Qabs (Dec.value (simulated_price (Dec.of_int 150) draw_max)
            - Dec.value (Dec.of_int 150))
      <= Qabs (Dec.value (Dec.of_int 150)) * ((1 # 10) + (1 # 10000000000000000)))%Q.
Proof.
  assert (W : Dec.wf (Dec.of_int 150)) by (unfold Dec.wf; simpl; lia).
  assert (R : 0 <= draw_max < Float.of_int 1)
    by (split; [apply Z.leb_le|apply Z.ltb_lt]; vm_compute; reflexivity).
  split; [exact W|]. split; [exact R|].
  split; [vm_compute; reflexivity|]. split; [vm_compute; reflexivity|].
  destruct simulated_price_formula_and_bounds as (_ & _ & _ & _ & H).
  exact (H (Dec.of_int 150) draw_max W R).
Defined.

(** C5 as stated fails: for the largest draw below 1.0 the factor is the
    float nearest to 1.1, which is above 1.1, and a cost basis of 1 gets
    the price 1.100000000000000088817841970, more than ten per cent above
    it.  get_insights returns that price as the total value of a
    portfolio of one share. *)
Lemma simulated_price_exceeds_ten_percent :
  0 <= draw_max < Float.of_int 1
  /\ simulated_price (Dec.of_int 1) draw_max
     = Dec.mkDecimal false 1100000000000000088817841970 (-27)
  /\ ~ (Qabs (Dec.value (simulated_price (Dec.of_int 1) draw_max)
              - Dec.value (Dec.of_int 1))
        <= (1 # 10) * Qabs (Dec.value (Dec.of_int 1)))%Q
  /\ fst (fst (get_insights no_faults (fun _ => draw_max) (PInt 1) db_unit))
     = Return (inl (mkInsights
                      (Dec.mkDecimal false 1100000000000000088817841970 (-27))
                      (Dec.mkDecimal false 100000000000000088817841970 (-27))
                      [("Equity",
                        Dec.mkDecimal false 1100000000000000088817841970 (-27))])).
Proof.
  split; [split; [apply Z.leb_le|apply Z.ltb_lt]; vm_compute; reflexivity|].
  split; [vm_compute; reflexivity|].
  split; [|vm_compute; reflexivity].
  apply Qlt_not_le. vm_compute. reflexivity.
Qed.

(** ** The float model against the Standard Library's specification *)

(** On the sample draws, among them the least and the largest, the factor
    computed by rounding exact results is the one SFadd, SFmul and SFsub
    give, and the draws and literals are binary64 numbers. *)
Lemma price_factor_agrees_with_SpecFloat :
  Forall (fun r => Float.is_binary64 r = true
                   /\ Float.of_spec (spec_price_factor (Float.to_spec r))
                      = Some (price_factor r))
         sample_draws
  /\ Float.is_binary64 Float.lit_0_5 = true
  /\ Float.is_binary64 Float.lit_0_2 = true
  /\ Float.of_spec (Float.to_spec Float.lit_0_2) = Some Float.lit_0_2.
Proof.
  split; [|split; [|split]; vm_compute; reflexivity].
  unfold sample_draws.
  repeat (apply Forall_cons; [split; vm_compute; reflexivity|]).
  apply Forall_nil.
Qed.

(** The literal 0.2 is the binary64 number nearest to 2/10: its neighbours
    are farther away. *)
Lemma lit_0_2_nearest :
  (Qabs (Float.value Float.lit_0_2 - (2 # 10))
   < Qabs (Float.value (Float.b64 7205759403792793 (-55)) - (2 # 10)))%Q
  /\ (Qabs (Float.value Float.lit_0_2 - (2 # 10))
      < Qabs (Float.value (Float.b64 7205759403792795 (-55)) - (2 # 10)))%Q.
Proof. split; vm_compute; reflexivity. Qed.

(* ===================================================================== *)
(** * Part V  Further properties of Backend.py and Frontend.py              *)
(* ===================================================================== *)

(** ** Reading never writes *)

Lemma read_portfolio_run faults rng account_id db :
  read_portfolio faults rng account_id db =
  match faults 0%nat with
  | Some e =>
      (Return (inr ("Error reading portfolio: " ++ e)%string), db,
       [SelectPortfolio account_id])
  | None =>
      match adapt account_id with
      | SqlBad =>
          (Return (inr ("Error reading portfolio: "
                        ++ "operator does not exist: integer = record")%string), db,
           [SelectPortfolio account_id])
      | _ =>
          (Return (inl (holdings rng 0 (portfolio_rows account_id db))), db,
           [SelectPortfolio account_id])
      end
  end.
Proof.
  unfold read_portfolio, call, read_portfolio_body, try_except, bind, execute, ret,
    portfolio_rows.
  cbn -[adapt sql_eq portfolio_loop String.append].
  destruct (faults 0%nat).
  { cbn -[String.append]. rewrite database_eta. reflexivity. }
  cbn -[adapt sql_eq portfolio_loop String.append].
  destruct (adapt account_id); cbn -[sql_eq portfolio_loop String.append];
    rewrite ?portfolio_loop_holdings, database_eta; reflexivity.
Qed.

Lemma get_insights_run faults rng account_id db :
  get_insights faults rng account_id db =
  match faults 0%nat with
  | Some e =>
      (Return (inr ("Error getting insights: " ++ e)%string), db,
       [SelectInsights account_id])
  | None =>
      match adapt account_id with
      | SqlBad =>
          (Return (inr ("Error getting insights: "
                        ++ "operator does not exist: integer = record")%string), db,
           [SelectInsights account_id])
      | _ =>
          match insights_loop rng 0 (insights_rows account_id db)
                              (Decimal (Int 0)) (Decimal (Int 0)) [] with
          | Return (tv, tcb, alloc) =>
              (Return (inl (mkInsights tv (Dec.sub tv tcb) alloc)), db,
               [SelectInsights account_id])
          | Raise e => (Raise e, db, [SelectInsights account_id])
          end
      end
  end.
Proof.
  unfold get_insights, call, get_insights_body, try_except, bind, execute, lift, ret,
    insights_rows.
  cbn -[adapt sql_eq insights_loop Decimal String.append].
  destruct (faults 0%nat).
  { cbn -[String.append]. rewrite database_eta. reflexivity. }
  cbn -[adapt sql_eq insights_loop Decimal String.append].
  destruct (adapt account_id); cbn -[sql_eq insights_loop Decimal String.append];
    try (rewrite database_eta; reflexivity).
  - match goal with |- context [insights_loop rng 0 ?l ?a ?b ?c] =>
      destruct (insights_loop_returns rng l 0%nat a b c) as [[[tv tcb] alloc] ->] end.
    cbn. rewrite database_eta. reflexivity.
  - match goal with |- context [insights_loop rng 0 ?l ?a ?b ?c] =>
      destruct (insights_loop_returns rng l 0%nat a b c) as [[[tv tcb] alloc] ->] end.
    cbn. rewrite database_eta. reflexivity.
Qed.

(** X1.  read_portfolio and get_insights never change the database.  Once
    the connection is open, each sends a single SELECT and returns either
    its data or a string that starts with its error prefix, whatever the
    server answers.  When the connection is refused, the error of
    psycopg2.connect leaves the function uncaught, since the connection is
    opened before the try, and nothing is sent. *)
Theorem reads_leave_database_unchanged refused faults rng account_id db :
  (let '(r, db', log) :=
     connecting refused (read_portfolio faults rng account_id) db in
   db' = db
   /\ match refused with
      | Some e => r = Raise (PgError e) /\ log = []
      | None =>
          log = [SelectPortfolio account_id]
          /\ ((exists hs, r = Return (inl hs))
              \/ exists e, r = Return (inr ("Error reading portfolio: " ++ e)%string))
      end)
  /\
  (let '(r, db', log) :=
     connecting refused (get_insights faults rng account_id) db in
   db' = db
   /\ match refused with
      | Some e => r = Raise (PgError e) /\ log = []
      | None =>
          log = [SelectInsights account_id]
          /\ ((exists ins, r = Return (inl ins))
              \/ exists e, r = Return (inr ("Error getting insights: " ++ e)%string))
      end).
Proof.
  unfold connecting, get_db_connection.
  destruct refused as [e|]; [repeat split|].
  split.
  - rewrite read_portfolio_run.
    destruct (faults 0%nat); [repeat split; right; eauto|].
    destruct (adapt account_id); repeat split; eauto.
  - rewrite get_insights_run.
    destruct (faults 0%nat); [repeat split; right; eauto|].
    destruct (adapt account_id); try (repeat split; eauto; fail).
    + destruct (insights_loop_returns rng (insights_rows account_id db) 0%nat
                  (Decimal (Int 0)) (Decimal (Int 0)) []) as [[[tv tcb] alloc] ->].
      repeat split; eauto.
    + destruct (insights_loop_returns rng (insights_rows account_id db) 0%nat
                  (Decimal (Int 0)) (Decimal (Int 0)) []) as [[[tv tcb] alloc] ->].
      repeat split; eauto.
Qed.

(** ** update_asset with both fields, and on a missing asset *)

Lemma update_asset_both_run faults asset_id s c db :
  faults 0%nat = None ->
  update_asset faults asset_id (Some s) (Some c) db =
    (Return ("Asset " ++ Dec.string_of_Z asset_id ++ " updated successfully.")%string,
     after_update asset_id
       (fun a => with_cost_basis (Decimal c) (with_shares (Decimal s) a)) db,
     [Sql "UPDATE Assets SET shares = %s, cost_basis = %s WHERE asset_id = %s"
          [ParDecimal (Decimal s); ParDecimal (Decimal c); ParInt asset_id]]).
Proof.
  intros H. unfold update_asset, call, update_asset_body, try_except, bind, execute.
  cbn -[parse_update Decimal Dec.string_of_Z]. rewrite H.
  cbn -[Decimal Dec.string_of_Z]. reflexivity.
Qed.

Lemma after_update_compose asset_id f g db :
  (forall a, a_asset_id (f a) = a_asset_id a) ->
  after_update asset_id g (after_update asset_id f db)
  = after_update asset_id (fun a => g (f a)) db.
Proof.
  intros Hid. unfold after_update. cbn [db_tables db_seq Users Accounts Assets Transactions].
  f_equal. f_equal. rewrite map_map. apply map_ext. intros a.
  destruct (a_asset_id a =? asset_id) eqn:E.
  - rewrite Hid, E. reflexivity.
  - rewrite E. reflexivity.
Qed.

(** X2.  update_asset with both fields sends one UPDATE that assigns shares
    and then cost_basis, and leaves the database as two calls would, one
    per field, in either order. *)
Theorem update_asset_both_is_two_updates faults asset_id s c db :
  faults 0%nat = None ->
  let db_both := snd (fst (update_asset faults asset_id (Some s) (Some c) db)) in
  let db_s := snd (fst (update_asset faults asset_id (Some s) None db)) in
  let db_c := snd (fst (update_asset faults asset_id None (Some c) db)) in
  snd (update_asset faults asset_id (Some s) (Some c) db)
  = [Sql "UPDATE Assets SET shares = %s, cost_basis = %s WHERE asset_id = %s"
         [ParDecimal (Decimal s); ParDecimal (Decimal c); ParInt asset_id]]
  /\ db_both = snd (fst (update_asset faults asset_id None (Some c) db_s))
  /\ db_both = snd (fst (update_asset faults asset_id (Some s) None db_c)).
Proof.
  intros H. cbv zeta.
  rewrite (update_asset_both_run _ _ _ _ _ H).
  rewrite ?(update_asset_shares_run _ _ _ _ H), ?(update_asset_cost_basis_run _ _ _ _ H).
  cbn [fst snd].
  rewrite !after_update_compose by reflexivity.
  repeat split.
Qed.

Lemma update_asset_both_is_two_updates_witness :
  no_faults 0%nat = None
  /\ snd (fst (update_asset no_faults 1 (Some (Int 12)) (Some (Int 160)) db_sample))
     = snd (fst (update_asset no_faults 1 None (Some (Int 160))
                   (snd (fst (update_asset no_faults 1 (Some (Int 12)) None db_sample))))).
Proof.
  split; [reflexivity|].
  exact (proj1 (proj2 (update_asset_both_is_two_updates no_faults 1 (Int 12) (Int 160)
                         db_sample eq_refl))).
Defined.

Lemma after_update_missing asset_id f db :
  asset_exists (db_tables db) asset_id = false -> after_update asset_id f db = db.
Proof.
  intros H. unfold after_update.
  pose proof (asset_exists_false _ _ H) as Hall.
  assert (E : map (fun a => if a_asset_id a =? asset_id then f a else a)
                  (Assets (db_tables db)) = Assets (db_tables db)).
  { rewrite <- (map_id (Assets (db_tables db))) at 2.
    apply map_ext_in. intros a Ha. rewrite (Hall a Ha). reflexivity. }
  rewrite E, tables_eta. apply database_eta.
Qed.

(** X3.  update_asset does not notice a missing asset: for an asset_id that
    is not in Assets it changes nothing and still returns the message that
    the asset was updated. *)
Theorem update_asset_missing_reports_success faults asset_id new_shares new_cost_basis db :
  faults 0%nat = None ->
  asset_exists (db_tables db) asset_id = false ->
  (new_shares <> None \/ new_cost_basis <> None) ->
  fst (update_asset faults asset_id new_shares new_cost_basis db)
  = (Return ("Asset " ++ Dec.string_of_Z asset_id ++ " updated successfully.")%string,
     db).
Proof.
  intros H E N.
  destruct new_shares as [s|], new_cost_basis as [c|].
  - rewrite (update_asset_both_run _ _ _ _ _ H). cbn [fst].
    rewrite after_update_missing by exact E. reflexivity.
  - rewrite (update_asset_shares_run _ _ _ _ H). cbn [fst].
    rewrite after_update_missing by exact E. reflexivity.
  - rewrite (update_asset_cost_basis_run _ _ _ _ H). cbn [fst].
    rewrite after_update_missing by exact E. reflexivity.
  - destruct N; congruence.
Qed.

Lemma update_asset_missing_reports_success_witness :
  no_faults 0%nat = None
  /\ asset_exists (db_tables db_sample) 7 = false
  /\ (Some (Int 3) <> None \/ @None number <> None)
  /\ fst (update_asset no_faults 7 (Some (Int 3)) None db_sample)
     = (Return "Asset 7 updated successfully."%string, db_sample).
Proof.
  assert (N : Some (Int 3) <> None \/ @None number <> None) by (left; discriminate).
  split; [reflexivity|]. split; [reflexivity|]. split; [exact N|].
  exact (update_asset_missing_reports_success no_faults 7 (Some (Int 3)) None db_sample
           eq_refl eq_refl N).
Defined.

(** ** delete_asset twice *)

(** X4.  Deleting the same asset a second time changes nothing more and
    returns the same message. *)
Theorem delete_asset_twice faults asset_id db :
  faults 0%nat = None ->
  let '(r1, db1, _) := delete_asset faults asset_id db in
  let '(r2, db2, _) := delete_asset faults asset_id db1 in
  r2 = r1 /\ db2 = db1.
Proof.
  intros H. rewrite !(delete_asset_run _ _ _ H).
  split; [reflexivity|].
  apply after_delete_missing.
  unfold asset_exists, after_delete. cbn [db_tables Assets].
  destruct (existsb _ _) eqn:E; [|reflexivity].
  apply existsb_exists in E. destruct E as [a [Ha Hid]].
  apply filter_In in Ha. destruct Ha as [_ Ha]. rewrite Hid in Ha. discriminate.
Qed.

Lemma delete_asset_twice_witness :
  no_faults 0%nat = None
  /\ let '(r1, db1, _) := delete_asset no_faults 1 db_sample in
     let '(r2, db2, _) := delete_asset no_faults 1 db1 in
     r2 = r1 /\ db2 = db1.
Proof.
  split; [reflexivity|].
  exact (delete_asset_twice no_faults 1 db_sample eq_refl).
Defined.

(** ** A created asset in the portfolio *)

Lemma create_asset_success
    faults user_id account_id ticker asset_class purchase_date shares cost_basis
    db db' log :
  create_asset_and_transaction faults user_id account_id ticker asset_class
                               purchase_date shares cost_basis db
  = (Return "Asset and transaction created successfully."%string, db', log) ->
  exists aid,
    adapt account_id = SqlInt aid
    /\ account_exists (db_tables db) aid = true
    /\ db' =
       mkDb (mkTables (Users (db_tables db)) (Accounts (db_tables db))
               (Assets (db_tables db) ++
                [mkAsset (assets_seq (db_seq db) + 1) aid ticker asset_class
                         purchase_date (Decimal shares) (Decimal cost_basis)])
               (Transactions (db_tables db) ++
                [mkTransaction (assets_seq (db_seq db) + 1) "BUY" purchase_date
                               (Decimal shares)
                               (Dec.mul (Decimal shares) (Decimal cost_basis))]))
            (mkSeq (users_seq (db_seq db)) (accounts_seq (db_seq db))
                   (assets_seq (db_seq db) + 1)).
Proof.
  pose proof (create_asset_and_transaction_cases faults user_id account_id ticker
                asset_class purchase_date shares cost_basis db) as H.
  cbv zeta in H. rewrite H. clear H.
  destruct (faults 0%nat) as [e0|]; [intros E; inversion E|].
  destruct (adapt account_id) as [|aid|]; try (intros E; inversion E; fail).
  destruct (account_exists (db_tables db) aid) eqn:X; [|intros E; inversion E].
  destruct (faults 1%nat) as [e1|]; [intros E; inversion E|].
  intros E. inversion E. subst. exists aid. repeat split; auto.
Qed.

Lemma holdings_app rng l x : forall i,
  holdings rng i (l ++ [x])
  = holdings rng i l ++ [holding_of (rng (i + List.length l)%nat) x].
Proof.
  induction l as [|a l IH]; intros i; cbn [holdings app List.length].
  - rewrite Nat.add_0_r. reflexivity.
  - rewrite IH. replace (S i + List.length l)%nat with (i + S (List.length l))%nat by lia.
    reflexivity.
Qed.

Lemma holdings_length rng l : forall i, List.length (holdings rng i l) = List.length l.
Proof.
  induction l as [|a l IH]; intros i; cbn [holdings List.length]; [reflexivity|].
  rewrite IH. reflexivity.
Qed.

(** The SELECTs of read_portfolio and get_insights have no ORDER BY, so
    the order of the rows they return is the server's.  What is said below
    of the rows read after a write is therefore said up to their order. *)

Lemma stored_fields_holdings rng rows : forall i,
  map stored_fields (holdings rng i rows) = map stored_row rows.
Proof.
  induction rows as [|[[[[[asset_id ticker] asset_class] shares] cost_basis] d] rest IH];
    intros i; cbn [holdings map]; [reflexivity|].
  rewrite IH. reflexivity.
Qed.

Lemma portfolio_rows_after_create account_id aid db asset txn q :
  adapt account_id = SqlInt aid ->
  a_account_id asset = aid ->
  portfolio_rows account_id
    (mkDb (mkTables (Users (db_tables db)) (Accounts (db_tables db))
                    (Assets (db_tables db) ++ [asset])
                    (Transactions (db_tables db) ++ [txn])) q)
  = portfolio_rows account_id db
    ++ [(a_asset_id asset, a_ticker_symbol asset, a_asset_class asset, a_shares asset,
         a_cost_basis asset, a_purchase_date asset)].
Proof.
  intros A E. unfold portfolio_rows. cbn [db_tables Assets]. rewrite A.
  rewrite filter_app, map_app. cbn [filter sql_eq]. rewrite E, Z.eqb_refl.
  reflexivity.
Qed.

(** X5.  After a successful create_asset_and_transaction, the entries
    read_portfolio returns for the same account are, up to their order and
    apart from the three simulated figures, the entries it returned before
    together with exactly one new entry, which carries the next asset id
    and the given ticker, asset class, shares, cost basis and date. *)
Theorem created_asset_appears_in_portfolio
    faults faults1 faults2 rng1 rng2 user_id account_id ticker asset_class
    purchase_date shares cost_basis db db' log :
  create_asset_and_transaction faults user_id account_id ticker asset_class
                               purchase_date shares cost_basis db
  = (Return "Asset and transaction created successfully."%string, db', log) ->
  faults1 0%nat = None ->
  faults2 0%nat = None ->
  exists before after,
    fst (fst (read_portfolio faults1 rng1 account_id db)) = Return (inl before)
    /\ fst (fst (read_portfolio faults2 rng2 account_id db')) = Return (inl after)
    /\ Permutation
         (map stored_fields after)
         ((assets_seq (db_seq db) + 1, ticker, asset_class, Decimal shares,
           Dec.format_2f (Decimal cost_basis), purchase_date)
          :: map stored_fields before).
Proof.
  intros E F1 F2. destruct (create_asset_success _ _ _ _ _ _ _ _ _ _ _ E)
    as (aid & A & _ & ->).
  rewrite !read_portfolio_run, F1, F2, A. cbn [fst].
  do 2 eexists. split; [reflexivity|]. split; [reflexivity|].
  rewrite !stored_fields_holdings.
  rewrite (portfolio_rows_after_create account_id aid) by (exact A || reflexivity).
  rewrite map_app. cbn [map stored_row a_asset_id a_ticker_symbol a_asset_class
                          a_shares a_cost_basis a_purchase_date].
  apply Permutation_sym, Permutation_cons_append.
Qed.

Lemma created_asset_appears_in_portfolio_witness :
  exists db' log before after,
    create_asset_and_transaction no_faults (PInt 1) (PInt 1) "MSFT" "Equity"
      jan_1_2024 (Int 2) (Flt (Float.b64 5 (-1))) db_sample
    = (Return "Asset and transaction created successfully."%string, db', log)
    /\ no_faults 0%nat = None
    /\ fst (fst (read_portfolio no_faults (fun _ => Float.lit_0_5) (PInt 1) db_sample))
       = Return (inl before)
    /\ fst (fst (read_portfolio no_faults draws_three (PInt 1) db'))
       = Return (inl after)
    /\ Permutation
         (map stored_fields after)
         ((2, "MSFT"%string, "Equity"%string, Dec.of_int 2, "2.50"%string, jan_1_2024)
          :: map stored_fields before).
Proof.
  eexists. eexists.
  assert (E : create_asset_and_transaction no_faults (PInt 1) (PInt 1) "MSFT" "Equity"
                jan_1_2024 (Int 2) (Flt (Float.b64 5 (-1))) db_sample
              = (Return "Asset and transaction created successfully."%string,
                 snd (fst (create_asset_and_transaction no_faults (PInt 1) (PInt 1) "MSFT"
                             "Equity" jan_1_2024 (Int 2) (Flt (Float.b64 5 (-1)))
                             db_sample)),
                 snd (create_asset_and_transaction no_faults (PInt 1) (PInt 1) "MSFT"
                        "Equity" jan_1_2024 (Int 2) (Flt (Float.b64 5 (-1))) db_sample)))
    by (vm_compute; reflexivity).
  destruct (created_asset_appears_in_portfolio no_faults no_faults no_faults
              (fun _ => Float.lit_0_5) draws_three _ _ _ _ _ _ _ _ _ _ E eq_refl eq_refl)
    as (before & after & H1 & H2 & H3).
  exists before, after.
  split; [exact E|]. split; [reflexivity|]. split; [exact H1|]. split; [exact H2|].
  exact H3.
Defined.

(** ** Other accounts, and undoing a purchase *)

(** X6.  A purchase for one account is invisible to every other account:
    the rows read_portfolio and get_insights read for an account_id that
    stands for another account (or for none) are the same before and
    after. *)
Theorem create_asset_leaves_other_accounts
    faults user_id account_id ticker asset_class purchase_date shares cost_basis
    db db' log other :
  create_asset_and_transaction faults user_id account_id ticker asset_class
                               purchase_date shares cost_basis db
  = (Return "Asset and transaction created successfully."%string, db', log) ->
  adapt other <> adapt account_id ->
  portfolio_rows other db' = portfolio_rows other db
  /\ insights_rows other db' = insights_rows other db.
Proof.
  intros E N. destruct (create_asset_success _ _ _ _ _ _ _ _ _ _ _ E)
    as (aid & A & _ & ->).
  rewrite A in N.
  assert (S : sql_eq aid (adapt other) = false).
  { destruct (adapt other) as [|n|]; cbn [sql_eq]; try reflexivity.
    apply Z.eqb_neq. intros ->. apply N. reflexivity. }
  unfold portfolio_rows, insights_rows. cbn [db_tables Assets].
  rewrite !filter_app. cbn [filter a_account_id]. rewrite S.
  rewrite !app_nil_r. split; reflexivity.
Qed.

Lemma create_asset_leaves_other_accounts_witness :
  exists db' log,
    create_asset_and_transaction no_faults (PInt 1) (PInt 1) "MSFT" "Equity"
      jan_1_2024 (Int 2) (Int 5) db_sample
    = (Return "Asset and transaction created successfully."%string, db', log)
    /\ adapt (PTuple [PInt 2]) <> adapt (PInt 1)
    /\ portfolio_rows (PTuple [PInt 2]) db' = portfolio_rows (PTuple [PInt 2]) db_sample
    /\ insights_rows (PTuple [PInt 2]) db' = insights_rows (PTuple [PInt 2]) db_sample.
Proof.
  eexists. eexists.
  assert (E : create_asset_and_transaction no_faults (PInt 1) (PInt 1) "MSFT" "Equity"
                jan_1_2024 (Int 2) (Int 5) db_sample
              = (Return "Asset and transaction created successfully."%string,
                 snd (fst (create_asset_and_transaction no_faults (PInt 1) (PInt 1) "MSFT"
                             "Equity" jan_1_2024 (Int 2) (Int 5) db_sample)),
                 snd (create_asset_and_transaction no_faults (PInt 1) (PInt 1) "MSFT"
                        "Equity" jan_1_2024 (Int 2) (Int 5) db_sample)))
    by (vm_compute; reflexivity).
  assert (N : adapt (PTuple [PInt 2]) <> adapt (PInt 1)) by discriminate.
  split; [exact E|]. split; [exact N|].
  exact (create_asset_leaves_other_accounts _ _ _ _ _ _ _ _ _ _ _ _ E N).
Defined.

(** X7.  Deleting the asset that a purchase has just created undoes the
    purchase: when the new identifier was not in use, all four tables are
    as before the purchase. *)
Theorem delete_undoes_create
    faults faults' user_id account_id ticker asset_class purchase_date shares
    cost_basis db db' log :
  create_asset_and_transaction faults user_id account_id ticker asset_class
                               purchase_date shares cost_basis db
  = (Return "Asset and transaction created successfully."%string, db', log) ->
  faults' 0%nat = None ->
  (forall a, In a (Assets (db_tables db)) -> a_asset_id a <> assets_seq (db_seq db) + 1) ->
  (forall x, In x (Transactions (db_tables db)) ->
             t_asset_id x <> assets_seq (db_seq db) + 1) ->
  db_tables (snd (fst (delete_asset faults' (assets_seq (db_seq db) + 1) db')))
  = db_tables db.
Proof.
  intros E F HA HT. destruct (create_asset_success _ _ _ _ _ _ _ _ _ _ _ E)
    as (aid & A & _ & ->).
  rewrite (delete_asset_run _ _ _ F). cbn [fst snd].
  unfold after_delete. cbn [db_tables Users Accounts Assets Transactions].
  set (id := assets_seq (db_seq db) + 1) in *.
  rewrite !filter_app. cbn [filter a_asset_id t_asset_id existsb].
  rewrite Z.eqb_refl. cbn [negb app orb].
  rewrite (filter_all (fun a => negb (a_asset_id a =? id))).
  2:{ intros a Ha. apply negb_true_iff, Z.eqb_neq, HA, Ha. }
  rewrite (filter_none (fun a => a_asset_id a =? id)).
  2:{ intros a Ha. apply Z.eqb_neq, HA, Ha. }
  cbn [app existsb a_asset_id]. rewrite Z.eqb_refl. cbn [orb negb].
  rewrite filter_all.
  2:{ intros x Hx. cbn [existsb a_asset_id]. rewrite orb_false_r.
      apply negb_true_iff, Z.eqb_neq. intros Heq. apply (HT x Hx). auto. }
  rewrite !app_nil_r. apply tables_eta.
Qed.

Lemma delete_undoes_create_witness :
  exists db' log,
    create_asset_and_transaction no_faults (PInt 1) (PInt 1) "MSFT" "Equity"
      jan_1_2024 (Int 2) (Int 5) db_sample
    = (Return "Asset and transaction created successfully."%string, db', log)
    /\ no_faults 0%nat = None
    /\ (forall a, In a (Assets (db_tables db_sample)) ->
                  a_asset_id a <> assets_seq (db_seq db_sample) + 1)
    /\ (forall x, In x (Transactions (db_tables db_sample)) ->
                  t_asset_id x <> assets_seq (db_seq db_sample) + 1)
    /\ db_tables (snd (fst (delete_asset no_faults (assets_seq (db_seq db_sample) + 1) db')))
       = db_tables db_sample.
Proof.
  eexists. eexists.
  assert (E : create_asset_and_transaction no_faults (PInt 1) (PInt 1) "MSFT" "Equity"
                jan_1_2024 (Int 2) (Int 5) db_sample
              = (Return "Asset and transaction created successfully."%string,
                 snd (fst (create_asset_and_transaction no_faults (PInt 1) (PInt 1) "MSFT"
                             "Equity" jan_1_2024 (Int 2) (Int 5) db_sample)),
                 snd (create_asset_and_transaction no_faults (PInt 1) (PInt 1) "MSFT"
                        "Equity" jan_1_2024 (Int 2) (Int 5) db_sample)))
    by (vm_compute; reflexivity).
  assert (HA : forall a, In a (Assets (db_tables db_sample)) ->
                         a_asset_id a <> assets_seq (db_seq db_sample) + 1).
  { intros a [<-|[]]. discriminate. }
  assert (HT : forall x, In x (Transactions (db_tables db_sample)) ->
                         t_asset_id x <> assets_seq (db_seq db_sample) + 1).
  { intros x [<-|[]]. discriminate. }
  split; [exact E|]. split; [reflexivity|]. split; [exact HA|]. split; [exact HT|].
  exact (delete_undoes_create _ no_faults _ _ _ _ _ _ _ _ _ _ E eq_refl HA HT).
Defined.

(** ** An updated asset in the portfolio *)

(** In the row order of the store, an UPDATE replaces the field where the
    row stands. *)
Lemma portfolio_rows_after_update faults asset_id v db account_id :
  faults 0%nat = None ->
  portfolio_rows account_id (snd (fst (update_asset faults asset_id (Some v) None db)))
  = map (fun row =>
           let '(id, ticker, asset_class, shares, cost_basis, purchase_date) := row in
           if id =? asset_id
           then (id, ticker, asset_class, Decimal v, cost_basis, purchase_date)
           else row)
        (portfolio_rows account_id db)
  /\
  portfolio_rows account_id (snd (fst (update_asset faults asset_id None (Some v) db)))
  = map (fun row =>
           let '(id, ticker, asset_class, shares, cost_basis, purchase_date) := row in
           if id =? asset_id
           then (id, ticker, asset_class, shares, Decimal v, purchase_date)
           else row)
        (portfolio_rows account_id db).
Proof.
  intros H.
  rewrite (update_asset_shares_run _ _ _ _ H), (update_asset_cost_basis_run _ _ _ _ H).
  cbn [fst snd]. unfold portfolio_rows, after_update. cbn [db_tables Assets].
  split.
  - induction (Assets (db_tables db)) as [|a l IH]; [reflexivity|].
    cbn [map filter].
    destruct (a_asset_id a =? asset_id) eqn:E; cbn [with_shares a_account_id];
      destruct (sql_eq (a_account_id a) (adapt account_id)); cbn [map a_asset_id
        a_ticker_symbol a_asset_class a_shares a_cost_basis a_purchase_date];
      rewrite ?E, IH; reflexivity.
  - induction (Assets (db_tables db)) as [|a l IH]; [reflexivity|].
    cbn [map filter].
    destruct (a_asset_id a =? asset_id) eqn:E; cbn [with_cost_basis a_account_id];
      destruct (sql_eq (a_account_id a) (adapt account_id)); cbn [map a_asset_id
        a_ticker_symbol a_asset_class a_shares a_cost_basis a_purchase_date];
      rewrite ?E, IH; reflexivity.
Qed.

(** X8.  After update_asset with new shares, the rows read_portfolio reads
    for any account are, up to their order, the rows it read before with
    the shares of that asset replaced, and the same for a new cost basis;
    no row enters or leaves any portfolio. *)
Theorem updated_asset_in_portfolio faults asset_id v db account_id :
  faults 0%nat = None ->
  Permutation
    (portfolio_rows account_id
       (snd (fst (update_asset faults asset_id (Some v) None db))))
    (map (fun row =>
            let '(id, ticker, asset_class, shares, cost_basis, purchase_date) := row in
            if id =? asset_id
            then (id, ticker, asset_class, Decimal v, cost_basis, purchase_date)
            else row)
         (portfolio_rows account_id db))
  /\
  Permutation
    (portfolio_rows account_id
       (snd (fst (update_asset faults asset_id None (Some v) db))))
    (map (fun row =>
            let '(id, ticker, asset_class, shares, cost_basis, purchase_date) := row in
            if id =? asset_id
            then (id, ticker, asset_class, shares, Decimal v, purchase_date)
            else row)
         (portfolio_rows account_id db)).
Proof.
  intros H.
  destruct (portfolio_rows_after_update faults asset_id v db account_id H) as [-> ->].
  split; apply Permutation_refl.
Qed.

Lemma updated_asset_in_portfolio_witness :
  no_faults 0%nat = None
  /\ Permutation
       (portfolio_rows (PInt 1)
          (snd (fst (update_asset no_faults 1 (Some (Int 12)) None db_three))))
       [(1, "AAPL"%string, "Equity"%string, Dec.of_int 12, Dec.of_int 1, jan_1_2024);
        (2, "BTC"%string, "Crypto"%string, Dec.of_int 1, Dec.of_int 1, jan_1_2024);
        (3, "MSFT"%string, "Equity"%string, Dec.of_int 1, Dec.of_int 1, jan_1_2024)].
Proof.
  split; [reflexivity|].
  exact (proj1 (updated_asset_in_portfolio no_faults 1 (Int 12) db_three (PInt 1)
                  eq_refl)).
Defined.

(** ** create_user_and_account, path by path *)

Lemma find_user_none_not_taken email t :
  find_user email t = None -> email_taken t email = false.
Proof.
  unfold find_user, email_taken. induction (Users t) as [|u l IH]; [reflexivity|].
  cbn [filter existsb]. destruct (String.eqb (u_email u) email); [discriminate|exact IH].
Qed.

Lemma find_user_exists email t uid :
  find_user email t = Some uid -> user_exists t uid = true.
Proof.
  unfold find_user, user_exists. induction (Users t) as [|u l IH]; [discriminate|].
  cbn [filter existsb]. destruct (String.eqb (u_email u) email).
  - cbn [map hd_error]. intros E. inversion E. rewrite Z.eqb_refl. reflexivity.
  - intros E. rewrite (IH E). apply orb_true_r.
Qed.

Lemma fetchone_find_user email t :
  fetchone (IdRows (map u_user_id
                      (filter (fun u => String.eqb (u_email u) email) (Users t))))
  = match find_user email t with
    | Some uid => PTuple [PInt uid]
    | None => PNone
    end.
Proof.
  unfold find_user.
  destruct (map u_user_id (filter _ (Users t))); reflexivity.
Qed.

Lemma fetchone_find_account uid provider t :
  fetchone (IdRows (map c_account_id
                      (filter (fun c => sql_eq (c_user_id c) (SqlInt uid)
                                        && String.eqb (c_provider_name c) provider)
                              (Accounts t))))
  = match find_account uid provider t with
    | Some aid => PTuple [PInt aid]
    | None => PNone
    end.
Proof.
  unfold find_account. cbn [sql_eq].
  destruct (map c_account_id (filter _ (Accounts t))); reflexivity.
Qed.

Ltac run_bootstrap :=
  unfold create_user_and_account, call, create_user_and_account_body, try_except,
    bind, execute, lift, commit, rollback, ret;
  cbn -[adapt sql_eq fetchone filter map email_taken user_exists].

Lemma create_user_and_account_found
    faults user_name user_email account_type provider db uid aid :
  faults 0%nat = None -> faults 1%nat = None ->
  find_user user_email (db_tables db) = Some uid ->
  find_account uid provider (db_tables db) = Some aid ->
  create_user_and_account faults user_name user_email account_type provider db
  = (Return (PTuple [PTuple [PInt uid]; PTuple [PInt aid]]), db,
     [SelectUserId user_email; SelectAccountId (PTuple [PInt uid]) provider]).
Proof.
  intros F0 F1 U A. run_bootstrap.
  rewrite F0. cbn -[adapt sql_eq fetchone filter map email_taken user_exists].
  rewrite fetchone_find_user, U.
  cbn -[sql_eq fetchone filter map email_taken user_exists].
  rewrite F1. cbn -[sql_eq fetchone filter map email_taken user_exists].
  rewrite fetchone_find_account, A. cbn. rewrite database_eta. reflexivity.
Qed.

Lemma create_user_and_account_found_new
    faults user_name user_email account_type provider db uid :
  faults 0%nat = None -> faults 1%nat = None -> faults 2%nat = None ->
  find_user user_email (db_tables db) = Some uid ->
  find_account uid provider (db_tables db) = None ->
  create_user_and_account faults user_name user_email account_type provider db
  = (Return (PTuple [PTuple [PInt uid]; PInt (accounts_seq (db_seq db) + 1)]),
     with_account uid account_type provider db,
     [SelectUserId user_email; SelectAccountId (PTuple [PInt uid]) provider;
      InsertAccount (PTuple [PInt uid]) account_type provider]).
Proof.
  intros F0 F1 F2 U A. run_bootstrap.
  rewrite F0. cbn -[adapt sql_eq fetchone filter map email_taken user_exists].
  rewrite fetchone_find_user, U.
  cbn -[sql_eq fetchone filter map email_taken user_exists].
  rewrite F1. cbn -[sql_eq fetchone filter map email_taken user_exists].
  rewrite fetchone_find_account, A.
  cbn -[sql_eq fetchone filter map email_taken user_exists].
  rewrite F2. cbn -[sql_eq fetchone filter map email_taken user_exists].
  rewrite (find_user_exists _ _ _ U). cbn. reflexivity.
Qed.

Lemma user_exists_appended t name email id :
  user_exists (mkTables (Users t ++ [mkUser id name email]) (Accounts t) (Assets t)
                        (Transactions t)) id = true.
Proof.
  unfold user_exists. cbn [Users]. rewrite existsb_app. cbn [existsb u_user_id].
  rewrite Z.eqb_refl. rewrite orb_true_r. reflexivity.
Qed.

Lemma create_user_and_account_new
    faults user_name user_email account_type provider db :
  faults 0%nat = None -> faults 1%nat = None -> faults 2%nat = None ->
  find_user user_email (db_tables db) = None ->
  create_user_and_account faults user_name user_email account_type provider db
  = let uid := users_seq (db_seq db) + 1 in
    let log := [SelectUserId user_email; InsertUser user_name user_email;
                SelectAccountId (PInt uid) provider] in
    match find_account uid provider (db_tables db) with
    | Some aid =>
        (Return (PTuple [PInt uid; PTuple [PInt aid]]),
         with_user user_name user_email db, log)
    | None =>
        match faults 3%nat with
        | None =>
            (Return (PTuple [PInt uid; PInt (accounts_seq (db_seq db) + 1)]),
             with_account uid account_type provider (with_user user_name user_email db),
             log ++ [InsertAccount (PInt uid) account_type provider])
        | Some e =>
            (Return (PTuple [PNone; PNone]), with_user user_name user_email db,
             log ++ [InsertAccount (PInt uid) account_type provider])
        end
    end.
Proof.
  intros F0 F1 F2 U. cbv zeta. run_bootstrap.
  rewrite F0. cbn -[adapt sql_eq fetchone filter map email_taken user_exists].
  rewrite fetchone_find_user, U.
  cbn -[sql_eq fetchone filter map email_taken user_exists].
  rewrite F1. cbn -[sql_eq fetchone filter map email_taken user_exists].
  rewrite (find_user_none_not_taken _ _ U).
  cbn [fetchone item0].
  cbn -[sql_eq fetchone filter map email_taken user_exists].
  rewrite F2. cbn -[sql_eq fetchone filter map email_taken user_exists].
  rewrite fetchone_find_account. unfold find_account at 1. cbn [Accounts].
  fold (find_account (users_seq (db_seq db) + 1) provider (db_tables db)).
  destruct (find_account (users_seq (db_seq db) + 1) provider (db_tables db)) as [aid|].
  - cbn. reflexivity.
  - cbn -[sql_eq fetchone filter map email_taken user_exists].
    destruct (faults 3%nat) as [e|].
    + cbn. reflexivity.
    + cbn -[sql_eq fetchone filter map email_taken user_exists].
      rewrite user_exists_appended. cbn. reflexivity.
Qed.

Lemma create_user_and_account_new_select_fails
    faults user_name user_email account_type provider db e :
  faults 0%nat = None -> faults 1%nat = None -> faults 2%nat = Some e ->
  find_user user_email (db_tables db) = None ->
  create_user_and_account faults user_name user_email account_type provider db
  = (Return (PTuple [PNone; PNone]), with_user user_name user_email db,
     [SelectUserId user_email; InsertUser user_name user_email;
      SelectAccountId (PInt (users_seq (db_seq db) + 1)) provider]).
Proof.
  intros F0 F1 F2 U. run_bootstrap.
  rewrite F0. cbn -[adapt sql_eq fetchone filter map email_taken user_exists].
  rewrite fetchone_find_user, U.
  cbn -[sql_eq fetchone filter map email_taken user_exists].
  rewrite F1. cbn -[sql_eq fetchone filter map email_taken user_exists].
  rewrite (find_user_none_not_taken _ _ U).
  cbn [fetchone item0].
  cbn -[sql_eq fetchone filter map email_taken user_exists].
  rewrite F2. cbn. reflexivity.
Qed.

Lemma hd_error_filter_app_none {A B} (f : A -> B) (g : A -> bool) l x :
  hd_error (map f (filter g l)) = None ->
  g x = true ->
  hd_error (map f (filter g (l ++ [x]))) = Some (f x).
Proof.
  intros H G. rewrite filter_app, map_app.
  destruct (map f (filter g l)); [|discriminate].
  cbn [filter app]. rewrite G. reflexivity.
Qed.

Lemma hd_error_filter_app_some {A B} (f : A -> B) (g : A -> bool) l l' y :
  hd_error (map f (filter g l)) = Some y ->
  hd_error (map f (filter g (l ++ l'))) = Some y.
Proof.
  intros H. rewrite filter_app, map_app.
  destruct (map f (filter g l)); [discriminate|exact H].
Qed.

(** X9.  When a user with the e-mail address and an account of that user at
    the provider are in the store, create_user_and_account writes nothing:
    it sends its two SELECTs, leaves the database as it is and returns the
    two rows found, each a one-element tuple. *)
Theorem create_user_and_account_lookup_writes_nothing
    faults user_name user_email account_type provider db uid aid :
  faults 0%nat = None -> faults 1%nat = None ->
  find_user user_email (db_tables db) = Some uid ->
  find_account uid provider (db_tables db) = Some aid ->
  create_user_and_account faults user_name user_email account_type provider db
  = (Return (PTuple [PTuple [PInt uid]; PTuple [PInt aid]]), db,
     [SelectUserId user_email; SelectAccountId (PTuple [PInt uid]) provider]).
Proof. apply create_user_and_account_found. Qed.

Lemma create_user_and_account_lookup_writes_nothing_witness :
  no_faults 0%nat = None /\ no_faults 1%nat = None
  /\ find_user "john.doe@example.com" (db_tables db_sample) = Some 1
  /\ find_account 1 "Fictional Broker" (db_tables db_sample) = Some 1
  /\ create_user_and_account no_faults "Jane Doe" "john.doe@example.com" "Savings"
       "Fictional Broker" db_sample
     = (Return (PTuple [PTuple [PInt 1]; PTuple [PInt 1]]), db_sample,
        [SelectUserId "john.doe@example.com";
         SelectAccountId (PTuple [PInt 1]) "Fictional Broker"]).
Proof.
  do 4 (split; [reflexivity|]).
  exact (create_user_and_account_lookup_writes_nothing no_faults "Jane Doe"
           "john.doe@example.com" "Savings" "Fictional Broker" db_sample 1 1
           eq_refl eq_refl eq_refl eq_refl).
Defined.

(** X10.  On a store that has no user with the e-mail address and no account
    waiting for the next user identifier, create_user_and_account appends
    one user and one account that refers to it, commits both and returns
    the two new identifiers as ints. *)
Theorem create_user_and_account_fresh
    faults user_name user_email account_type provider db :
  faults 0%nat = None -> faults 1%nat = None -> faults 2%nat = None ->
  faults 3%nat = None ->
  find_user user_email (db_tables db) = None ->
  find_account (users_seq (db_seq db) + 1) provider (db_tables db) = None ->
  let uid := users_seq (db_seq db) + 1 in
  let aid := accounts_seq (db_seq db) + 1 in
  let '(r, db', _) :=
    create_user_and_account faults user_name user_email account_type provider db in
  r = Return (PTuple [PInt uid; PInt aid])
  /\ Users (db_tables db') = Users (db_tables db) ++ [mkUser uid user_name user_email]
  /\ Accounts (db_tables db')
     = Accounts (db_tables db) ++ [mkAccount aid uid account_type provider]
  /\ Assets (db_tables db') = Assets (db_tables db)
  /\ Transactions (db_tables db') = Transactions (db_tables db)
  /\ find_user user_email (db_tables db') = Some uid
  /\ find_account uid provider (db_tables db') = Some aid.
Proof.
  intros F0 F1 F2 F3 U A. cbv zeta.
  rewrite (create_user_and_account_new _ _ _ _ _ _ F0 F1 F2 U). cbv zeta.
  rewrite A, F3.
  repeat split.
  - unfold find_user, with_account, with_user. cbn [db_tables Users].
    apply (hd_error_filter_app_none u_user_id); [exact U|].
    cbn [u_email]. apply String.eqb_refl.
  - unfold find_account, with_account, with_user. cbn [db_tables Accounts db_seq accounts_seq].
    apply (hd_error_filter_app_none c_account_id); [exact A|].
    cbn [c_user_id c_provider_name]. rewrite Z.eqb_refl, String.eqb_refl. reflexivity.
Qed.

Lemma create_user_and_account_fresh_witness :
  no_faults 0%nat = None /\ no_faults 1%nat = None /\ no_faults 2%nat = None
  /\ no_faults 3%nat = None
  /\ find_user "ann@example.com" (db_tables db_sample) = None
  /\ find_account (users_seq (db_seq db_sample) + 1) "Bank" (db_tables db_sample) = None
  /\ let '(r, db', _) :=
       create_user_and_account no_faults "Ann" "ann@example.com" "Savings" "Bank"
                               db_sample in
     r = Return (PTuple [PInt 2; PInt 2])
     /\ Users (db_tables db')
        = Users (db_tables db_sample) ++ [mkUser 2 "Ann" "ann@example.com"]
     /\ Accounts (db_tables db')
        = Accounts (db_tables db_sample) ++ [mkAccount 2 2 "Savings" "Bank"]
     /\ Assets (db_tables db') = Assets (db_tables db_sample)
     /\ Transactions (db_tables db') = Transactions (db_tables db_sample)
     /\ find_user "ann@example.com" (db_tables db') = Some 2
     /\ find_account 2 "Bank" (db_tables db') = Some 2.
Proof.
  do 6 (split; [reflexivity|]).
  exact (create_user_and_account_fresh no_faults "Ann" "ann@example.com" "Savings"
           "Bank" db_sample eq_refl eq_refl eq_refl eq_refl eq_refl eq_refl).
Defined.

(** X11.  create_user_and_account is not all or nothing: it commits the new
    user before it turns to the account, so when the account SELECT or the
    account INSERT then fails, it returns (None, None) and the new user
    stays in the store. *)
Theorem create_user_and_account_keeps_user_when_account_fails
    faults user_name user_email account_type provider db e :
  faults 0%nat = None -> faults 1%nat = None ->
  find_user user_email (db_tables db) = None ->
  (faults 2%nat = Some e
   \/ (faults 2%nat = None /\ faults 3%nat = Some e
       /\ find_account (users_seq (db_seq db) + 1) provider (db_tables db) = None)) ->
  fst (create_user_and_account faults user_name user_email account_type provider db)
  = (Return (PTuple [PNone; PNone]), with_user user_name user_email db).
Proof.
  intros F0 F1 U [F2|(F2 & F3 & A)].
  - rewrite (create_user_and_account_new_select_fails _ _ _ _ _ _ _ F0 F1 F2 U).
    reflexivity.
  - rewrite (create_user_and_account_new _ _ _ _ _ _ F0 F1 F2 U). cbv zeta.
    rewrite A, F3. reflexivity.
Qed.

Lemma create_user_and_account_keeps_user_when_account_fails_witness :
  fault_at 2 "connection lost" 0%nat = None
  /\ fault_at 2 "connection lost" 1%nat = None
  /\ find_user "john.doe@example.com" (db_tables db_empty) = None
  /\ fault_at 2 "connection lost" 2%nat = Some "connection lost"%string
  /\ fst (create_user_and_account (fault_at 2 "connection lost") "John Doe"
            "john.doe@example.com" "Brokerage" "Fictional Broker" db_empty)
     = (Return (PTuple [PNone; PNone]),
        mkDb (mkTables [mkUser 1 "John Doe" "john.doe@example.com"] [] [] [])
             (mkSeq 1 0 0)).
Proof.
  do 4 (split; [reflexivity|]).
  exact (create_user_and_account_keeps_user_when_account_fails
           (fault_at 2 "connection lost") "John Doe" "john.doe@example.com"
           "Brokerage" "Fictional Broker" db_empty "connection lost"
           eq_refl eq_refl eq_refl (or_introl eq_refl)).
Defined.

Lemma find_user_with_user name email db :
  find_user email (db_tables db) = None ->
  find_user email (db_tables (with_user name email db)) = Some (users_seq (db_seq db) + 1).
Proof.
  intros U. unfold find_user, with_user. cbn [db_tables Users].
  apply (hd_error_filter_app_none u_user_id); [exact U|].
  cbn [u_email]. apply String.eqb_refl.
Qed.

Lemma find_account_with_account uid account_type provider db :
  find_account uid provider (db_tables db) = None ->
  find_account uid provider (db_tables (with_account uid account_type provider db))
  = Some (accounts_seq (db_seq db) + 1).
Proof.
  intros A. unfold find_account, with_account. cbn [db_tables Accounts].
  apply (hd_error_filter_app_none c_account_id); [exact A|].
  cbn [c_user_id c_provider_name]. rewrite Z.eqb_refl, String.eqb_refl. reflexivity.
Qed.

(** X12.  On a server that raises no error of its own, a second
    create_user_and_account with the same arguments finds what the first
    left: it writes nothing, sends only its two SELECTs, and returns the
    same two identifiers, always as one-element row tuples, whether the
    first call returned them as ints or as rows. *)
Theorem create_user_and_account_second_call_writes_nothing
    faults user_name user_email account_type provider db :
  (forall n, faults n = None) ->
  let '(r1, db1, _) :=
    create_user_and_account faults user_name user_email account_type provider db in
  let '(r2, db2, log2) :=
    create_user_and_account faults user_name user_email account_type provider db1 in
  exists u1 a1 uid aid,
    r1 = Return (PTuple [u1; a1])
    /\ ident u1 = Some uid
    /\ ident a1 = Some aid
    /\ r2 = Return (PTuple [PTuple [PInt uid]; PTuple [PInt aid]])
    /\ db2 = db1
    /\ log2 = [SelectUserId user_email; SelectAccountId (PTuple [PInt uid]) provider].
Proof.
  intros F.
  destruct (find_user user_email (db_tables db)) as [uid|] eqn:U.
  - destruct (find_account uid provider (db_tables db)) as [aid|] eqn:A.
    + rewrite (create_user_and_account_found _ _ _ _ _ _ _ _ (F _) (F _) U A).
      rewrite (create_user_and_account_found _ _ _ _ _ _ _ _ (F _) (F _) U A).
      do 4 eexists. repeat split; reflexivity.
    + rewrite (create_user_and_account_found_new _ _ _ _ _ _ _ (F _) (F _) (F _) U A).
      rewrite (create_user_and_account_found _ _ _ _ _ _ uid
                 (accounts_seq (db_seq db) + 1) (F _) (F _)).
      * do 4 eexists. repeat split; reflexivity.
      * exact U.
      * apply find_account_with_account, A.
  - rewrite (create_user_and_account_new _ _ _ _ _ _ (F _) (F _) (F _) U). cbv zeta.
    destruct (find_account (users_seq (db_seq db) + 1) provider (db_tables db))
      as [aid|] eqn:A.
    + rewrite (create_user_and_account_found _ _ _ _ _ _
                 (users_seq (db_seq db) + 1) aid (F _) (F _)).
      * do 4 eexists. repeat split; reflexivity.
      * apply find_user_with_user, U.
      * exact A.
    + rewrite (F 3%nat).
      rewrite (create_user_and_account_found _ _ _ _ _ _
                 (users_seq (db_seq db) + 1) (accounts_seq (db_seq db) + 1) (F _) (F _)).
      * do 4 eexists. repeat split; reflexivity.
      * apply (find_user_with_user user_name user_email db U).
      * apply (find_account_with_account (users_seq (db_seq db) + 1) account_type
                 provider (with_user user_name user_email db)). exact A.
Qed.

Lemma create_user_and_account_second_call_writes_nothing_witness :
  (forall n, no_faults n = None)
  /\ let '(r1, db1, _) :=
       create_user_and_account no_faults "John Doe" "john.doe@example.com"
                               "Brokerage" "Fictional Broker" db_empty in
     let '(r2, db2, log2) :=
       create_user_and_account no_faults "John Doe" "john.doe@example.com"
                               "Brokerage" "Fictional Broker" db1 in
     exists u1 a1 uid aid,
       r1 = Return (PTuple [u1; a1])
       /\ ident u1 = Some uid
       /\ ident a1 = Some aid
       /\ r2 = Return (PTuple [PTuple [PInt uid]; PTuple [PInt aid]])
       /\ db2 = db1
       /\ log2 = [SelectUserId "john.doe@example.com";
                  SelectAccountId (PTuple [PInt uid]) "Fictional Broker"].
Proof.
  split; [reflexivity|].
  exact (create_user_and_account_second_call_writes_nothing no_faults "John Doe"
           "john.doe@example.com" "Brokerage" "Fictional Broker" db_empty
           (fun _ => eq_refl)).
Defined.

(** ** What get_insights adds up *)

Lemma contains_keys d k : contains d k = true <-> In k (keys d).
Proof.
  unfold keys. induction d as [|[k' v] rest IH]; cbn [contains map fst In].
  - split; [discriminate|tauto].
  - destruct (String.eqb_spec k' k) as [->|N].
    + split; auto.
    + rewrite IH. split; [auto|]. intros [E|H]; [contradiction|exact H].
Qed.

Lemma keys_setitem d k v :
  keys (setitem d k v) = if contains d k then keys d else keys d ++ [k].
Proof.
  unfold keys. induction d as [|[k' v'] rest IH]; cbn [setitem contains map fst app].
  - reflexivity.
  - destruct (String.eqb k' k); cbn [map fst]; [reflexivity|].
    rewrite IH. destruct (contains rest k); reflexivity.
Qed.

Lemma class_value_setitem d k v c :
  class_value (setitem d k v) c = if String.eqb k c then v else class_value d c.
Proof.
  unfold class_value. induction d as [|[k' v'] rest IH]; cbn [setitem getitem].
  - destruct (String.eqb k c); reflexivity.
  - destruct (String.eqb_spec k' k) as [->|N]; cbn [getitem].
    + destruct (String.eqb k c); reflexivity.
    + destruct (String.eqb_spec k' c) as [->|N'].
      * destruct (String.eqb_spec k c) as [->|]; [contradiction|reflexivity].
      * exact IH.
Qed.

Lemma insights_loop_sums rng assets :
  forall i total_value total_cost_basis asset_allocation tv tcb alloc,
  insights_loop rng i assets total_value total_cost_basis asset_allocation
  = Return (tv, tcb, alloc) ->
  tv = decimal_sum total_value (class_values rng i assets (fun _ => true))
  /\ tcb = decimal_sum total_cost_basis (map row_cost assets)
  /\ (forall c, class_value alloc c
                = decimal_sum (class_value asset_allocation c)
                              (class_values rng i assets (String.eqb c)))
  /\ (NoDup (keys asset_allocation) -> NoDup (keys alloc))
  /\ (forall c, In c (keys alloc)
                <-> In c (keys asset_allocation) \/ In c (map row_class assets)).
Proof.
  induction assets as [|[[[asset_id asset_class] shares] cost_basis] rest IH];
    intros i total_value total_cost_basis asset_allocation tv tcb alloc.
  - cbn [insights_loop]. intros E. inversion E; subst.
    cbn [class_values map]. unfold decimal_sum. cbn [fold_left].
    repeat split; auto. intros [H|[]]. exact H.
  - rewrite insights_loop_step. intros E.
    destruct (IH _ _ _ _ _ _ _ E) as (H1 & H2 & H3 & H4 & H5).
    split; [exact H1|]. split; [exact H2|]. split; [|split].
    + intros c. rewrite H3, class_value_setitem. cbn [class_values].
      rewrite (String.eqb_sym c asset_class).
      destruct (String.eqb asset_class c) eqn:Ec.
      * apply String.eqb_eq in Ec. subst c. reflexivity.
      * reflexivity.
    + intros N. apply H4. rewrite keys_setitem.
      destruct (contains asset_allocation asset_class) eqn:C; [exact N|].
      apply NoDup_app; [exact N|constructor; [intros []|constructor]|].
      intros x Hx [<-|[]].
      apply contains_keys in Hx. congruence.
    + intros c. rewrite H5, keys_setitem. cbn [map row_class In].
      destruct (contains asset_allocation asset_class) eqn:C.
      * apply contains_keys in C. split; [tauto|].
        intros [H|[<-|H]]; tauto.
      * rewrite in_app_iff. cbn [In]. tauto.
Qed.

(** X13.  The dict get_insights returns says what it added up: total_value
    is the Decimal sum, in row order from Decimal(0), of the simulated
    values of the account's rows; total_gain_loss is total_value minus the
    Decimal sum of shares * cost_basis; the keys of asset_allocation are the
    asset classes of the rows, each once; and each class holds the Decimal
    sum of the simulated values of its own rows. *)
Theorem get_insights_sums faults rng account_id db ins db' log :
  get_insights faults rng account_id db = (Return (inl ins), db', log) ->
  let rows := insights_rows account_id db in
  total_value ins = decimal_sum (Decimal (Int 0)) (class_values rng 0 rows (fun _ => true))
  /\ total_gain_loss ins
     = Dec.sub (total_value ins) (decimal_sum (Decimal (Int 0)) (map row_cost rows))
  /\ NoDup (keys (asset_allocation ins))
  /\ (forall c, In c (keys (asset_allocation ins)) <-> In c (map row_class rows))
  /\ (forall c, In c (map row_class rows) ->
                getitem (asset_allocation ins) c
                = Some (decimal_sum (Decimal (Int 0))
                          (class_values rng 0 rows (String.eqb c)))).
Proof.
  intros E. cbv zeta. rewrite get_insights_run in E.
  destruct (faults 0%nat); [inversion E|].
  assert (L : exists tcb,
             insights_loop rng 0 (insights_rows account_id db)
                           (Decimal (Int 0)) (Decimal (Int 0)) []
             = Return (total_value ins, tcb, asset_allocation ins)
             /\ total_gain_loss ins = Dec.sub (total_value ins) tcb).
  { destruct (adapt account_id); try (inversion E; fail);
      destruct (insights_loop rng 0 (insights_rows account_id db)
                  (Decimal (Int 0)) (Decimal (Int 0)) []) as [[[tv tcb] alloc]|];
      inversion E; subst; cbn; eauto. }
  destruct L as (tcb & L & G).
  destruct (insights_loop_sums _ _ _ _ _ _ _ _ _ L) as (H1 & H2 & H3 & H4 & H5).
  split; [exact H1|]. split; [rewrite G, H2; reflexivity|].
  split; [apply H4; constructor|].
  split; [intros c; rewrite H5; cbn [keys map In]; tauto|].
  intros c Hc. specialize (H3 c). unfold class_value at 1 in H3.
  assert (K : In c (keys (asset_allocation ins))) by (apply H5; auto).
  apply contains_keys, getitem_contains in K.
  destruct (getitem (asset_allocation ins) c) as [v|]; [|congruence].
  rewrite H3. reflexivity.
Qed.

Lemma get_insights_sums_witness :
  exists ins db' log,
    get_insights no_faults draws_three (PInt 1) db_three = (Return (inl ins), db', log)
    /\ total_value ins
       = decimal_sum (Decimal (Int 0))
           (class_values draws_three 0 (insights_rows (PInt 1) db_three) (fun _ => true))
    /\ keys (asset_allocation ins) = ["Equity"%string; "Crypto"%string]
    /\ getitem (asset_allocation ins) "Equity"
       = Some (decimal_sum (Decimal (Int 0))
                 (class_values draws_three 0 (insights_rows (PInt 1) db_three)
                    (String.eqb "Equity"))).
Proof.
  do 3 eexists.
  assert (E : get_insights no_faults draws_three (PInt 1) db_three
              = (Return (inl (mkInsights
                                (Dec.mkDecimal false 2800000000000000044408920985 (-27))
                                (Dec.mkDecimal true 199999999999999955591079015 (-27))
                                [("Equity"%string,
                                  Dec.mkDecimal false 1900000000000000022204460492 (-27));
                                 ("Crypto"%string,
                                  Dec.mkDecimal false 9000000000000000222044604925 (-28))])),
                 db_three, [SelectInsights (PInt 1)]))
    by (vm_compute; reflexivity).
  pose proof (get_insights_sums _ _ _ _ _ _ _ E) as (H1 & _ & _ & _ & H5).
  split; [exact E|]. split; [exact H1|]. split; [reflexivity|].
  apply H5. left. reflexivity.
Defined.

Lemma class_values_all rng assets c :
  (forall row, In row assets -> row_class row = c) ->
  forall i, class_values rng i assets (String.eqb c)
            = class_values rng i assets (fun _ => true).
Proof.
  induction assets as [|[[[asset_id asset_class] shares] cost_basis] rest IH];
    intros H i; [reflexivity|].
  cbn [class_values].
  pose proof (H _ (or_introl eq_refl)) as Hc. cbn [row_class] in Hc.
  rewrite Hc, String.eqb_refl.
  rewrite IH; [reflexivity|]. intros row Hr. apply H. right. exact Hr.
Qed.

(** X14.  When all assets of the account are of one class, the allocation
    has that class alone and its value is total_value itself, digit for
    digit: the two are built by the same additions. *)
Theorem single_class_allocation_is_total faults rng account_id db ins db' log c :
  get_insights faults rng account_id db = (Return (inl ins), db', log) ->
  insights_rows account_id db <> [] ->
  (forall row, In row (insights_rows account_id db) -> row_class row = c) ->
  asset_allocation ins = [(c, total_value ins)].
Proof.
  intros E NE H. rewrite get_insights_run in E.
  destruct (faults 0%nat); [inversion E|].
  assert (L : exists tcb,
             insights_loop rng 0 (insights_rows account_id db)
                           (Decimal (Int 0)) (Decimal (Int 0)) []
             = Return (total_value ins, tcb, asset_allocation ins)).
  { destruct (adapt account_id); try (inversion E; fail);
      destruct (insights_loop rng 0 (insights_rows account_id db)
                  (Decimal (Int 0)) (Decimal (Int 0)) []) as [[[tv tcb] alloc]|];
      inversion E; subst; cbn; eauto. }
  destruct L as (tcb & L).
  destruct (insights_loop_sums _ _ _ _ _ _ _ _ _ L) as (H1 & _ & H3 & H4 & H5).
  specialize (H4 (NoDup_nil _)).
  assert (K : forall k, In k (keys (asset_allocation ins)) <-> k = c).
  { intros k. rewrite H5. cbn [keys map In]. split.
    - intros [[]|Hk]. apply in_map_iff in Hk. destruct Hk as (row & <- & Hr).
      apply H, Hr.
    - intros ->. right. destruct (insights_rows account_id db) as [|row l] eqn:R;
        [contradiction|].
      left. apply H. left. reflexivity. }
  specialize (H3 c). rewrite (class_values_all _ _ _ H) in H3.
  change (class_value [] c) with (Decimal (Int 0)) in H3. rewrite <- H1 in H3.
  unfold keys in *.
  destruct (asset_allocation ins) as [|[k v] rest] eqn:A.
  - exfalso. apply (proj2 (K c) eq_refl).
  - assert (k = c) by (apply K; left; reflexivity). subst k.
    destruct rest as [|[k' v'] rest'].
    + unfold class_value in H3. cbn [getitem] in H3. rewrite String.eqb_refl in H3.
      subst v. reflexivity.
    + exfalso. assert (k' = c) by (apply K; right; left; reflexivity). subst k'.
      cbn [map fst] in H4. inversion H4 as [|? ? Hn _]. apply Hn. left. reflexivity.
Qed.

Lemma single_class_allocation_is_total_witness :
  exists ins db' log,
    get_insights no_faults (fun _ => draw_max) (PInt 1) db_sample
    = (Return (inl ins), db', log)
    /\ insights_rows (PInt 1) db_sample <> []
    /\ (forall row, In row (insights_rows (PInt 1) db_sample) ->
                    row_class row = "Equity"%string)
    /\ asset_allocation ins = [("Equity"%string, total_value ins)].
Proof.
  do 3 eexists.
  assert (E : get_insights no_faults (fun _ => draw_max) (PInt 1) db_sample
              = (Return (inl (mkInsights
                                (Dec.mkDecimal false 1650000000000000133226762955 (-24))
                                (Dec.mkDecimal false 150000000000000133226762955 (-24))
                                [("Equity"%string,
                                  Dec.mkDecimal false 1650000000000000133226762955 (-24))])),
                 db_sample, [SelectInsights (PInt 1)]))
    by (vm_compute; reflexivity).
  assert (NE : insights_rows (PInt 1) db_sample <> []) by discriminate.
  assert (H : forall row, In row (insights_rows (PInt 1) db_sample) ->
                          row_class row = "Equity"%string).
  { intros row [<-|[]]. reflexivity. }
  split; [exact E|]. split; [exact NE|]. split; [exact H|].
  exact (single_class_allocation_is_total _ _ _ _ _ _ _ _ E NE H).
Defined.

(** ** The functions of Backend.py never raise *)

Lemma create_user_and_account_returns_pair
    faults user_name user_email account_type provider db :
  exists u a db' log,
    create_user_and_account faults user_name user_email account_type provider db
    = (Return (PTuple [u; a]), db', log).
Proof.
  unfold create_user_and_account, call, create_user_and_account_body, try_except,
    bind, execute, lift, commit, rollback, ret.
  cbn -[filter map email_taken user_exists].
  destruct (faults 0%nat); [cbn; eauto 10|].
  cbn -[filter map email_taken user_exists].
  destruct (map u_user_id (filter _ (Users (db_tables db)))) as [|uid l].
  - cbn -[filter map email_taken user_exists].
    destruct (faults 1%nat); [cbn; eauto 10|].
    cbn -[filter map email_taken user_exists].
    destruct (email_taken (db_tables db) user_email); [cbn; eauto 10|].
    cbn -[filter map email_taken user_exists].
    destruct (faults 2%nat); [cbn; eauto 10|].
    cbn -[filter map email_taken user_exists].
    match goal with |- context [map c_account_id ?l] =>
      destruct (map c_account_id l) end.
    + cbn -[filter map email_taken user_exists].
      destruct (faults 3%nat); [cbn; eauto 10|].
      cbn -[filter map email_taken user_exists].
      match goal with |- context [if ?b then _ else _] => destruct b end;
        cbn; eauto 10.
    + cbn. eauto 10.
  - cbn -[filter map email_taken user_exists].
    destruct (faults 1%nat); [cbn; eauto 10|].
    cbn -[filter map email_taken user_exists].
    match goal with |- context [map c_account_id ?l] =>
      destruct (map c_account_id l) end.
    + cbn -[filter map email_taken user_exists].
      destruct (faults 2%nat); [cbn; eauto 10|].
      cbn -[filter map email_taken user_exists].
      match goal with |- context [if ?b then _ else _] => destruct b end;
        cbn; eauto 10.
    + cbn. eauto 10.
Qed.

Lemma create_asset_and_transaction_returns
    faults user_id account_id ticker asset_class purchase_date shares cost_basis db :
  exists message db' log,
    create_asset_and_transaction faults user_id account_id ticker asset_class
                                 purchase_date shares cost_basis db
    = (Return message, db', log).
Proof.
  pose proof (create_asset_and_transaction_cases faults user_id account_id ticker
                asset_class purchase_date shares cost_basis db) as H.
  cbv zeta in H. rewrite H.
  destruct (faults 0%nat); [eauto|].
  destruct (adapt account_id); eauto.
  destruct (account_exists (db_tables db) n); eauto.
  destruct (faults 1%nat); eauto.
Qed.

Lemma update_asset_returns faults asset_id new_shares new_cost_basis db :
  exists message db' log,
    update_asset faults asset_id new_shares new_cost_basis db
    = (Return message, db', log).
Proof.
  unfold update_asset, call, update_asset_body, try_except, bind, execute, commit,
    rollback, ret.
  destruct new_shares, new_cost_basis;
    cbn -[Decimal Dec.string_of_Z];
    destruct (faults 0%nat); cbn -[Decimal Dec.string_of_Z]; eauto.
Qed.

Lemma delete_asset_returns faults asset_id db :
  exists message db' log,
    delete_asset faults asset_id db = (Return message, db', log).
Proof.
  unfold delete_asset, call, delete_asset_body, try_except, bind, execute, commit,
    rollback, ret.
  cbn -[Dec.string_of_Z String.append].
  destruct (faults 0%nat); cbn -[Dec.string_of_Z String.append]; eauto.
Qed.

(** ** How far value and gain can be from the cost *)

Lemma fix_wf x : Dec.wf x -> Dec.wf (Dec._fix x).
Proof.
  unfold Dec.wf, Dec._fix. intros W.
  destruct (Dec._int x =? 0); [exact W|].
  destruct (Dec._exp x <? _); [|exact W].
  set (k := Dec.ndigits (Dec._int x) + Dec._exp x - Dec.prec - Dec._exp x).
  assert (C : 0 <= Dec.div_half_even (Dec._int x) (10 ^ k)).
  { unfold Dec.div_half_even.
    destruct (Z.le_gt_cases k (-1)) as [Neg|Pos].
    - rewrite Z.pow_neg_r by lia. rewrite Z.div_0_r, Z.mod_0_r.
      unfold half_even. destruct (2 * Dec._int x <? 0), (0 <? 2 * Dec._int x); cbn; lia.
    - assert (0 < 10 ^ k) by (apply Z.pow_pos_nonneg; lia).
      pose proof (half_even_range (10 ^ k) (Dec._int x / 10 ^ k) (Dec._int x mod 10 ^ k)).
      assert (0 <= Dec._int x / 10 ^ k) by (apply Z.div_pos; lia). lia. }
  destruct (Dec.prec <? _); cbn [Dec._int]; [|exact C].
  apply Z.div_pos; lia.
Qed.

Lemma mul_wf x y : Dec.wf x -> Dec.wf y -> Dec.wf (Dec.mul x y).
Proof.
  intros Wx Wy. unfold Dec.mul. apply fix_wf. unfold Dec.wf in *. cbn [Dec._int]. nia.
Qed.

Lemma value_copy_negate x : (Dec.value (Dec.copy_negate x) == - Dec.value x)%Q.
Proof.
  unfold Dec.value, Dec.copy_negate, Dec.signed. cbn [Dec._sign Dec._int Dec._exp].
  destruct (Dec._sign x); cbn [negb]; rewrite ?inject_Z_opp; ring.
Qed.

Lemma value_zero_int x : Dec._int x = 0 -> (Dec.value x == 0)%Q.
Proof.
  intros Z0. unfold Dec.value, Dec.signed. rewrite Z0.
  destruct (Dec._sign x); cbn; ring.
Qed.

Lemma value_shift s c e d :
  0 <= d ->
  (Dec.value (Dec.mkDecimal s (c * 10 ^ d) e) == Dec.value (Dec.mkDecimal s c (e + d)))%Q.
Proof.
  intros Hd. unfold Dec.value, Dec.signed. cbn [Dec._sign Dec._int Dec._exp].
  rewrite (ten_pow_split e d Hd).
  destruct s; rewrite ?inject_Z_opp, ?inject_Z_mult; ring.
Qed.

Lemma value_rescale_pad x e :
  e <= Dec._exp x -> (Dec.value (Dec._rescale x e) == Dec.value x)%Q.
Proof.
  intros H. unfold Dec._rescale.
  destruct (Z.eqb_spec (Dec._int x) 0) as [Z0|NZ].
  - rewrite (value_zero_int x Z0). apply value_zero_int. reflexivity.
  - destruct (Z.leb_spec e (Dec._exp x)); [|lia].
    rewrite value_shift by lia. destruct x as [s c ex]. cbn [Dec._sign Dec._int Dec._exp].
    replace (e + (ex - e)) with ex by lia. reflexivity.
Qed.

Lemma rescale_wf x e : Dec.wf x -> e <= Dec._exp x -> Dec.wf (Dec._rescale x e).
Proof.
  unfold Dec.wf, Dec._rescale. intros W H.
  destruct (Dec._int x =? 0); cbn [Dec._int]; [lia|].
  destruct (Z.leb_spec e (Dec._exp x)); [|lia]. cbn [Dec._int].
  apply Z.mul_nonneg_nonneg; [exact W|apply Z.pow_nonneg; lia].
Qed.

(** A sum of two Decimals is the exact sum, rounded. *)
Lemma add_is_fix x y :
  Dec.wf x -> Dec.wf y ->
  exists z, Dec.add x y = Dec._fix z /\ Dec.wf z
            /\ (Dec.value z == Dec.value x + Dec.value y)%Q.
Proof.
  intros Wx Wy. unfold Dec.add.
  destruct (Z.eqb_spec (Dec._int x) 0) as [X0|XN];
    destruct (Z.eqb_spec (Dec._int y) 0) as [Y0|YN]; cbn [andb].
  - eexists. split; [reflexivity|]. split; [unfold Dec.wf; cbn; lia|].
    rewrite (value_zero_int x X0), (value_zero_int y Y0).
    unfold Dec.value, Dec.signed. cbn [Dec._sign Dec._int Dec._exp].
    destruct (Dec._sign x && Dec._sign y); cbn; ring.
  - eexists. split; [reflexivity|].
    assert (Z.max (Z.min (Dec._exp x) (Dec._exp y)) (Dec._exp y - Dec.prec - 1)
            <= Dec._exp y) by (unfold Dec.prec; lia).
    split; [apply rescale_wf; assumption|].
    rewrite value_rescale_pad by assumption.
    rewrite (value_zero_int x X0). ring.
  - eexists. split; [reflexivity|].
    assert (Z.max (Z.min (Dec._exp x) (Dec._exp y)) (Dec._exp x - Dec.prec - 1)
            <= Dec._exp x) by (unfold Dec.prec; lia).
    split; [apply rescale_wf; assumption|].
    rewrite value_rescale_pad by assumption.
    rewrite (value_zero_int y Y0). ring.
  - eexists. split; [reflexivity|]. split; [unfold Dec.wf; cbn [Dec._int]; lia|].
    set (e := Z.min (Dec._exp x) (Dec._exp y)).
    set (s := Dec.signed x * 10 ^ (Dec._exp x - e) + Dec.signed y * 10 ^ (Dec._exp y - e)).
    unfold Dec.value at 1. unfold Dec.signed at 1. cbn [Dec._sign Dec._int Dec._exp].
    assert (Hs : (if s <? 0 then - Z.abs s else Z.abs s) = s)
      by (destruct (Z.ltb_spec s 0); lia).
    rewrite Hs. unfold s, Dec.value.
    rewrite inject_Z_plus, !inject_Z_mult.
    assert (Ex : (10 ^ Dec._exp x == 10 ^ e * inject_Z (10 ^ (Dec._exp x - e)))%Q).
    { rewrite <- ten_pow_split by (unfold e; lia).
      replace (e + (Dec._exp x - e)) with (Dec._exp x) by lia. reflexivity. }
    assert (Ey : (10 ^ Dec._exp y == 10 ^ e * inject_Z (10 ^ (Dec._exp y - e)))%Q).
    { rewrite <- ten_pow_split by (unfold e; lia).
      replace (e + (Dec._exp y - e)) with (Dec._exp y) by lia. reflexivity. }
    rewrite Ex, Ey. ring.
Qed.

Lemma add_error x y :
  Dec.wf x -> Dec.wf y ->
  (Qabs (Dec.value (Dec.add x y) - (Dec.value x + Dec.value y))
   <= Qabs (Dec.value x + Dec.value y) * (1 # 2000000000000000000000000000))%Q.
Proof.
  intros Wx Wy. destruct (add_is_fix x y Wx Wy) as (z & -> & Wz & V).
  rewrite <- V. apply fix_error, Wz.
Qed.

Lemma add_wf x y : Dec.wf x -> Dec.wf y -> Dec.wf (Dec.add x y).
Proof.
  intros Wx Wy. destruct (add_is_fix x y Wx Wy) as (z & -> & Wz & _).
  apply fix_wf, Wz.
Qed.

Lemma Qabs_scale (s x b : Q) :
  (Qabs x <= b -> Qabs (s * x) <= Qabs s * b)%Q.
Proof.
  intros H. rewrite Qabs_Qmult.
  rewrite (Qmult_comm (Qabs s) (Qabs x)), (Qmult_comm (Qabs s) b).
  apply Qmult_le_compat_r; [exact H|apply Qabs_nonneg].
Qed.

(** The arithmetic of the bound: a price within e1 of the cost, and three
    operations each within d of the exact result. *)
Lemma value_and_gain_bound (S C p v m g : Q) :
  (Qabs (p - C) <= Qabs C * ((1 # 10) + (1 # 10000000000000000)) ->
   Qabs (v - S * p) <= Qabs (S * p) * (1 # 2000000000000000000000000000) ->
   Qabs (m - S * C) <= Qabs (S * C) * (1 # 2000000000000000000000000000) ->
   Qabs (g - (v + - m)) <= Qabs (v + - m) * (1 # 2000000000000000000000000000) ->
   Qabs (v - S * C) <= Qabs (S * C) * ((1 # 10) + (2 # 10000000000000000))
   /\ Qabs g <= Qabs (S * C) * ((1 # 10) + (2 # 10000000000000000)))%Q.
Proof.
  intros Hp Hv Hm Hg.
  pose proof (Qabs_scale S _ _ Hp) as F1.
  assert (F1' : (Qabs (S * p - S * C)
                 <= Qabs (S * C) * ((1 # 10) + (1 # 10000000000000000)))%Q).
  { rewrite Qabs_Qmult.
    assert (R : (S * p - S * C == S * (p - C))%Q) by ring.
    rewrite R. rewrite Qmult_assoc in F1. exact F1. }
  clear F1 Hp.
  set (a := Qabs (S * C)) in *.
  assert (A0 : (0 <= a)%Q) by apply Qabs_nonneg.
  set (sp := (S * p)%Q) in *. set (sc := (S * C)%Q) in *.
  apply Qabs_Qle_condition in F1'. destruct F1' as [F1l F1u].
  assert (F2 : (Qabs sp <= a * ((11 # 10) + (1 # 10000000000000000)))%Q).
  { assert (B : (Qabs sc <= a)%Q) by apply Qle_refl.
    apply Qabs_Qle_condition in B. destruct B as [Bl Bu].
    apply Qabs_Qle_condition. split; lra. }
  pose proof (Qabs_nonneg sp) as SP0.
  set (spa := Qabs sp) in *.
  apply Qabs_Qle_condition in Hv. destruct Hv as [Hvl Hvu].
  apply Qabs_Qle_condition in Hm. destruct Hm as [Hml Hmu].
  assert (B : (Qabs sc <= a)%Q) by apply Qle_refl.
  apply Qabs_Qle_condition in B. destruct B as [Bl Bu].
  assert (W : (Qabs (v + - m) <= a * ((1 # 10) + (15 # 100000000000000000)))%Q).
  { apply Qabs_Qle_condition. split; lra. }
  pose proof (Qabs_nonneg (v + - m)) as W0.
  set (w := Qabs (v + - m)) in *.
  apply Qabs_Qle_condition in Hg. destruct Hg as [Hgl Hgu].
  split; apply Qabs_Qle_condition; split; lra.
Qed.

Lemma simulated_value_and_gain_within shares cost_basis r :
  Dec.wf shares -> Dec.wf cost_basis -> 0 <= r < Float.of_int 1 ->
  (Qabs (Dec.value (simulated_value shares cost_basis r)
         - Dec.value shares * Dec.value cost_basis)
   <= Qabs (Dec.value shares * Dec.value cost_basis)
      * ((1 # 10) + (2 # 10000000000000000))
   /\ Qabs (Dec.value (simulated_gain_loss shares cost_basis r))
      <= Qabs (Dec.value shares * Dec.value cost_basis)
         * ((1 # 10) + (2 # 10000000000000000)))%Q.
Proof.
  intros Ws Wc Hr.
  assert (Wp : Dec.wf (simulated_price cost_basis r))
    by (apply mul_wf; [exact Wc|apply from_float_wf]).
  assert (Wv : Dec.wf (simulated_value shares cost_basis r))
    by (apply mul_wf; assumption).
  assert (Wm : Dec.wf (Dec.copy_negate (Dec.mul shares cost_basis)))
    by (apply (mul_wf shares cost_basis Ws Wc)).
  pose proof (simulated_price_within cost_basis r Wc Hr) as Hp.
  pose proof (mul_error shares (simulated_price cost_basis r) Ws Wp) as Hv.
  pose proof (mul_error shares cost_basis Ws Wc) as Hm.
  pose proof (add_error _ _ Wv Wm) as Hg.
  rewrite value_copy_negate in Hg.
  exact (value_and_gain_bound _ _ _ _ _ _ Hp Hv Hm Hg).
Qed.

Lemma holdings_within rng rows :
  (forall i, 0 <= rng i < Float.of_int 1) ->
  Forall (fun row : Z * string * string * decimal * decimal * date =>
            let '(_, _, _, shares, cost_basis, _) := row in
            Dec.wf shares /\ Dec.wf cost_basis) rows ->
  forall i,
    Forall2 (fun (row : Z * string * string * decimal * decimal * date) h =>
               let '(_, _, _, shares, cost_basis, _) := row in
               exists value gain,
                 h_Current_Value h = Dec.format_2f value
                 /\ h_Gain_Loss h = Dec.format_2f gain
                 /\ (Qabs (Dec.value value - Dec.value shares * Dec.value cost_basis)
                     <= Qabs (Dec.value shares * Dec.value cost_basis)
                        * ((1 # 10) + (2 # 10000000000000000)))%Q
                 /\ (Qabs (Dec.value gain)
                     <= Qabs (Dec.value shares * Dec.value cost_basis)
                        * ((1 # 10) + (2 # 10000000000000000)))%Q)
            rows (holdings rng i rows).
Proof.
  intros Hr W. induction W as [|[[[[[asset_id ticker] asset_class] shares] cost_basis] d]
                                 rest [Ws Wc] _ IH]; intros i; cbn [holdings].
  - constructor.
  - constructor; [|apply IH].
    exists (simulated_value shares cost_basis (rng i)),
           (simulated_gain_loss shares cost_basis (rng i)).
    split; [reflexivity|]. split; [reflexivity|].
    apply simulated_value_and_gain_within; auto.
Qed.

(** X15.  With draws in [0.0, 1.0), every entry read_portfolio returns shows
    a current value within ten per cent of shares * cost_basis, and a gain
    or loss of at most ten per cent of it, up to two parts in 10^16: the
    strings shown are the two-place forms of Decimals within these
    bounds. *)
Theorem portfolio_value_and_gain_within faults rng account_id db hs db' log :
  read_portfolio faults rng account_id db = (Return (inl hs), db', log) ->
  (forall i, 0 <= rng i < Float.of_int 1) ->
  (forall a, In a (Assets (db_tables db)) ->
             Dec.wf (a_shares a) /\ Dec.wf (a_cost_basis a)) ->
  Forall2 (fun (row : Z * string * string * decimal * decimal * date) h =>
             let '(_, _, _, shares, cost_basis, _) := row in
             exists value gain,
               h_Current_Value h = Dec.format_2f value
               /\ h_Gain_Loss h = Dec.format_2f gain
               /\ (Qabs (Dec.value value - Dec.value shares * Dec.value cost_basis)
                   <= Qabs (Dec.value shares * Dec.value cost_basis)
                      * ((1 # 10) + (2 # 10000000000000000)))%Q
               /\ (Qabs (Dec.value gain)
                   <= Qabs (Dec.value shares * Dec.value cost_basis)
                      * ((1 # 10) + (2 # 10000000000000000)))%Q)
          (portfolio_rows account_id db) hs.
Proof.
  intros E Hr W. rewrite (read_portfolio_holdings _ _ _ _ _ _ _ E).
  apply holdings_within; [exact Hr|].
  unfold portfolio_rows. apply Forall_forall. intros row Hrow.
  apply in_map_iff in Hrow. destruct Hrow as (a & <- & Ha).
  apply filter_In in Ha. destruct Ha as [Ha _]. exact (W a Ha).
Qed.

Lemma portfolio_value_and_gain_within_witness :
  exists hs,
    read_portfolio no_faults (fun _ => draw_max) (PInt 1) db_sample
    = (Return (inl hs), db_sample, [SelectPortfolio (PInt 1)])
    /\ (forall i : nat, 0 <= draw_max < Float.of_int 1)
    /\ (forall a, In a (Assets (db_tables db_sample)) ->
                  Dec.wf (a_shares a) /\ Dec.wf (a_cost_basis a))
    /\ List.length hs = 1%nat.
Proof.
  eexists.
  assert (E : read_portfolio no_faults (fun _ => draw_max) (PInt 1) db_sample
              = (Return (inl (holdings (fun _ => draw_max) 0
                                (portfolio_rows (PInt 1) db_sample))),
                 db_sample, [SelectPortfolio (PInt 1)]))
    by (vm_compute; reflexivity).
  assert (Hr : forall i : nat, 0 <= draw_max < Float.of_int 1)
    by (intros _; split; [apply Z.leb_le|apply Z.ltb_lt]; vm_compute; reflexivity).
  assert (W : forall a, In a (Assets (db_tables db_sample)) ->
                        Dec.wf (a_shares a) /\ Dec.wf (a_cost_basis a)).
  { intros a [<-|[]]. split; unfold Dec.wf; cbn; lia. }
  split; [exact E|]. split; [exact Hr|]. split; [exact W|].
  pose proof (portfolio_value_and_gain_within _ _ _ _ _ _ _ E Hr W) as F.
  apply Forall2_length in F. rewrite <- F. reflexivity.
Defined.

Import Page.

(** ** One run of the page *)

Lemma bootstrap_returns faults ss db :
  exists ss' db', bootstrap faults ss db = (Return ss', db').
Proof.
  unfold bootstrap.
  destruct (create_user_and_account_returns_pair (faults AtBootstrap) "John Doe"
              "john.doe@example.com" "Brokerage" "Fictional Broker" db)
    as (u & a & db' & log & ->).
  destruct (ss_user_id ss), (ss_account_id ss); eauto.
Qed.

Lemma dashboard_returns faults rng ss db :
  exists summary draws, dashboard faults rng ss db = (Return summary, draws).
Proof.
  unfold dashboard.
  destruct (truthy (session_get (ss_account_id ss))); [|eauto].
  rewrite get_insights_run.
  destruct (faults AtInsights 0%nat); [eauto|].
  destruct (adapt (session_get (ss_account_id ss))); eauto.
  - destruct (insights_loop_returns rng
                (insights_rows (session_get (ss_account_id ss)) db) 0%nat
                (Decimal (Int 0)) (Decimal (Int 0)) []) as [[[tv tcb] alloc] ->].
    cbn [total_value total_gain_loss asset_allocation].
    destruct (delta_returns (Dec.sub tv tcb) tv) as [p ->]. eauto.
  - destruct (insights_loop_returns rng
                (insights_rows (session_get (ss_account_id ss)) db) 0%nat
                (Decimal (Int 0)) (Decimal (Int 0)) []) as [[[tv tcb] alloc] ->].
    cbn [total_value total_gain_loss asset_allocation].
    destruct (delta_returns (Dec.sub tv tcb) tv) as [p ->]. eauto.
Qed.

Lemma add_asset_returns faults inp ss db :
  exists added db', add_asset faults inp ss db = (Return added, db').
Proof.
  unfold add_asset. destruct (submitted inp); [|eauto].
  destruct (truthy (session_get (ss_user_id ss))
            && truthy (session_get (ss_account_id ss))); [|eauto].
  destruct (create_asset_and_transaction_returns (faults AtCreate)
              (session_get (ss_user_id ss)) (session_get (ss_account_id ss))
              (ticker inp) (asset_class inp) (purchase_date inp)
              (Flt (shares inp)) (Flt (cost_basis inp)) db) as (m & db' & log & ->).
  eauto.
Qed.

Lemma update_returns faults inp db :
  exists updated db', update faults inp db = (Return updated, db').
Proof.
  unfold update. destruct (update_submitted inp); [|eauto].
  destruct (update_asset_returns (faults AtUpdate) (update_id inp)
              (option_number (new_shares inp)) (option_number (new_cost_basis inp)) db)
    as (m & db' & log & ->).
  eauto.
Qed.

Lemma delete_returns faults inp db :
  exists deleted db', delete faults inp db = (Return deleted, db').
Proof.
  unfold delete. destruct (delete_submitted inp); [|eauto].
  destruct (delete_asset_returns (faults AtDelete) (delete_id inp) db)
    as (m & db' & log & ->).
  eauto.
Qed.

Lemma holdings_view_returns faults rng draws ss db :
  exists table, holdings_view faults rng draws ss db = Return table.
Proof.
  unfold holdings_view. rewrite read_portfolio_run.
  destruct (faults AtPortfolio 0%nat); [eauto|].
  destruct (adapt (session_get (ss_account_id ss))); eauto;
    destruct (holdings _ _ _); eauto.
Qed.

(** The run, section by section. *)
Lemma run_sections faults rng inp ss db :
  exists ss1 db1 summary draws added db2 updated db3 deleted db4 table,
    bootstrap faults ss db = (Return ss1, db1)
    /\ dashboard faults rng ss1 db1 = (Return summary, draws)
    /\ add_asset faults inp ss1 db1 = (Return added, db2)
    /\ update faults inp db2 = (Return updated, db3)
    /\ delete faults inp db3 = (Return deleted, db4)
    /\ holdings_view faults rng draws ss1 db4 = Return table
    /\ run faults rng inp ss db
       = (Return (summary ++ added ++ updated ++ deleted ++ table), ss1, db4).
Proof.
  destruct (bootstrap_returns faults ss db) as (ss1 & db1 & B).
  destruct (dashboard_returns faults rng ss1 db1) as (summary & draws & D).
  destruct (add_asset_returns faults inp ss1 db1) as (added & db2 & A).
  destruct (update_returns faults inp db2) as (updated & db3 & U).
  destruct (delete_returns faults inp db3) as (deleted & db4 & X).
  destruct (holdings_view_returns faults rng draws ss1 db4) as (table & H).
  exists ss1, db1, summary, draws, added, db2, updated, db3, deleted, db4, table.
  repeat (split; [assumption|]).
  unfold run. rewrite B, D, A, U, X, H. reflexivity.
Qed.

(** ** Failures of the handlers on the page *)

Lemma update_asset_fault faults asset_id new_shares new_cost_basis db e :
  faults 0%nat = Some e ->
  fst (update_asset faults asset_id new_shares new_cost_basis db)
  = (Return ("Error updating asset: " ++ e)%string, db).
Proof.
  intros F.
  unfold update_asset, call, update_asset_body, try_except, bind, execute, commit,
    rollback, ret.
  destruct new_shares, new_cost_basis;
    cbn -[Decimal Dec.string_of_Z String.append]; rewrite F;
    cbn -[Decimal Dec.string_of_Z String.append]; rewrite database_eta; reflexivity.
Qed.

Lemma update_asset_no_fields faults asset_id db :
  faults 0%nat = None ->
  fst (update_asset faults asset_id None None db)
  = (Return "Error updating asset: syntax error"%string, db).
Proof.
  intros F.
  unfold update_asset, call, update_asset_body, try_except, bind, execute, commit,
    rollback, ret.
  cbn -[parse_update]. rewrite F. cbn. rewrite database_eta. reflexivity.
Qed.

Lemma delete_asset_fault faults asset_id db e :
  faults 0%nat = Some e ->
  fst (delete_asset faults asset_id db)
  = (Return ("Error deleting asset: " ++ e)%string, db).
Proof.
  intros F.
  unfold delete_asset, call, delete_asset_body, try_except, bind, execute, commit,
    rollback, ret.
  cbn -[Dec.string_of_Z String.append]. rewrite F.
  cbn -[Dec.string_of_Z String.append]. rewrite database_eta. reflexivity.
Qed.

Lemma create_asset_fault
    faults user_id account_id ticker asset_class purchase_date shares cost_basis db e :
  faults 0%nat = Some e ->
  fst (create_asset_and_transaction faults user_id account_id ticker asset_class
                                    purchase_date shares cost_basis db)
  = (Return ("Error creating asset: " ++ e)%string, db).
Proof.
  intros F.
  pose proof (create_asset_and_transaction_cases faults user_id account_id ticker
                asset_class purchase_date shares cost_basis db) as H.
  cbv zeta in H. rewrite H, F. reflexivity.
Qed.

(** X17.  The three handlers of the page show whatever the backend returned
    with st.success.  A failed insert, update or delete therefore appears
    as a success box that holds the error text, and so does an update
    submitted with both fields empty. *)
Theorem page_shows_errors_as_success faults rng inp ss db :
  exists elements ss' db',
    run faults rng inp ss db = (Return elements, ss', db')
    /\ (forall e, submitted inp = true ->
                  truthy (session_get (ss_user_id ss')) = true ->
                  truthy (session_get (ss_account_id ss')) = true ->
                  faults AtCreate 0%nat = Some e ->
                  In (Success ("Error creating asset: " ++ e)%string) elements)
    /\ (forall e, update_submitted inp = true ->
                  faults AtUpdate 0%nat = Some e ->
                  In (Success ("Error updating asset: " ++ e)%string) elements)
    /\ (update_submitted inp = true ->
        new_shares inp = None -> new_cost_basis inp = None ->
        faults AtUpdate 0%nat = None ->
        In (Success "Error updating asset: syntax error"%string) elements)
    /\ (forall e, delete_submitted inp = true ->
                  faults AtDelete 0%nat = Some e ->
                  In (Success ("Error deleting asset: " ++ e)%string) elements).
Proof.
  destruct (run_sections faults rng inp ss db)
    as (ss1 & db1 & summary & draws & added & db2 & updated & db3 & deleted & db4
        & table & _ & _ & A & U & X & _ & R).
  exists (summary ++ added ++ updated ++ deleted ++ table), ss1, db4.
  split; [exact R|]. split; [|split; [|split]].
  - intros e S Tu Ta F. unfold add_asset in A. rewrite S, Tu, Ta in A. cbn [andb] in A.
    pose proof (create_asset_fault (faults AtCreate) (session_get (ss_user_id ss1))
                  (session_get (ss_account_id ss1)) (ticker inp) (asset_class inp)
                  (purchase_date inp) (Flt (shares inp)) (Flt (cost_basis inp)) db1 e F)
      as C.
    destruct (create_asset_and_transaction _ _ _ _ _ _ _ _ _) as [[r d] l].
    cbn [fst] in C. inversion C; subst. inversion A; subst.
    rewrite !in_app_iff. right. left. left. reflexivity.
  - intros e S F. unfold update in U. rewrite S in U.
    pose proof (update_asset_fault (faults AtUpdate) (update_id inp)
                  (option_number (new_shares inp)) (option_number (new_cost_basis inp))
                  db2 e F) as C.
    destruct (update_asset _ _ _ _ _) as [[r d] l].
    cbn [fst] in C. inversion C; subst. inversion U; subst.
    rewrite !in_app_iff. right. right. left. left. reflexivity.
  - intros S N1 N2 F. unfold update in U. rewrite S, N1, N2 in U.
    cbn [option_number] in U.
    pose proof (update_asset_no_fields (faults AtUpdate) (update_id inp) db2 F) as C.
    destruct (update_asset _ _ _ _ _) as [[r d] l].
    cbn [fst] in C. inversion C; subst. inversion U; subst.
    rewrite !in_app_iff. right. right. left. left. reflexivity.
  - intros e S F. unfold delete in X. rewrite S in X.
    pose proof (delete_asset_fault (faults AtDelete) (delete_id inp) db3 e F) as C.
    destruct (delete_asset _ _ _) as [[r d] l].
    cbn [fst] in C. inversion C; subst. inversion X; subst.
    rewrite !in_app_iff. right. right. right. left. left. reflexivity.
Qed.

Lemma page_shows_errors_as_success_witness :
  exists elements ss' db',
    run delete_fails (fun _ => Float.lit_0_5) all_submitted session_sample db_sample
    = (Return elements, ss', db')
    /\ update_submitted all_submitted = true
    /\ new_shares all_submitted = None
    /\ new_cost_basis all_submitted = None
    /\ delete_fails AtUpdate 0%nat = None
    /\ delete_submitted all_submitted = true
    /\ delete_fails AtDelete 0%nat = Some "connection lost"%string
    /\ In (Success "Error updating asset: syntax error"%string) elements
    /\ In (Success "Error deleting asset: connection lost"%string) elements.
Proof.
  destruct (page_shows_errors_as_success delete_fails (fun _ => Float.lit_0_5)
              all_submitted session_sample db_sample)
    as (elements & ss' & db' & R & _ & _ & H3 & H4).
  exists elements, ss', db'.
  split; [exact R|]. do 6 (split; [reflexivity|]).
  split.
  - apply H3; reflexivity.
  - apply (H4 "connection lost"%string); reflexivity.
Defined.

(** ** A setup that failed *)

Lemma create_user_and_account_fault
    faults user_name user_email account_type provider db e :
  faults 0%nat = Some e ->
  fst (create_user_and_account faults user_name user_email account_type provider db)
  = (Return (PTuple [PNone; PNone]), db).
Proof.
  intros F.
  unfold create_user_and_account, call, create_user_and_account_body, try_except,
    bind, execute, lift, commit, rollback, ret.
  cbn -[filter map]. rewrite F. cbn. rewrite database_eta. reflexivity.
Qed.

Lemma run_after_failed_setup faults rng inp db :
  faults AtPortfolio 0%nat = None ->
  update_submitted inp = false ->
  delete_submitted inp = false ->
  run faults rng inp session_failed db
  = (Return ((if submitted inp
              then [Error "Application setup failed. Please check the backend connection."]
              else [])
             ++ [Info "Your portfolio is currently empty. Add a new asset to get started!"]),
     session_failed, db).
Proof.
  intros FP U X.
  unfold run, bootstrap, dashboard, add_asset, update, delete, holdings_view,
    session_failed.
  cbn [ss_user_id ss_account_id session_get truthy andb].
  rewrite U, X.
  assert (R : portfolio_rows PNone db = []).
  { unfold portfolio_rows. cbn [adapt sql_eq].
    rewrite filter_none by reflexivity. reflexivity. }
  destruct (submitted inp); rewrite read_portfolio_run, FP; cbn [adapt];
    rewrite R; reflexivity.
Qed.

(** X18.  A setup that fails is kept for the whole session.  When the first
    statement of create_user_and_account fails, the script stores None
    under both keys; from then on the keys are present, so no later run
    calls create_user_and_account again, however healthy the server is.
    Such a run shows no summary, answers an Add submit with the setup
    error without writing anything, and reports the portfolio as empty. *)
Theorem failed_setup_is_kept faults rng inp db e :
  faults AtBootstrap 0%nat = Some e ->
  faults AtPortfolio 0%nat = None ->
  update_submitted inp = false ->
  delete_submitted inp = false ->
  let shown :=
    fun i =>
      (if submitted i
       then [Error "Application setup failed. Please check the backend connection."]
       else [])
      ++ [Info "Your portfolio is currently empty. Add a new asset to get started!"] in
  run faults rng inp (mkSession None None) db = (Return (shown inp), session_failed, db)
  /\ forall faults' rng' inp',
       faults' AtPortfolio 0%nat = None ->
       update_submitted inp' = false ->
       delete_submitted inp' = false ->
       run faults' rng' inp' session_failed db
       = (Return (shown inp'), session_failed, db).
Proof.
  intros FB FP U X. cbv zeta. split.
  - pose proof (run_after_failed_setup faults rng inp db FP U X) as R.
    unfold run in *. unfold bootstrap at 1. cbn [ss_user_id ss_account_id].
    pose proof (create_user_and_account_fault (faults AtBootstrap) "John Doe"
                  "john.doe@example.com" "Brokerage" "Fictional Broker" db e FB) as C.
    destruct (create_user_and_account _ _ _ _ _ _) as [[r d] l].
    cbn [fst] in C. inversion C; subst.
    unfold bootstrap at 1 in R. cbn [session_failed ss_user_id ss_account_id] in R.
    exact R.
  - intros faults' rng' inp' FP' U' X'. apply run_after_failed_setup; assumption.
Qed.

Lemma failed_setup_is_kept_witness :
  setup_fails AtBootstrap 0%nat = Some "connection lost"%string
  /\ setup_fails AtPortfolio 0%nat = None
  /\ update_submitted buying = false
  /\ delete_submitted buying = false
  /\ run setup_fails (fun _ => Float.lit_0_5) buying (mkSession None None) db_sample
     = (Return [Error "Application setup failed. Please check the backend connection.";
                Info "Your portfolio is currently empty. Add a new asset to get started!"],
        session_failed, db_sample)
  /\ run healthy (fun _ => Float.lit_0_5) buying session_failed db_sample
     = (Return [Error "Application setup failed. Please check the backend connection.";
                Info "Your portfolio is currently empty. Add a new asset to get started!"],
        session_failed, db_sample).
Proof.
  do 4 (split; [reflexivity|]).
  destruct (failed_setup_is_kept setup_fails (fun _ => Float.lit_0_5) buying db_sample
              "connection lost" eq_refl eq_refl eq_refl eq_refl) as [H1 H2].
  split; [exact H1|].
  exact (H2 healthy (fun _ => Float.lit_0_5) buying eq_refl eq_refl eq_refl).
Defined.

(** ** The run that adds an asset *)

(** X19.  In the run that handles an Add submit the summary is computed
    before the insert and the holdings after it: the metrics and the chart
    are those of the database without the new asset, while the table
    below, read from the database with it, has one entry more than the
    account had rows and already holds the new asset. *)
Theorem summary_precedes_purchase faults rng inp user_id account_id db db' log :
  truthy user_id = true ->
  truthy account_id = true ->
  submitted inp = true ->
  update_submitted inp = false ->
  delete_submitted inp = false ->
  faults AtPortfolio 0%nat = None ->
  create_asset_and_transaction (faults AtCreate) user_id account_id (ticker inp)
    (asset_class inp) (purchase_date inp) (Flt (shares inp)) (Flt (cost_basis inp)) db
  = (Return "Asset and transaction created successfully."%string, db', log) ->
  let ss := mkSession (Some user_id) (Some account_id) in
  exists summary draws table,
    dashboard faults rng ss db = (Return summary, draws)
    /\ run faults rng inp ss db
       = (Return (summary
                  ++ [Success "Asset and transaction created successfully.";
                      DataFrame table]),
          ss, db')
    /\ List.length table = S (List.length (portfolio_rows account_id db))
    /\ In (assets_seq (db_seq db) + 1, ticker inp, asset_class inp,
           Decimal (Flt (shares inp)), Dec.format_2f (Decimal (Flt (cost_basis inp))),
           purchase_date inp)
          (map stored_fields table).
Proof.
  intros Tu Ta S U X FP C. cbv zeta.
  destruct (dashboard_returns faults rng
              (mkSession (Some user_id) (Some account_id)) db) as (summary & draws & D).
  destruct (create_asset_success _ _ _ _ _ _ _ _ _ _ _ C) as (aid & A & _ & E).
  exists summary, draws, (holdings (later draws rng) 0 (portfolio_rows account_id db')).
  split; [exact D|].
  assert (R : portfolio_rows account_id db'
              = portfolio_rows account_id db
                ++ [(assets_seq (db_seq db) + 1, ticker inp, asset_class inp,
                     Decimal (Flt (shares inp)), Decimal (Flt (cost_basis inp)),
                     purchase_date inp)]).
  { rewrite E.
    rewrite (portfolio_rows_after_create account_id aid) by (exact A || reflexivity).
    reflexivity. }
  split; [|split].
  - unfold run, bootstrap. cbn [ss_user_id ss_account_id]. rewrite D.
    unfold add_asset, update, delete, holdings_view.
    cbn [ss_user_id ss_account_id session_get]. rewrite S, U, X, Tu, Ta. cbn [andb].
    rewrite C. rewrite read_portfolio_run, FP.
    assert (N : holdings (later draws rng) 0 (portfolio_rows account_id db') <> []).
    { rewrite R, holdings_app. intros N. apply app_eq_nil in N.
      destruct N as [_ N]. discriminate N. }
    rewrite A.
    destruct (holdings (later draws rng) 0 (portfolio_rows account_id db')) eqn:Hh;
      [exfalso; apply N; reflexivity|reflexivity].
  - rewrite holdings_length, R, length_app. cbn [List.length]. lia.
  - rewrite stored_fields_holdings, R, map_app. apply in_or_app. right. left.
    reflexivity.
Qed.

Lemma summary_precedes_purchase_witness :
  exists db' log summary draws table,
    truthy (PInt 1) = true
    /\ submitted buying = true
    /\ update_submitted buying = false
    /\ delete_submitted buying = false
    /\ healthy AtPortfolio 0%nat = None
    /\ create_asset_and_transaction (healthy AtCreate) (PInt 1) (PInt 1) (ticker buying)
         (asset_class buying) (purchase_date buying) (Flt (shares buying))
         (Flt (cost_basis buying)) db_sample
       = (Return "Asset and transaction created successfully."%string, db', log)
    /\ dashboard healthy (fun _ => Float.lit_0_5) session_sample db_sample
       = (Return summary, draws)
    /\ run healthy (fun _ => Float.lit_0_5) buying session_sample db_sample
       = (Return (summary
                  ++ [Success "Asset and transaction created successfully.";
                      DataFrame table]),
          session_sample, db')
    /\ List.length table = 2%nat.
Proof.
  eexists. eexists.
  assert (C : create_asset_and_transaction (healthy AtCreate) (PInt 1) (PInt 1)
                (ticker buying) (asset_class buying) (purchase_date buying)
                (Flt (shares buying)) (Flt (cost_basis buying)) db_sample
              = (Return "Asset and transaction created successfully."%string,
                 snd (fst (create_asset_and_transaction (healthy AtCreate) (PInt 1)
                             (PInt 1) (ticker buying) (asset_class buying)
                             (purchase_date buying) (Flt (shares buying))
                             (Flt (cost_basis buying)) db_sample)),
                 snd (create_asset_and_transaction (healthy AtCreate) (PInt 1)
                        (PInt 1) (ticker buying) (asset_class buying)
                        (purchase_date buying) (Flt (shares buying))
                        (Flt (cost_basis buying)) db_sample)))
    by (vm_compute; reflexivity).
  destruct (summary_precedes_purchase healthy (fun _ => Float.lit_0_5) buying
              (PInt 1) (PInt 1) db_sample _ _ eq_refl eq_refl eq_refl eq_refl eq_refl
              eq_refl C) as (summary & draws & table & D & R & L & _).
  exists summary, draws, table.
  do 5 (split; [reflexivity|]).
  split; [exact C|]. split; [exact D|]. split; [exact R|]. exact L.
Defined.
